(** * Secret Network node: transaction pipeline, verified model

    A shallow embedding of the resource handlers of the Secret Network
    node ([nodes/Secret Network/Secret Network.node.ts]) and of the
    platform and library functions they call ([Buffer],
    [crypto.createHash], [JSON.stringify], [parseFloat], [Math.ceil],
    [Number.prototype.toString], [secp256k1]).

    Conventions.
    - A JavaScript string is a [string] holding its UTF-8 bytes, which is
      what [Buffer.from(s)] yields; strings are well-formed Unicode (no
      lone surrogate).
    - A [Uint8Array] / [Buffer] is a [list byte].
    - A JavaScript number is a binary64 value, [spec_float] with
      [prec = 53] and [emax = 1024].
    - [helpers.httpRequest], [Date.now] and [Math.random] are answered by a
      scripted world threaded through the state-and-exception monad [M]. *)

From Stdlib Require Import ZArith List String Ascii Bool Lia.
From Stdlib Require Import Init.Byte DecimalString.
From Stdlib Require Import Floats.SpecFloat.
From Bignums Require Import BigZ.
Import ListNotations.

Set Warnings "-register-all".

Local Open Scope string_scope.
Local Open Scope list_scope.
Local Open Scope Z_scope.

(** String concatenation, the [+] of JavaScript on strings and the
    juxtaposition inside template literals. *)
Infix "+++" := String.append (right associativity, at level 60) : string_scope.

(** ** Buffers: bytes, hexadecimal and base64 text *)

Module Buffer.

Definition byte_to_Z (b : byte) : Z := Z.of_N (Byte.to_N b).

Definition byte_of_Z (z : Z) : byte :=
  match Byte.of_N (Z.to_N (z mod 256)) with
  | Some b => b
  | None => x00
  end.

(** [Buffer.from(s)] with the default utf8 encoding. *)
Definition from (s : string) : list byte := list_byte_of_string s.

Definition hex_digit (z : Z) : ascii :=
  ascii_of_N (Z.to_N (if z <? 10 then 48 + z else 87 + z)).

(** [buf.toString('hex')] *)
Fixpoint toHex (bs : list byte) : string :=
  match bs with
  | [] => EmptyString
  | b :: rest =>
      let z := byte_to_Z b in
      String (hex_digit (z / 16)) (String (hex_digit (z mod 16)) (toHex rest))
  end.

Definition hex_value (c : ascii) : option Z :=
  let n := Z.of_N (N_of_ascii c) in
  if (48 <=? n) && (n <=? 57) then Some (n - 48)
  else if (97 <=? n) && (n <=? 102) then Some (n - 87)
  else if (65 <=? n) && (n <=? 70) then Some (n - 55)
  else None.

(** [Buffer.from(s, 'hex')]: pairs of hex digits are decoded until the
    first pair that is not one; a trailing odd digit is dropped. *)
Fixpoint fromHex (s : string) : list byte :=
  match s with
  | String c1 (String c2 rest) =>
      match hex_value c1, hex_value c2 with
      | Some h, Some l => byte_of_Z (16 * h + l) :: fromHex rest
      | _, _ => []
      end
  | _ => []
  end.

Definition base64_alphabet : string :=
  "ABCDEFGHIJKLMNOPQRSTUVWXYZabcdefghijklmnopqrstuvwxyz0123456789+/".

Definition base64_char (z : Z) : ascii :=
  match String.get (Z.to_nat (z mod 64)) base64_alphabet with
  | Some c => c
  | None => "="%char
  end.

(** [buf.toString('base64')] *)
Fixpoint toBase64 (bs : list byte) : string :=
  match bs with
  | [] => EmptyString
  | [a] =>
      let x := byte_to_Z a in
      String (base64_char (x / 4))
        (String (base64_char ((x mod 4) * 16)) "==")
  | [a; b] =>
      let x := byte_to_Z a in
      let y := byte_to_Z b in
      String (base64_char (x / 4))
        (String (base64_char ((x mod 4) * 16 + y / 16))
           (String (base64_char ((y mod 16) * 4)) "="))
  | a :: b :: c :: rest =>
      let x := byte_to_Z a in
      let y := byte_to_Z b in
      let z := byte_to_Z c in
      String (base64_char (x / 4))
        (String (base64_char ((x mod 4) * 16 + y / 16))
           (String (base64_char ((y mod 16) * 4 + z / 64))
              (String (base64_char (z mod 64)) (toBase64 rest))))
  end.

(** [Buffer.from(s).toString('base64')] *)
Definition base64_of_string (s : string) : string := toBase64 (from s).

End Buffer.

(** ** 32-bit words shared by the two digests *)

Module Word32.

Definition wrap (x : Z) : Z := x mod 2 ^ 32.
Definition add (x y : Z) : Z := wrap (x + y).
Definition not (x : Z) : Z := 2 ^ 32 - 1 - x.
Definition rotl (n x : Z) : Z :=
  Z.lor (wrap (Z.shiftl x n)) (Z.shiftr x (32 - n)).
Definition rotr (n x : Z) : Z :=
  Z.lor (Z.shiftr x n) (wrap (Z.shiftl x (32 - n))).

Definition of_be (b0 b1 b2 b3 : Z) : Z :=
  ((b0 * 256 + b1) * 256 + b2) * 256 + b3.
Definition of_le (b0 b1 b2 b3 : Z) : Z := of_be b3 b2 b1 b0.

Definition to_be (x : Z) : list byte :=
  [ Buffer.byte_of_Z (x / 2 ^ 24); Buffer.byte_of_Z (x / 2 ^ 16);
    Buffer.byte_of_Z (x / 2 ^ 8); Buffer.byte_of_Z x ].
Definition to_le (x : Z) : list byte := rev (to_be x).

(** Groups a byte list into 32-bit words, four bytes at a time. *)
Fixpoint words (conv : Z -> Z -> Z -> Z -> Z) (bs : list Z) : list Z :=
  match bs with
  | b0 :: b1 :: b2 :: b3 :: rest => conv b0 b1 b2 b3 :: words conv rest
  | _ => []
  end.

(** Splits a word list into blocks of sixteen words. *)
Fixpoint blocks (fuel : nat) (ws : list Z) : list (list Z) :=
  match fuel with
  | O => []
  | S fuel' =>
      match ws with
      | [] => []
      | _ => firstn 16 ws :: blocks fuel' (skipn 16 ws)
      end
  end.

(** Merkle-Damgard padding of both digests: a [0x80] byte, zero bytes up
    to 56 modulo 64, then the bit length on eight bytes ([len8]). *)
Definition pad (len8 : Z -> list Z) (msg : list byte) : list Z :=
  let n := Z.of_nat (List.length msg) in
  let zeros := Z.to_nat ((55 - n) mod 64) in
  map Buffer.byte_to_Z msg ++ [128] ++ repeat 0 zeros ++ len8 (8 * n).

Definition len8_be (n : Z) : list Z :=
  map (fun i => (n / 2 ^ (8 * i)) mod 256) [7; 6; 5; 4; 3; 2; 1; 0].
Definition len8_le (n : Z) : list Z := rev (len8_be n).

End Word32.

(** ** [createHash('sha256')]: SHA-256, FIPS 180-4 *)

Module SHA256.
Import Word32.

Definition Ch (x y z : Z) := Z.lxor (Z.land x y) (Z.land (not x) z).
Definition Maj (x y z : Z) :=
  Z.lxor (Z.lxor (Z.land x y) (Z.land x z)) (Z.land y z).
Definition Sigma0 x := Z.lxor (Z.lxor (rotr 2 x) (rotr 13 x)) (rotr 22 x).
Definition Sigma1 x := Z.lxor (Z.lxor (rotr 6 x) (rotr 11 x)) (rotr 25 x).
Definition sigma0 x := Z.lxor (Z.lxor (rotr 7 x) (rotr 18 x)) (Z.shiftr x 3).
Definition sigma1 x := Z.lxor (Z.lxor (rotr 17 x) (rotr 19 x)) (Z.shiftr x 10).

(** The primes below [bound], by trial division. *)
Definition is_prime (p : Z) : bool :=
  (1 <? p)
  && forallb (fun d => negb (p mod d =? 0) || (p <=? d))
             (map Z.of_nat (seq 2 (Z.to_nat (Z.sqrt p)))).

Definition primes_below (bound : nat) : list Z :=
  filter is_prime (map Z.of_nat (seq 0 bound)).

(** The integer part of the [k]-th root of [n], by bisection. *)
Fixpoint bisect (fuel : nat) (k n lo hi : Z) : Z :=
  match fuel with
  | O => lo
  | S fuel' =>
      if hi - lo <=? 1 then lo
      else
        let mid := (lo + hi) / 2 in
        if mid ^ k <=? n then bisect fuel' k n mid hi
        else bisect fuel' k n lo mid
  end.

Definition root (k n : Z) : Z :=
  bisect (S (Z.to_nat (Z.log2 n))) k n 0 (n + 1).

(** The first 32 bits of the fractional part of the [k]-th root of [p]. *)
Definition fractional_root (k p : Z) : Z :=
  wrap (root k (p * 2 ^ (32 * k))).

(** The round constants: the fractional parts of the cube roots of the
    first sixty-four primes (section 4.2.2). *)
Definition K : list Z :=
  Eval vm_compute in map (fractional_root 3) (primes_below 312).

Record state := mk
  { ha : Z; hb : Z; hc : Z; hd : Z; he : Z; hf : Z; hg : Z; hh : Z }.

(** The initial hash value: the fractional parts of the square roots of
    the first eight primes (section 5.3.3). *)
Definition H0 : state :=
  Eval vm_compute in
    match map (fractional_root 2) (primes_below 20) with
    | [a; b; c; d; e; f; g; h] => mk a b c d e f g h
    | _ => mk 0 0 0 0 0 0 0 0
    end.

(** The message schedule, kept newest word first: [extend n w] adds [n]
    words to the sixteen words of the block. *)
Fixpoint extend (n : nat) (w : list Z) : list Z :=
  match n with
  | O => w
  | S n' =>
      let t :=
        add (add (sigma1 (nth 1 w 0)) (nth 6 w 0))
            (add (sigma0 (nth 14 w 0)) (nth 15 w 0)) in
      extend n' (t :: w)
  end.

Definition schedule (block : list Z) : list Z :=
  rev (extend 48 (rev block)).

Definition round (s : state) (kw : Z * Z) : state :=
  let '(k, w) := kw in
  let t1 :=
    add (add (add (add (hh s) (Sigma1 (he s))) (Ch (he s) (hf s) (hg s))) k) w in
  let t2 := add (Sigma0 (ha s)) (Maj (ha s) (hb s) (hc s)) in
  mk (add t1 t2) (ha s) (hb s) (hc s) (add (hd s) t1) (he s) (hf s) (hg s).

Definition compress (h : state) (block : list Z) : state :=
  let s := fold_left round (combine K (schedule block)) h in
  mk (add (ha h) (ha s)) (add (hb h) (hb s)) (add (hc h) (hc s))
     (add (hd h) (hd s)) (add (he h) (he s)) (add (hf h) (hf s))
     (add (hg h) (hg s)) (add (hh h) (hh s)).

Definition output (s : state) : list byte :=
  to_be (ha s) ++ to_be (hb s) ++ to_be (hc s) ++ to_be (hd s) ++
  to_be (he s) ++ to_be (hf s) ++ to_be (hg s) ++ to_be (hh s).

Definition digest (msg : list byte) : list byte :=
  let ws := words of_be (pad len8_be msg) in
  output (fold_left compress (blocks (List.length ws) ws) H0).

End SHA256.

(** ** [createHash('ripemd160')]: RIPEMD-160 *)

Module RIPEMD160.
Import Word32.

Definition f (j : nat) (x y z : Z) : Z :=
  match Nat.div j 16 with
  | 0%nat => Z.lxor (Z.lxor x y) z
  | 1%nat => Z.lor (Z.land x y) (Z.land (not x) z)
  | 2%nat => Z.lxor (Z.lor x (not y)) z
  | 3%nat => Z.lor (Z.land x z) (Z.land y (not z))
  | _ => Z.lxor x (Z.lor y (not z))
  end.

Definition KL : list Z :=
  [0x00000000; 0x5A827999; 0x6ED9EBA1; 0x8F1BBCDC; 0xA953FD4E].
Definition KR : list Z :=
  [0x50A28BE6; 0x5C4DD124; 0x6D703EF3; 0x7A6D76E9; 0x00000000].

Definition RL : list nat :=
  [ 0; 1; 2; 3; 4; 5; 6; 7; 8; 9; 10; 11; 12; 13; 14; 15;
    7; 4; 13; 1; 10; 6; 15; 3; 12; 0; 9; 5; 2; 14; 11; 8;
    3; 10; 14; 4; 9; 15; 8; 1; 2; 7; 0; 6; 13; 11; 5; 12;
    1; 9; 11; 10; 0; 8; 12; 4; 13; 3; 7; 15; 14; 5; 6; 2;
    4; 0; 5; 9; 7; 12; 2; 10; 14; 1; 3; 8; 11; 6; 15; 13 ]%nat.
Definition RR : list nat :=
  [ 5; 14; 7; 0; 9; 2; 11; 4; 13; 6; 15; 8; 1; 10; 3; 12;
    6; 11; 3; 7; 0; 13; 5; 10; 14; 15; 8; 12; 4; 9; 1; 2;
    15; 5; 1; 3; 7; 14; 6; 9; 11; 8; 12; 2; 10; 0; 4; 13;
    8; 6; 4; 1; 3; 11; 15; 0; 5; 12; 2; 13; 9; 7; 10; 14;
    12; 15; 10; 4; 1; 5; 8; 7; 6; 2; 13; 14; 0; 3; 9; 11 ]%nat.
Definition SL : list Z :=
  [ 11; 14; 15; 12; 5; 8; 7; 9; 11; 13; 14; 15; 6; 7; 9; 8;
    7; 6; 8; 13; 11; 9; 7; 15; 7; 12; 15; 9; 11; 7; 13; 12;
    11; 13; 6; 7; 14; 9; 13; 15; 14; 8; 13; 6; 5; 12; 7; 5;
    11; 12; 14; 15; 14; 15; 9; 8; 9; 14; 5; 6; 8; 6; 5; 12;
    9; 15; 5; 11; 6; 8; 13; 12; 5; 12; 13; 14; 11; 8; 5; 6 ].
Definition SR : list Z :=
  [ 8; 9; 9; 11; 13; 15; 15; 5; 7; 7; 8; 11; 14; 14; 12; 6;
    9; 13; 15; 7; 12; 8; 9; 11; 7; 7; 12; 7; 6; 15; 13; 11;
    9; 7; 15; 11; 8; 6; 6; 14; 12; 13; 5; 14; 13; 13; 7; 5;
    15; 5; 8; 11; 14; 14; 6; 14; 6; 9; 12; 9; 12; 5; 15; 8;
    8; 5; 12; 9; 12; 5; 14; 6; 8; 13; 6; 5; 15; 13; 11; 11 ].

Record state := mk { h0 : Z; h1 : Z; h2 : Z; h3 : Z; h4 : Z }.

Definition init : state :=
  mk 0x67452301 0xEFCDAB89 0x98BADCFE 0x10325476 0xC3D2E1F0.

(** One step of a line: [fj] is the round function index, [k] the round
    constant, [x] the selected message word and [s] the rotation. *)
Definition step (fj : nat) (k x s : Z) (st : state) : state :=
  let t :=
    add (rotl s (add (add (add (h0 st) (f fj (h1 st) (h2 st) (h3 st))) x) k))
        (h4 st) in
  mk (h4 st) t (h1 st) (rotl 10 (h2 st)) (h3 st).

Definition left_line (block : list Z) (st : state) : state :=
  fold_left
    (fun acc j =>
       step j (nth (Nat.div j 16) KL 0) (nth (nth j RL 0%nat) block 0)
            (nth j SL 0) acc)
    (seq 0 80) st.

Definition right_line (block : list Z) (st : state) : state :=
  fold_left
    (fun acc j =>
       step (79 - j) (nth (Nat.div j 16) KR 0) (nth (nth j RR 0%nat) block 0)
            (nth j SR 0) acc)
    (seq 0 80) st.

Definition compress (h : state) (block : list Z) : state :=
  let l := left_line block h in
  let r := right_line block h in
  mk (add (add (h1 h) (h2 l)) (h3 r))
     (add (add (h2 h) (h3 l)) (h4 r))
     (add (add (h3 h) (h4 l)) (h0 r))
     (add (add (h4 h) (h0 l)) (h1 r))
     (add (add (h0 h) (h1 l)) (h2 r)).

Definition output (s : state) : list byte :=
  to_le (h0 s) ++ to_le (h1 s) ++ to_le (h2 s) ++ to_le (h3 s) ++ to_le (h4 s).

Definition digest (msg : list byte) : list byte :=
  let ws := words of_le (pad len8_le msg) in
  output (fold_left compress (blocks (List.length ws) ws) init).

End RIPEMD160.

(** ** JavaScript numbers: IEEE 754 binary64 *)

Module Num.

Definition number := spec_float.

Definition prec : Z := 53.
Definition emax : Z := 1024.

Definition mul : number -> number -> number := SFmul prec emax.
Definition add : number -> number -> number := SFadd prec emax.
Definition ltb : number -> number -> bool := SFltb.
Definition eqb : number -> number -> bool := SFeqb.

(** The number nearest to an integer (ties to even). *)
Definition of_Z (z : Z) : number := binary_normalize prec emax z 0 false.

(** The number nearest to [m * 10 ^ e10], for [m > 0]. *)
Definition of_decimal (m : positive) (e10 : Z) : number :=
  if 0 <=? e10 then of_Z (Zpos m * 10 ^ e10)
  else SFdiv prec emax (S754_finite false m 0)
                       (S754_finite false (Z.to_pos (10 ^ (- e10))) 0).

Definition NaN : number := S754_nan.
Definition zero : number := S754_zero false.

(** [Math.ceil] *)
Definition ceil (x : number) : number :=
  match x with
  | S754_finite s m e =>
      if 0 <=? e then x
      else
        let d := 2 ^ (- e) in
        let q := Zpos m / d in
        let r := Zpos m mod d in
        if s then
          (if q =? 0 then S754_zero true else SFopp (of_Z q))
        else of_Z (if r =? 0 then q else q + 1)
  | _ => x
  end.

(** *** [parseFloat] *)

Definition is_digit (c : ascii) : bool :=
  let n := Z.of_N (N_of_ascii c) in (48 <=? n) && (n <=? 57).

Definition digit_value (c : ascii) : Z := Z.of_N (N_of_ascii c) - 48.

(** Splits off the longest run of decimal digits. *)
Fixpoint span_digits (s : string) : string * string :=
  match s with
  | String c rest =>
      if is_digit c then
        let '(ds, tl) := span_digits rest in (String c ds, tl)
      else (EmptyString, s)
  | EmptyString => (EmptyString, EmptyString)
  end.

Fixpoint digits_value (acc : Z) (s : string) : Z :=
  match s with
  | String c rest => digits_value (10 * acc + digit_value c) rest
  | EmptyString => acc
  end.

(** White space and line terminators ([StrWhiteSpaceChar]) in UTF-8. *)
Definition white_space : list string :=
  map string_of_list_byte
    [ [x09]; [x0a]; [x0b]; [x0c]; [x0d]; [x20]; [xc2; xa0];
      [xe1; x9a; x80];
      [xe2; x80; x80]; [xe2; x80; x81]; [xe2; x80; x82]; [xe2; x80; x83];
      [xe2; x80; x84]; [xe2; x80; x85]; [xe2; x80; x86]; [xe2; x80; x87];
      [xe2; x80; x88]; [xe2; x80; x89]; [xe2; x80; x8a];
      [xe2; x80; xa8]; [xe2; x80; xa9]; [xe2; x80; xaf];
      [xe2; x81; x9f]; [xe3; x80; x80]; [xef; xbb; xbf] ].

(** [strip p s] is what follows [p] when [s] starts with [p]. *)
Fixpoint strip (p s : string) : option string :=
  match p, s with
  | EmptyString, _ => Some s
  | String a p', String b s' =>
      if Ascii.eqb a b then strip p' s' else None
  | String _ _, EmptyString => None
  end.

Fixpoint strip_any (ps : list string) (s : string) : option string :=
  match ps with
  | [] => None
  | p :: ps' =>
      match strip p s with
      | Some tl => Some tl
      | None => strip_any ps' s
      end
  end.

Fixpoint trim_start (fuel : nat) (s : string) : string :=
  match fuel with
  | O => s
  | S fuel' =>
      match strip_any white_space s with
      | Some tl => trim_start fuel' tl
      | None => s
      end
  end.

(** The exponent part [e], [E] with an optional sign and at least one
    digit; [0] when the text does not continue with one. *)
Definition exponent_part (s : string) : Z :=
  match s with
  | String c rest =>
      if Ascii.eqb c "e" || Ascii.eqb c "E" then
        let '(neg, rest') :=
          match rest with
          | String "+" r => (false, r)
          | String "-" r => (true, r)
          | _ => (false, rest)
          end in
        let '(ds, _) := span_digits rest' in
        match ds with
        | EmptyString => 0
        | _ => if neg then - digits_value 0 ds else digits_value 0 ds
        end
      else 0
  | EmptyString => 0
  end.

(** The longest prefix that is a [StrUnsignedDecimalLiteral], as a
    number; NaN when there is none. *)
Definition unsigned_literal (s : string) : number :=
  match strip "Infinity" s with
  | Some _ => S754_infinity false
  | None =>
      let '(ip, rest) := span_digits s in
      let '(fp, rest') :=
        match rest with
        | String "." r =>
            let '(fp, r') := span_digits r in
            match ip, fp with
            | EmptyString, EmptyString => (EmptyString, rest)
            | _, _ => (fp, r')
            end
        | _ => (EmptyString, rest)
        end in
      match ip, fp with
      | EmptyString, EmptyString => NaN
      | _, _ =>
          let m := digits_value 0 (ip +++ fp) in
          let e10 := exponent_part rest' - Z.of_nat (String.length fp) in
          match m with
          | Zpos p => of_decimal p e10
          | _ => zero
          end
      end
  end.

Definition parseFloat (s : string) : number :=
  match trim_start (String.length s) s with
  | String "-" rest => SFopp (unsigned_literal rest)
  | String "+" rest => unsigned_literal rest
  | t => unsigned_literal t
  end.

End Num.

(** ** [Number.prototype.toString] with radix 10 *)

Module NumberToString.
Import Num.

Definition decimal (z : Z) : string :=
  DecimalString.NilZero.string_of_uint (N.to_uint (Z.to_N z)).

(** [m * 2 ^ e < 10 ^ n] on exact integers. *)
Definition below_pow10 (m e n : Z) : bool :=
  m * 2 ^ Z.max e 0 * 10 ^ Z.max (- n) 0 <? 10 ^ Z.max n 0 * 2 ^ Z.max (- e) 0.

Fixpoint search_up (fuel : nat) (m e n : Z) : Z :=
  match fuel with
  | O => n
  | S fuel' => if below_pow10 m e n then n else search_up fuel' m e (n + 1)
  end.

(** The least [n] with [m * 2 ^ e < 10 ^ n]. *)
Definition magnitude (m : positive) (e : Z) : Z :=
  let x := Zpos (digits2_pos m) + e - 1 in
  search_up 12 (Zpos m) e (3 * x / 10 - 2).

(** A candidate [(s, j)] stands for the decimal [s * 10 ^ (j + p0)];
    [dist] is its distance to the number in the unit of the search. *)
Record candidate := { cand_s : Z; cand_j : Z; cand_dist : Z }.

Definition closer (c1 c2 : candidate) : bool :=
  (cand_dist c1 <? cand_dist c2)
  || ((cand_dist c1 =? cand_dist c2) && Z.even (cand_s c1)
        && negb (Z.even (cand_s c2))).

Definition pick (best : option candidate) (c : candidate) : option candidate :=
  match best with
  | None => Some c
  | Some b => if closer c b then Some c else best
  end.

Definition clamp (lo hi x : Z) : Z := Z.max lo (Z.min hi x).

(** The digits [s], their count [k] and the exponent [n] of step 5 of
    Number::toString: the fewest digits [k] such that [s * 10 ^ (n - k)]
    rounds to [m * 2 ^ e], and among those the nearest [s]. *)
Section Shortest.
Variables (m : positive) (e : Z).

Let n0 := magnitude m e.
Let boundary := Pos.eqb m (2 ^ 52)%positive && (-1074 <? e).
Let inclusive := Z.even (Zpos m).
Let V := 4 * Zpos m.
Let LO := if boundary then V - 1 else V - 2.
Let HI := V + 2.
Let e2 := e - 2.

Definition candidates_at (k : Z) : option candidate :=
  let p0 := n0 - 1 - k in
  let A := 10 ^ Z.max p0 0 * 2 ^ Z.max (- e2) 0 in
  let B := 2 ^ Z.max e2 0 * 10 ^ Z.max (- p0) 0 in
  fold_left
    (fun best j =>
       let U := A * 10 ^ j in
       let smin :=
         if inclusive then (LO * B + U - 1) / U else LO * B / U + 1 in
       let smax :=
         if inclusive then HI * B / U else (HI * B + U - 1) / U - 1 in
       let a := Z.max smin (10 ^ (k - 1)) in
       let b := Z.min smax (10 ^ k - 1) in
       if a <=? b then
         let t := V * B / U in
         let c1 := clamp a b t in
         let c2 := clamp a b (t + 1) in
         pick (pick best {| cand_s := c1; cand_j := j;
                            cand_dist := Z.abs (c1 * U - V * B) |})
              {| cand_s := c2; cand_j := j;
                 cand_dist := Z.abs (c2 * U - V * B) |}
       else best)
    [0; 1; 2] None.

Fixpoint search_digits (fuel : nat) (k : Z) : Z * Z * Z :=
  match fuel with
  | O => (Zpos m, k, n0)
  | S fuel' =>
      match candidates_at k with
      | Some c => (cand_s c, k, n0 - 1 + cand_j c)
      | None => search_digits fuel' (k + 1)
      end
  end.

Definition shortest : Z * Z * Z := search_digits 17 1.
End Shortest.

Definition zeros (n : Z) : string :=
  string_of_list_ascii (repeat "0"%char (Z.to_nat n)).

Definition exponent_suffix (n : Z) : string :=
  "e" +++ (if 0 <=? n - 1 then "+" else "-") +++ decimal (Z.abs (n - 1)).

Definition format (s k n : Z) : string :=
  let ds := decimal s in
  if (k <=? n) && (n <=? 21) then ds +++ zeros (n - k)
  else if (0 <? n) && (n <=? 21) then
    substring 0 (Z.to_nat n) ds +++ "." +++
    substring (Z.to_nat n) (Z.to_nat (k - n)) ds
  else if (-6 <? n) && (n <=? 0) then "0." +++ zeros (- n) +++ ds
  else if k =? 1 then ds +++ exponent_suffix n
  else
    substring 0 1 ds +++ "." +++ substring 1 (Z.to_nat (k - 1)) ds +++
    exponent_suffix n.

Definition toString (x : number) : string :=
  match x with
  | S754_nan => "NaN"
  | S754_zero _ => "0"
  | S754_infinity s => if s then "-Infinity" else "Infinity"
  | S754_finite s m e =>
      let '(d, k, n) := shortest m e in
      (if s then "-" else EmptyString) +++ format d k n
  end.

End NumberToString.

(** ** JavaScript values and [JSON.stringify] *)

Module JS.
Import Num.

(** The values that travel through the node: parameters, request bodies
    and parsed responses. The properties of an object are listed in the
    order in which the engine enumerates them. *)
Inductive value :=
| VUndefined
| VNull
| VBool (b : bool)
| VNum (x : number)
| VStr (s : string)
| VArr (items : list value)
| VObj (props : list (string * value)).

Fixpoint lookup (k : string) (props : list (string * value)) : value :=
  match props with
  | [] => VUndefined
  | (k', v) :: rest => if String.eqb k k' then v else lookup k rest
  end.

(** [v.k]: reading a property of [undefined] or [null] is a TypeError
    ([None]); the primitives and arrays have none of the properties read
    by the node. *)
Definition get (k : string) (v : value) : option value :=
  match v with
  | VUndefined | VNull => None
  | VObj props => Some (lookup k props)
  | _ => Some VUndefined
  end.

(** [o.k = v] on an object: an existing property keeps its place. *)
Fixpoint assign (k : string) (v : value) (props : list (string * value))
  : list (string * value) :=
  match props with
  | [] => [(k, v)]
  | (k', v') :: rest =>
      if String.eqb k k' then (k, v) :: rest else (k', v') :: assign k v rest
  end.

(** ToBoolean *)
Definition truthy (v : value) : bool :=
  match v with
  | VUndefined | VNull => false
  | VBool b => b
  | VNum x =>
      match x with
      | S754_zero _ | S754_nan => false
      | _ => true
      end
  | VStr s => negb (String.eqb s EmptyString)
  | VArr _ | VObj _ => true
  end.

(** [a || b] *)
Definition or (a b : value) : value := if truthy a then a else b.

(** [v === s] for a string [s] *)
Definition strict_eq_string (v : value) (s : string) : bool :=
  match v with
  | VStr s' => String.eqb s' s
  | _ => false
  end.

Definition control_escape (c : ascii) : string :=
  let n := Z.of_N (N_of_ascii c) in
  "\u00" +++ String (Buffer.hex_digit (n / 16))
               (String (Buffer.hex_digit (n mod 16)) EmptyString).

(** QuoteJSONString, without the enclosing quotes. *)
Fixpoint escape (s : string) : string :=
  match s with
  | EmptyString => EmptyString
  | String c rest =>
      let n := N_of_ascii c in
      (if N.eqb n 8 then "\b"
       else if N.eqb n 9 then "\t"
       else if N.eqb n 10 then "\n"
       else if N.eqb n 12 then "\f"
       else if N.eqb n 13 then "\r"
       else if N.eqb n 34 then String "\" (String c EmptyString)
       else if N.eqb n 92 then "\\"
       else if N.ltb n 32 then control_escape c
       else String c EmptyString) +++ escape rest
  end.

Definition quote (s : string) : string :=
  String (ascii_of_N 34) (escape s +++ String (ascii_of_N 34) EmptyString).

Fixpoint join (sep : string) (parts : list string) : string :=
  match parts with
  | [] => EmptyString
  | [p] => p
  | p :: rest => p +++ sep +++ join sep rest
  end.

Definition is_finite (x : number) : bool :=
  match x with
  | S754_finite _ _ _ | S754_zero _ => true
  | _ => false
  end.

(** SerializeJSONProperty for a value that is not [undefined]; an
    [undefined] element of an array is written [null], an [undefined]
    property of an object is left out. *)
Fixpoint serialize (v : value) : string :=
  match v with
  | VUndefined | VNull => "null"
  | VBool b => if b then "true" else "false"
  | VNum x => if is_finite x then NumberToString.toString x else "null"
  | VStr s => quote s
  | VArr items => "[" +++ join "," (map serialize items) +++ "]"
  | VObj props =>
      "{" +++
      join ","
        ((fix members (ps : list (string * value)) : list string :=
            match ps with
            | [] => []
            | (k, VUndefined) :: rest => members rest
            | (k, x) :: rest => (quote k +++ ":" +++ serialize x) :: members rest
            end) props) +++
      "}"
  end.

(** The members of an object, as [serialize] writes them. *)
Fixpoint members (ps : list (string * value)) : list string :=
  match ps with
  | [] => []
  | (k, VUndefined) :: rest => members rest
  | (k, x) :: rest => (quote k +++ ":" +++ serialize x) :: members rest
  end.

(** [JSON.stringify(v)]; [None] is the [undefined] it returns for
    [undefined]. *)
Definition stringify (v : value) : option string :=
  match v with
  | VUndefined => None
  | _ => Some (serialize v)
  end.

End JS.

(** ** The execution context of a node *)

Module Runtime.
Import Num JS.

(** What a [catch] clause of the node can receive. [Error] is a plain
    JavaScript error (a rejected request, an exception of a library),
    the two [Node...] errors are those of n8n-workflow. A
    [NodeOperationError] built from a text has that text as its message;
    a [NodeApiError] has the message the library wrote for it and keeps
    the error it was built around. *)
Inductive error :=
| Error (message : string)
| TypeError (message : string)
| NodeOperationError (message : string)
| NodeApiError (message : string) (cause : error).

(** [error.message] *)
Definition message (e : error) : string :=
  match e with
  | Error m | TypeError m | NodeOperationError m | NodeApiError m _ => m
  end.

Inductive result (A : Type) :=
| Ok (a : A)
| Throw (e : error).
Arguments Ok {A} a.
Arguments Throw {A} e.

(** The options object handed to [helpers.httpRequest]. *)
Record request := {
  method : string;
  url : string;
  headers : list (string * string);
  qs : list (string * value);
  body : value
}.

(** One answer of the network: the time it took and either the parsed
    body or the error the promise is rejected with. *)
Record reply := {
  latency : Z;
  outcome : result value
}.

(** The world outside the node: the answers the network will give, in
    order, the requests sent so far (oldest first), the wall clock in
    milliseconds, and the texts [Math.random().toString(36)] will give. *)
Record world := {
  replies : list reply;
  sent : list request;
  now : Z;
  randoms : list string
}.

(** Computations of the node: state over the world, with exceptions. *)
Definition M (A : Type) : Type := world -> result A * world.

Definition ret {A} (a : A) : M A := fun w => (Ok a, w).

Definition bind {A B} (c : M A) (k : A -> M B) : M B :=
  fun w =>
    match c w with
    | (Ok a, w') => k a w'
    | (Throw e, w') => (Throw e, w')
    end.

Definition throw {A} (e : error) : M A := fun w => (Throw e, w).

(** [try { body } catch (error) { handler }] *)
Definition try_catch {A} (body : M A) (handler : error -> M A) : M A :=
  fun w =>
    match body w with
    | (Ok a, w') => (Ok a, w')
    | (Throw e, w') => handler e w'
    end.

Definition lift {A} (r : result A) : M A := fun w => (r, w).

(** [await helpers.httpRequest(options)]. A network that has no answer
    left rejects the request. *)
Definition httpRequest (options : request) : M value :=
  fun w =>
    match replies w with
    | [] =>
        (Throw (Error "connect ECONNREFUSED"),
         {| replies := []; sent := sent w ++ [options];
            now := now w; randoms := randoms w |})
    | r :: rest =>
        (outcome r,
         {| replies := rest; sent := sent w ++ [options];
            now := now w + latency r; randoms := randoms w |})
    end.

(** [Date.now()] *)
Definition Date_now : M number := fun w => (Ok (of_Z (now w)), w).

(** [Math.random().toString(36)] *)
Definition Math_random_base36 : M string :=
  fun w =>
    match randoms w with
    | [] => (Ok "0", w)
    | r :: rest =>
        (Ok r, {| replies := replies w; sent := sent w;
                  now := now w; randoms := rest |})
    end.

(** The requests a computation sends when it is run in [w]. *)
Definition sentBy {A} (c : M A) (w : world) : list request :=
  skipn (List.length (sent w)) (sent (snd (c w))).

(** The credentials of type [secretnetworkApi], as far as the handlers
    read them. *)
Record credentials := {
  baseUrl : string;
  chainId : value;
  address : value
}.

(** [IExecuteFunctions]: the parameters of the node, by name and item
    index and by the type the node description declares for them, the
    credentials, and the [Continue On Fail] setting. [apiErrorMessage]
    is the message of [new NodeApiError(this.getNode(), error)]:
    n8n-workflow writes it from the code or the HTTP status of the
    error, not from its message, and the library is not part of the
    repository, so the text is a parameter of the context. *)
Record context := {
  strings : string -> nat -> option string;
  numbers : string -> nat -> option number;
  booleans : string -> nat -> option bool;
  objects : string -> nat -> option value;
  stored_credentials : result credentials;
  continueOnFail : bool;
  apiErrorMessage : error -> string
}.

(** [this.getNodeParameter(name, i, fallback)]: a parameter that is not
    set and has no fallback makes n8n throw. *)
Definition getNodeParameter {A} (store : string -> nat -> option A)
    (name : string) (i : nat) (fallback : option A) : M A :=
  match store name i with
  | Some v => ret v
  | None =>
      match fallback with
      | Some d => ret d
      | None => throw (Error "Could not get parameter")
      end
  end.

Definition getCredentials (ctx : context) : M credentials :=
  lift (stored_credentials ctx).

(** [INodeExecutionData] as the handlers build it. *)
Record item := {
  json : value;
  pairedItem : nat
}.

(** [v.k], a TypeError on [undefined] and [null]. *)
Definition property (k : string) (v : value) : M value :=
  match get k v with
  | Some x => ret x
  | None =>
      throw (TypeError ("Cannot read properties of "
                          +++ (match v with VNull => "null" | _ => "undefined" end)
                          +++ " (reading '" +++ k +++ "')"))
  end.

(** [Buffer.from(JSON.stringify(v)).toString('base64')]; [Buffer.from]
    rejects the [undefined] that [JSON.stringify(undefined)] is. *)
Definition json_base64 (v : value) : M string :=
  match stringify v with
  | Some s => ret (Buffer.base64_of_string s)
  | None =>
      throw (TypeError "The first argument must be of type string or an instance of Buffer, ArrayBuffer, or Array or an Array-like Object. Received undefined")
  end.

End Runtime.

Declare Scope node_scope.
Delimit Scope node_scope with node.
Notation "x <- c ;; k" := (Runtime.bind c (fun x => k))
  (at level 100, c at next level, right associativity) : node_scope.
Notation "c ;;; k" := (Runtime.bind c (fun _ => k))
  (at level 100, right associativity) : node_scope.

(** ** [secp256k1]: the signing library *)

(** The two functions of the [secp256k1] package that the node calls;
    each either returns bytes or throws. *)
Class Secp256k1 := {
  publicKeyCreate : list byte -> Runtime.result (list byte);
  ecdsaSign : list byte -> list byte -> Runtime.result (list byte)
}.

(** What the package documents about their results: a compressed public
    key of 33 bytes and a compact signature of 64 bytes. *)
Class Secp256k1Sizes (S : Secp256k1) : Prop := {
  publicKeyCreate_length :
    forall key pub, publicKeyCreate key = Runtime.Ok pub -> List.length pub = 33%nat;
  ecdsaSign_length :
    forall hash key sig,
      ecdsaSign hash key = Runtime.Ok sig -> List.length sig = 64%nat
}.

(** The package itself: ECDSA over the curve secp256k1 (SEC 2), with the
    nonce of RFC 6979 on HMAC-SHA-256 and signatures normalised to the
    lower [s], as libsecp256k1 makes them. *)
Module Secp256k1Lib.
Import Runtime.

(** The field prime, the group order and the generator. *)
Definition p : Z := Eval vm_compute in 2 ^ 256 - 2 ^ 32 - 977.
Definition n : Z :=
  0xFFFFFFFFFFFFFFFFFFFFFFFFFFFFFFFEBAAEDCE6AF48A03BBFD25E8CD0364141.
Definition Gx : Z :=
  0x79BE667EF9DCBBAC55A06295CE870B07029BFCDB2DCE28D959F2815B16F81798.
Definition Gy : Z :=
  0x483ADA7726A3C4655DA4FBFC0E1108A8FD17B448A68554199C47D08FFB10D4B8.

(** The arithmetic of the curve runs on machine-word integers. *)
Local Open Scope bigZ_scope.

Definition P : bigZ := Eval vm_compute in BigZ.of_Z p.
Definition N : bigZ := Eval vm_compute in BigZ.of_Z n.

(** [b ^ e mod m] by squaring. *)
Fixpoint pow_mod (b : bigZ) (e : positive) (m : bigZ) : bigZ :=
  match e with
  | xH => b mod m
  | xO e' => let h := pow_mod b e' m in (h * h) mod m
  | xI e' => let h := pow_mod b e' m in (h * h mod m * b) mod m
  end.

(** The inverse modulo a prime [m], by Fermat's little theorem. *)
Definition inverse (a : bigZ) (m : Z) : bigZ :=
  match (m - 2)%Z with
  | Zpos e => pow_mod a e (BigZ.of_Z m)
  | _ => 0
  end.

(** Points in Jacobian coordinates; [Z = 0] is the point at infinity. *)
Record point := { X : bigZ; Y : bigZ; Zc : bigZ }.

Definition infinity : point := {| X := 1; Y := 1; Zc := 0 |}.
Definition G : point :=
  Eval vm_compute in {| X := BigZ.of_Z Gx; Y := BigZ.of_Z Gy; Zc := 1 |}.

Definition double (A : point) : point :=
  if (Zc A =? 0) || (Y A =? 0) then infinity
  else
    let XX := X A * X A mod P in
    let YY := Y A * Y A mod P in
    let YYYY := YY * YY mod P in
    let S := 2 * ((X A + YY) * (X A + YY) - XX - YYYY) mod P in
    let M := 3 * XX mod P in
    let X3 := (M * M - 2 * S) mod P in
    {| X := X3;
       Y := (M * (S - X3) - 8 * YYYY) mod P;
       Zc := 2 * Y A * Zc A mod P |}.

Definition add (A B : point) : point :=
  if Zc A =? 0 then B
  else if Zc B =? 0 then A
  else
    let Z1Z1 := Zc A * Zc A mod P in
    let Z2Z2 := Zc B * Zc B mod P in
    let U1 := X A * Z2Z2 mod P in
    let U2 := X B * Z1Z1 mod P in
    let S1 := Y A * Zc B mod P * Z2Z2 mod P in
    let S2 := Y B * Zc A mod P * Z1Z1 mod P in
    if U1 =? U2 then (if S1 =? S2 then double A else infinity)
    else
      let H := (U2 - U1) mod P in
      let R := (S2 - S1) mod P in
      let HH := H * H mod P in
      let HHH := H * HH mod P in
      let V := U1 * HH mod P in
      let X3 := (R * R - HHH - 2 * V) mod P in
      {| X := X3;
         Y := (R * (V - X3) - S1 * HHH) mod P;
         Zc := H * Zc A mod P * Zc B mod P |}.

(** [k * A], doubling and adding along the bits of [k]. *)
Fixpoint multiply (k : positive) (A : point) : point :=
  match k with
  | xH => A
  | xO k' => double (multiply k' A)
  | xI k' => add (double (multiply k' A)) A
  end.

(** The affine coordinates of a point that is not at infinity. *)
Definition affine (A : point) : Z * Z :=
  let zi := inverse (Zc A) p in
  let zi2 := zi * zi mod P in
  (BigZ.to_Z (X A * zi2 mod P), BigZ.to_Z (Y A * zi2 mod P * zi mod P)).

Local Close Scope bigZ_scope.

(** Integers as 32 bytes, most significant first, and back. *)
Definition bytes32 (z : Z) : list byte :=
  map (fun i => Buffer.byte_of_Z (z / 2 ^ (8 * Z.of_nat (31 - i)))) (seq 0 32).

Definition integer (bs : list byte) : Z :=
  fold_left (fun acc b => 256 * acc + Buffer.byte_to_Z b) bs 0.

(** HMAC-SHA-256 (RFC 2104), for keys of at most 64 bytes. *)
Definition hmac (key msg : list byte) : list byte :=
  let block := key ++ repeat x00 (64 - List.length key) in
  let pad (c : Z) :=
    map (fun b => Buffer.byte_of_Z (Z.lxor (Buffer.byte_to_Z b) c)) block in
  SHA256.digest (pad 0x5c ++ SHA256.digest (pad 0x36 ++ msg)).

(** The nonces of RFC 6979, section 3.2: the state [(K, V)] after the
    seeding steps, then one candidate per turn. *)
Definition seed (key hash : list byte) : list byte * list byte :=
  let V0 := repeat x01 32 in
  let K0 := repeat x00 32 in
  let K1 := hmac K0 (V0 ++ [x00] ++ key ++ hash) in
  let V1 := hmac K1 V0 in
  let K2 := hmac K1 (V1 ++ [x01] ++ key ++ hash) in
  (K2, hmac K2 V1).

(** The signature made with the nonce [k], when it is one: [r] and [s]
    are not zero. *)
Definition sign_with (k d z : Z) : option (list byte) :=
  match k with
  | Zpos k' =>
      if k <? n then
        let r := fst (affine (multiply k' G)) mod n in
        let s :=
          BigZ.to_Z
            (BigZ.modulo
               (BigZ.mul (inverse (BigZ.of_Z k) n)
                         (BigZ.of_Z ((z + r * d) mod n)))
               N) in
        if (r =? 0) || (s =? 0) then None
        else Some (bytes32 r ++ bytes32 (if n / 2 <? s then n - s else s))
      else None
  | _ => None
  end.

(** The library tries the candidates in turn; the model gives up after
    [tries] of them, which a run meets with negligible probability. *)
Fixpoint sign_loop (tries : nat) (K V : list byte) (d z : Z)
  : result (list byte) :=
  match tries with
  | O => Throw (Error "The nonce generation function failed, or the private key was invalid")
  | S tries' =>
      let V' := hmac K V in
      match sign_with (integer V') d z with
      | Some signature => Ok signature
      | None =>
          let K' := hmac K (V' ++ [x00]) in
          sign_loop tries' K' (hmac K' V') d z
      end
  end.

Definition valid_key (key : list byte) : bool :=
  let d := integer key in (0 <? d) && (d <? n).

Definition publicKeyCreate (key : list byte) : result (list byte) :=
  if negb (Nat.eqb (List.length key) 32) then
    Throw (Error "Expected private key to be an Uint8Array with length 32")
  else
    match integer key with
    | Zpos d =>
        if Zpos d <? n then
          let '(x, y) := affine (multiply d G) in
          Ok ((if Z.even y then x02 else x03) :: bytes32 x)
        else Throw (Error "Private Key is invalid")
    | _ => Throw (Error "Private Key is invalid")
    end.

Definition ecdsaSign (hash key : list byte) : result (list byte) :=
  if negb (Nat.eqb (List.length hash) 32) then
    Throw (Error "Expected message to be an Uint8Array with length 32")
  else if negb (Nat.eqb (List.length key) 32) then
    Throw (Error "Expected private key to be an Uint8Array with length 32")
  else if negb (valid_key key) then
    Throw (Error "The nonce generation function failed, or the private key was invalid")
  else
    let '(K, V) := seed key hash in
    sign_loop 8 K V (integer key) (integer hash mod n).

End Secp256k1Lib.

#[export] Instance secp256k1_package : Secp256k1 := {
  publicKeyCreate := Secp256k1Lib.publicKeyCreate;
  ecdsaSign := Secp256k1Lib.ecdsaSign
}.

(** ** The node: [Secret Network.node.ts] *)

Module SecretNetwork.
Import Num JS Runtime.
Local Open Scope node_scope.

(** [s.replace(pattern, '')] for a string pattern: the first occurrence
    of [pattern] is removed. *)
Fixpoint remove_first (pattern s : string) : string :=
  match strip pattern s with
  | Some rest => rest
  | None =>
      match s with
      | EmptyString => EmptyString
      | String c rest => String c (remove_first pattern rest)
      end
  end.

(** [s.replace(/[0-9.]/g, '')] *)
Fixpoint remove_digits_and_dots (s : string) : string :=
  match s with
  | EmptyString => EmptyString
  | String c rest =>
      if is_digit c || Ascii.eqb c "." then remove_digits_and_dots rest
      else String c (remove_digits_and_dots rest)
  end.

Definition json_headers : list (string * string) :=
  [("Content-Type", "application/json")].

Definition createTransactionMessage (contractAddress : string) (msg : value)
    (sender : value) (funds : list value) : M value :=
  encoded <- json_base64 msg ;;
  ret (VObj [ ("@type", VStr "/secret.compute.v1beta1.MsgExecuteContract");
              ("sender", sender);
              ("contract", VStr contractAddress);
              ("msg", VStr encoded);
              ("sent_funds", VArr funds) ]).

Definition createQueryMessage (contractAddress : string) (query : value)
  : M value :=
  encoded <- json_base64 query ;;
  ret (VObj [ ("contract_address", VStr contractAddress);
              ("query", VStr encoded) ]).

(** The names an object literal inherits from [Object.prototype]. Read
    on the table of [estimateGas] they give a function, or the prototype
    itself: a truthy value without a property [gas], which is all that
    is read of it and what [VObj []] stands for here. *)
Definition inherited_names : list string :=
  [ "constructor"; "__proto__"; "hasOwnProperty"; "isPrototypeOf";
    "propertyIsEnumerable"; "toLocaleString"; "toString"; "valueOf";
    "__defineGetter__"; "__defineSetter__"; "__lookupGetter__";
    "__lookupSetter__" ].

Definition estimateGas (messageType : string) : value :=
  let gasEstimates :=
    [ ("transfer", VObj [("gas", VStr "200000")]);
      ("increaseAllowance", VObj [("gas", VStr "150000")]);
      ("decreaseAllowance", VObj [("gas", VStr "150000")]);
      ("createViewingKey", VObj [("gas", VStr "100000")]);
      ("setViewingKey", VObj [("gas", VStr "100000")]) ] in
  let found :=
    if existsb (String.eqb messageType) inherited_names then VObj []
    else lookup messageType gasEstimates in
  JS.or found (VObj [("gas", VStr "200000")]).

Definition queryContract (cred : credentials) (contractAddress : string)
    (queryMsg : value) : M value :=
  encoded <- json_base64 queryMsg ;;
  httpRequest
    {| method := "POST";
       url := baseUrl cred +++ "/compute/v1beta1/contracts/"
                +++ contractAddress +++ "/query";
       headers := json_headers;
       qs := [];
       body := VObj [("query", VStr encoded)] |}.

(** [getAddressFromPubKey] *)
Definition getAddressFromPubKey (pubKey : list byte) : string :=
  let hash := SHA256.digest pubKey in
  let ripemd := RIPEMD160.digest hash in
  "secret" +++ substring 0 40 (Buffer.toHex ripemd).

(** *** [signAndBroadcastTx] and the objects it builds *)

Definition txBody (address contractAddress msg : string) : value :=
  VObj [ ("messages",
          VArr [ VObj [ ("@type", VStr "/secret.compute.v1beta1.MsgExecuteContract");
                        ("sender", VStr address);
                        ("contract", VStr contractAddress);
                        ("msg", VStr msg);
                        ("sent_funds", VArr []) ] ]);
         ("memo", VStr EmptyString);
         ("timeout_height", VStr "0");
         ("extension_options", VArr []);
         ("non_critical_extension_options", VArr []) ].

(** [Math.ceil(gasLimit * parseFloat(gasPrice.replace('uscrt', ''))).toString()] *)
Definition feeAmount (gasLimit : number) (gasPrice : string) : string :=
  NumberToString.toString
    (ceil (mul gasLimit (parseFloat (remove_first "uscrt" gasPrice)))).

Definition fee (gasLimit : number) (gasPrice : string) : value :=
  VObj [ ("amount",
          VArr [ VObj [ ("denom", VStr "uscrt");
                        ("amount", VStr (feeAmount gasLimit gasPrice)) ] ]);
         ("gas_limit", VStr (NumberToString.toString gasLimit));
         ("payer", VStr EmptyString);
         ("granter", VStr EmptyString) ].

Definition authInfo (pubKey : list byte) (sequence : value)
    (gasLimit : number) (gasPrice : string) : value :=
  VObj [ ("signer_infos",
          VArr [ VObj [ ("public_key",
                         VObj [ ("@type", VStr "/cosmos.crypto.secp256k1.PubKey");
                                ("key", VStr (Buffer.toBase64 pubKey)) ]);
                        ("mode_info",
                         VObj [ ("single",
                                 VObj [ ("mode", VStr "SIGN_MODE_DIRECT") ]) ]);
                        ("sequence", sequence) ] ]);
         ("fee", fee gasLimit gasPrice) ].

(** [txRaw], with the signatures it carries. *)
Definition txRaw (body_bytes auth_info_bytes : string) (signatures : list value)
  : value :=
  VObj [ ("body_bytes", VStr body_bytes);
         ("auth_info_bytes", VStr auth_info_bytes);
         ("signatures", VArr signatures) ].

Definition signDoc (body_bytes auth_info_bytes : string)
    (chain_id account_number : value) : value :=
  VObj [ ("body_bytes", VStr body_bytes);
         ("auth_info_bytes", VStr auth_info_bytes);
         ("chain_id", chain_id);
         ("account_number", account_number) ].

(** [Buffer.from(JSON.stringify(o)).toString('base64')] for an object
    literal [o], which [JSON.stringify] always turns into a text. *)
Definition encode (o : value) : string :=
  Buffer.base64_of_string (serialize o).

(** [signBytes]: the bytes that are hashed and signed, from the
    transaction body, the auth info, the chain id of the credentials and
    the account number. *)
Definition signBytes (body auth : value) (chainId accountNumber : value)
  : list byte :=
  Buffer.from
    (serialize
       (signDoc (encode body) (encode auth)
                (JS.or chainId (VStr "secret-4")) accountNumber)).

Definition broadcast_url (cred : credentials) : string :=
  baseUrl cred +++ "/cosmos/tx/v1beta1/txs".

Definition broadcast (cred : credentials) (tx : value) : request :=
  {| method := "POST";
     url := broadcast_url cred;
     headers := json_headers;
     qs := [];
     body := VObj [ ("tx_bytes", VStr (encode tx));
                    ("mode", VStr "BROADCAST_MODE_SYNC") ] |}.

(** The request for the account of the signer. *)
Definition accountLookup (cred : credentials) (address : string) : request :=
  {| method := "GET";
     url := baseUrl cred +++ "/cosmos/auth/v1beta1/accounts/" +++ address;
     headers := json_headers;
     qs := [];
     body := VUndefined |}.

Section Signing.
Context {secp256k1 : Secp256k1}.

Definition signAndBroadcastTx (cred : credentials)
    (contractAddress : string) (executeMsg : value) (privateKey : string)
    (gasLimit : number) (gasPrice : string) : M value :=
  let privKeyBuffer := Buffer.fromHex privateKey in
  pubKey <- lift (publicKeyCreate privKeyBuffer) ;;
  let address := getAddressFromPubKey pubKey in
  accountResponse <- httpRequest (accountLookup cred address) ;;
  account <- property "account" accountResponse ;;
  sequence0 <- property "sequence" account ;;
  let sequence := JS.or sequence0 (VStr "0") in
  accountNumber0 <- property "account_number" account ;;
  let accountNumber := JS.or accountNumber0 (VStr "0") in
  msg <- json_base64 executeMsg ;;
  let body := txBody address contractAddress msg in
  let auth := authInfo pubKey sequence gasLimit gasPrice in
  let hash :=
    SHA256.digest (signBytes body auth (chainId cred) accountNumber) in
  signature <- lift (ecdsaSign hash privKeyBuffer) ;;
  let signed :=
    txRaw (encode body) (encode auth) [VStr (Buffer.toBase64 signature)] in
  httpRequest (broadcast cred signed).

End Signing.

(** *** The item loop of the resource handlers

    Every handler runs the same loop over the input items: the body of
    the [try] computes [result] for item [i] and pushes it; the [catch]
    either records the message of the error for that item or throws.
    The handlers differ in what they throw: the error itself
    ([rethrow] is the identity) or a [NodeApiError] around it. *)

Definition success (result : value) (i : nat) : item :=
  {| json := result; pairedItem := i |}.

Definition failure (e : error) (i : nat) : item :=
  {| json := VObj [("error", VStr (message e))]; pairedItem := i |}.

Fixpoint processItems (ctx : context) (rethrow : error -> error)
    (operate : nat -> M value) (indices : list nat) (returnData : list item)
  : M (list item) :=
  match indices with
  | [] => ret returnData
  | i :: rest =>
      returnData' <-
        try_catch
          (result <- operate i ;; ret (returnData ++ [success result i]))
          (fun e =>
             if continueOnFail ctx then ret (returnData ++ [failure e i])
             else throw (rethrow e)) ;;
      processItems ctx rethrow operate rest returnData'
  end.

Definition unknownOperation {A} (operation : string) : M A :=
  throw (NodeOperationError ("Unknown operation: " +++ operation)).

(** *** SNIP-20 tokens *)

(** The transaction part shared, word for word, by the five writing
    operations of the SNIP-20 handler: the message is wrapped in an
    unsigned transaction and posted. *)
Definition postUnsigned (cred : credentials) (txMsg gasEstimate : value)
  : M value :=
  gas <- property "gas" gasEstimate ;;
  let body :=
    VObj [ ("messages", VArr [txMsg]);
           ("memo", VStr EmptyString);
           ("timeout_height", VStr "0");
           ("extension_options", VArr []);
           ("non_critical_extension_options", VArr []) ] in
  let auth :=
    VObj [ ("signer_infos", VArr []);
           ("fee",
            VObj [ ("amount",
                    VArr [ VObj [ ("denom", VStr "uscrt");
                                  ("amount", VStr "25000") ] ]);
                   ("gas_limit", gas);
                   ("payer", VStr EmptyString);
                   ("granter", VStr EmptyString) ]) ] in
  httpRequest (broadcast cred (txRaw (encode body) (encode auth) [])).

Definition postQuery (cred : credentials) (contractAddress : string)
    (queryMsg : value) : M value :=
  httpRequest
    {| method := "POST";
       url := baseUrl cred +++ "/compute/v1beta1/contracts/"
                +++ contractAddress +++ "/query";
       headers := json_headers;
       qs := [];
       body := queryMsg |}.

Definition str (ctx : context) (name : string) (i : nat) : M string :=
  getNodeParameter (strings ctx) name i None.

Definition snip20Operation (ctx : context) (cred : credentials)
    (operation : string) (i : nat) : M value :=
  if String.eqb operation "transfer" then
    contractAddress <- str ctx "contractAddress" i ;;
    recipient <- str ctx "recipient" i ;;
    amount <- str ctx "amount" i ;;
    memo <- str ctx "memo" i ;;
    let msg :=
      VObj [ ("transfer",
              VObj [ ("recipient", VStr recipient);
                     ("amount", VStr amount);
                     ("memo", JS.or (VStr memo) VUndefined) ]) ] in
    txMsg <- createTransactionMessage contractAddress msg (address cred) [] ;;
    postUnsigned cred txMsg (estimateGas "transfer")
  else if String.eqb operation "getBalance" then
    contractAddress <- str ctx "contractAddress" i ;;
    address <- str ctx "address" i ;;
    viewingKey <- str ctx "viewingKey" i ;;
    let query :=
      VObj [ ("balance",
              VObj [ ("address", VStr address); ("key", VStr viewingKey) ]) ] in
    queryMsg <- createQueryMessage contractAddress query ;;
    postQuery cred contractAddress queryMsg
  else if String.eqb operation "increaseAllowance" then
    contractAddress <- str ctx "contractAddress" i ;;
    spender <- str ctx "spender" i ;;
    amount <- str ctx "amount" i ;;
    let msg :=
      VObj [ ("increase_allowance",
              VObj [ ("spender", VStr spender); ("amount", VStr amount) ]) ] in
    txMsg <- createTransactionMessage contractAddress msg (address cred) [] ;;
    postUnsigned cred txMsg (estimateGas "increaseAllowance")
  else if String.eqb operation "decreaseAllowance" then
    contractAddress <- str ctx "contractAddress" i ;;
    spender <- str ctx "spender" i ;;
    amount <- str ctx "amount" i ;;
    let msg :=
      VObj [ ("decrease_allowance",
              VObj [ ("spender", VStr spender); ("amount", VStr amount) ]) ] in
    txMsg <- createTransactionMessage contractAddress msg (address cred) [] ;;
    postUnsigned cred txMsg (estimateGas "decreaseAllowance")
  else if String.eqb operation "getAllowance" then
    contractAddress <- str ctx "contractAddress" i ;;
    owner <- str ctx "owner" i ;;
    spender <- str ctx "spender" i ;;
    viewingKey <- str ctx "viewingKey" i ;;
    let query :=
      VObj [ ("allowance",
              VObj [ ("owner", VStr owner); ("spender", VStr spender);
                     ("key", VStr viewingKey) ]) ] in
    queryMsg <- createQueryMessage contractAddress query ;;
    postQuery cred contractAddress queryMsg
  else if String.eqb operation "getTokenInfo" then
    contractAddress <- str ctx "contractAddress" i ;;
    let query := VObj [ ("token_info", VObj []) ] in
    queryMsg <- createQueryMessage contractAddress query ;;
    postQuery cred contractAddress queryMsg
  else if String.eqb operation "createViewingKey" then
    contractAddress <- str ctx "contractAddress" i ;;
    entropy <- str ctx "entropy" i ;;
    entropy' <-
      (if String.eqb entropy EmptyString then
         r <- Math_random_base36 ;; ret (substring 2 13 r)
       else ret entropy) ;;
    let msg :=
      VObj [ ("create_viewing_key", VObj [ ("entropy", VStr entropy') ]) ] in
    txMsg <- createTransactionMessage contractAddress msg (address cred) [] ;;
    postUnsigned cred txMsg (estimateGas "createViewingKey")
  else if String.eqb operation "setViewingKey" then
    contractAddress <- str ctx "contractAddress" i ;;
    key <- str ctx "key" i ;;
    let msg := VObj [ ("set_viewing_key", VObj [ ("key", VStr key) ]) ] in
    txMsg <- createTransactionMessage contractAddress msg (address cred) [] ;;
    postUnsigned cred txMsg (estimateGas "setViewingKey")
  else unknownOperation operation.

Definition executeSnip20TokensOperations (ctx : context) (items : list item)
  : M (list item) :=
  operation <- str ctx "operation" 0 ;;
  cred <- getCredentials ctx ;;
  processItems ctx (fun e => e) (snip20Operation ctx cred operation)
    (seq 0 (List.length items)) [].

(** *** SNIP-721 tokens *)

Section Snip721.
Context {secp256k1 : Secp256k1}.

Definition signingParameters (ctx : context) (i : nat)
  : M (string * number * string) :=
  privateKey <- str ctx "privateKey" i ;;
  gasLimit <- getNodeParameter (numbers ctx) "gasLimit" i (Some (of_Z 200000)) ;;
  gasPrice <- getNodeParameter (strings ctx) "gasPrice" i (Some "0.25uscrt") ;;
  ret (privateKey, gasLimit, gasPrice).

Definition snip721Operation (ctx : context) (cred : credentials)
    (operation : string) (i : nat) : M value :=
  contractAddress <- str ctx "contractAddress" i ;;
  if String.eqb operation "transferNft" then
    tokenId <- str ctx "tokenId" i ;;
    recipient <- str ctx "recipient" i ;;
    keys <- signingParameters ctx i ;;
    let '(privateKey, gasLimit, gasPrice) := keys in
    let executeMsg :=
      VObj [ ("transfer_nft",
              VObj [ ("recipient", VStr recipient);
                     ("token_id", VStr tokenId) ]) ] in
    signAndBroadcastTx cred contractAddress executeMsg privateKey gasLimit gasPrice
  else if String.eqb operation "mintNft" then
    tokenId <- str ctx "tokenId" i ;;
    owner <- str ctx "owner" i ;;
    metadata <- getNodeParameter (objects ctx) "metadata" i (Some (VObj [])) ;;
    keys <- signingParameters ctx i ;;
    let '(privateKey, gasLimit, gasPrice) := keys in
    let executeMsg :=
      VObj [ ("mint_nft",
              VObj [ ("token_id", VStr tokenId);
                     ("owner", VStr owner);
                     ("metadata", metadata) ]) ] in
    signAndBroadcastTx cred contractAddress executeMsg privateKey gasLimit gasPrice
  else if String.eqb operation "getOwnerOf" then
    tokenId <- str ctx "tokenId" i ;;
    viewingKey <- str ctx "viewingKey" i ;;
    queryContract cred contractAddress
      (VObj [ ("owner_of",
               VObj [ ("token_id", VStr tokenId);
                      ("viewing_key", VStr viewingKey) ]) ])
  else if String.eqb operation "getNftInfo" then
    tokenId <- str ctx "tokenId" i ;;
    viewingKey <- str ctx "viewingKey" i ;;
    queryContract cred contractAddress
      (VObj [ ("nft_info",
               VObj [ ("token_id", VStr tokenId);
                      ("viewing_key", VStr viewingKey) ]) ])
  else if String.eqb operation "approve" then
    spender <- str ctx "spender" i ;;
    tokenId <- str ctx "tokenId" i ;;
    keys <- signingParameters ctx i ;;
    let '(privateKey, gasLimit, gasPrice) := keys in
    let executeMsg :=
      VObj [ ("approve",
              VObj [ ("spender", VStr spender);
                     ("token_id", VStr tokenId) ]) ] in
    signAndBroadcastTx cred contractAddress executeMsg privateKey gasLimit gasPrice
  else if String.eqb operation "approveAll" then
    operator <- str ctx "operator" i ;;
    approved <- getNodeParameter (booleans ctx) "approved" i None ;;
    keys <- signingParameters ctx i ;;
    let '(privateKey, gasLimit, gasPrice) := keys in
    let executeMsg :=
      VObj [ ("approve_all",
              VObj [ ("operator", VStr operator);
                     ("approved", VBool approved) ]) ] in
    signAndBroadcastTx cred contractAddress executeMsg privateKey gasLimit gasPrice
  else if String.eqb operation "getApprovals" then
    tokenId <- str ctx "tokenId" i ;;
    viewingKey <- str ctx "viewingKey" i ;;
    queryContract cred contractAddress
      (VObj [ ("approved_for_all",
               VObj [ ("token_id", VStr tokenId);
                      ("viewing_key", VStr viewingKey) ]) ])
  else if String.eqb operation "getTokens" then
    owner <- str ctx "owner" i ;;
    viewingKey <- str ctx "viewingKey" i ;;
    queryContract cred contractAddress
      (VObj [ ("tokens",
               VObj [ ("owner", VStr owner);
                      ("viewing_key", VStr viewingKey) ]) ])
  else unknownOperation operation.

Definition executeSnip721TokensOperations (ctx : context) (items : list item)
  : M (list item) :=
  operation <- str ctx "operation" 0 ;;
  cred <- getCredentials ctx ;;
  processItems ctx (fun e => e) (snip721Operation ctx cred operation)
    (seq 0 (List.length items)) [].

End Snip721.

(** *** IBC operations *)

Definition num (ctx : context) (name : string) (i : nat) : M number :=
  getNodeParameter (numbers ctx) name i None.

Definition any (ctx : context) (name : string) (i : nat) : M value :=
  getNodeParameter (objects ctx) name i None.

(** The [MsgTransfer] message of [ibcTransfer]; [timestamp] is the
    value of [(Date.now() + 600000) * 1000000], which is computed only
    when [timeoutHeight === 0]. *)
Definition timeout_height_field (timeoutHeight : number) : value :=
  if ltb zero timeoutHeight then
    VObj [ ("revision_number", VStr "0");
           ("revision_height", VStr (NumberToString.toString timeoutHeight)) ]
  else VUndefined.

Definition timeout_timestamp_field (timeoutHeight : number) : M value :=
  if eqb timeoutHeight zero then
    t <- Date_now ;;
    ret (VNum (mul (add t (of_Z 600000)) (of_Z 1000000)))
  else ret (VStr "0").

(** The fee of the two writing IBC operations. *)
Definition ibcAuthInfo (gasLimit : number) (gasPrice : string) : value :=
  VObj [ ("signer_infos", VArr []);
         ("fee",
          VObj [ ("amount",
                  VArr [ VObj [ ("denom", VStr (remove_digits_and_dots gasPrice));
                                ("amount",
                                 VStr (NumberToString.toString
                                         (mul (parseFloat gasPrice) gasLimit))) ] ]);
                 ("gas_limit", VStr (NumberToString.toString gasLimit));
                 ("payer", VStr EmptyString);
                 ("granter", VStr EmptyString) ]) ].

Definition ibcEnvelope (message auth : value) : value :=
  VObj [ ("body",
          VObj [ ("messages", VArr [message]);
                 ("memo", VStr EmptyString);
                 ("timeout_height", VStr "0");
                 ("extension_options", VArr []);
                 ("non_critical_extension_options", VArr []) ]);
         ("auth_info", auth);
         ("signatures", VArr []) ].

Definition pagedGet (ctx : context) (target : string) (i : nat) : M value :=
  paginationOffset <- num ctx "paginationOffset" i ;;
  paginationLimit <- num ctx "paginationLimit" i ;;
  httpRequest
    {| method := "GET";
       url := target;
       headers := [];
       qs := [ ("pagination.offset", VNum paginationOffset);
               ("pagination.limit", VNum paginationLimit) ];
       body := VUndefined |}.

Definition plainGet (target : string) : M value :=
  httpRequest
    {| method := "GET"; url := target; headers := []; qs := [];
       body := VUndefined |}.

Definition ibcOperation (ctx : context) (cred : credentials)
    (operation : string) (i : nat) : M value :=
  if String.eqb operation "ibcTransfer" then
    sourcePort <- str ctx "sourcePort" i ;;
    sourceChannel <- str ctx "sourceChannel" i ;;
    token <- any ctx "token" i ;;
    sender <- str ctx "sender" i ;;
    receiver <- str ctx "receiver" i ;;
    timeoutHeight <- num ctx "timeoutHeight" i ;;
    privateKey <- str ctx "privateKey" i ;;
    gasLimit <- num ctx "gasLimit" i ;;
    gasPrice <- str ctx "gasPrice" i ;;
    timeout_timestamp <- timeout_timestamp_field timeoutHeight ;;
    let message :=
      VObj [ ("@type", VStr "/ibc.applications.transfer.v1.MsgTransfer");
             ("source_port", VStr sourcePort);
             ("source_channel", VStr sourceChannel);
             ("token", token);
             ("sender", VStr sender);
             ("receiver", VStr receiver);
             ("timeout_height", timeout_height_field timeoutHeight);
             ("timeout_timestamp", timeout_timestamp) ] in
    httpRequest
      (broadcast cred (ibcEnvelope message (ibcAuthInfo gasLimit gasPrice)))
  else if String.eqb operation "getChannels" then
    pagedGet ctx (baseUrl cred +++ "/ibc/core/channel/v1/channels") i
  else if String.eqb operation "getChannel" then
    channelId <- str ctx "channelId" i ;;
    portId <- str ctx "portId" i ;;
    plainGet (baseUrl cred +++ "/ibc/core/channel/v1/channels/" +++ channelId
                +++ "/ports/" +++ portId)
  else if String.eqb operation "getConnections" then
    pagedGet ctx (baseUrl cred +++ "/ibc/core/connection/v1/connections") i
  else if String.eqb operation "getConnection" then
    connectionId <- str ctx "connectionId" i ;;
    plainGet (baseUrl cred +++ "/ibc/core/connection/v1/connections/"
                +++ connectionId)
  else if String.eqb operation "getClientStates" then
    pagedGet ctx (baseUrl cred +++ "/ibc/core/client/v1/client_states") i
  else if String.eqb operation "getDenomTraces" then
    pagedGet ctx (baseUrl cred +++ "/ibc/applications/transfer/v1/denom_traces") i
  else if String.eqb operation "updateClient" then
    clientId <- str ctx "clientId" i ;;
    header <- any ctx "header" i ;;
    privateKey <- str ctx "privateKey" i ;;
    gasLimit <- num ctx "gasLimit" i ;;
    gasPrice <- str ctx "gasPrice" i ;;
    let message :=
      VObj [ ("@type", VStr "/ibc.core.client.v1.MsgUpdateClient");
             ("client_id", VStr clientId);
             ("header", header);
             ("signer", VStr EmptyString) ] in
    httpRequest
      (broadcast cred (ibcEnvelope message (ibcAuthInfo gasLimit gasPrice)))
  else unknownOperation operation.

Definition executeIbcOperationsOperations (ctx : context) (items : list item)
  : M (list item) :=
  operation <- str ctx "operation" 0 ;;
  cred <- getCredentials ctx ;;
  processItems ctx (fun e => e) (ibcOperation ctx cred operation)
    (seq 0 (List.length items)) [].

(** *** Accounts *)

(** [balances.filter((balance) => balance.denom === denom)] *)
Fixpoint filterByDenom (denom : string) (balances : list value)
  : M (list value) :=
  match balances with
  | [] => ret []
  | balance :: rest =>
      d <- property "denom" balance ;;
      kept <- filterByDenom denom rest ;;
      ret (if strict_eq_string d denom then balance :: kept else kept)
  end.

(** The filter of [getBalance]:
    [if (denom && result.balances) result.balances = result.balances.filter(...)] *)
Definition filterBalances (denom : string) (result : value) : M value :=
  if String.eqb denom EmptyString then ret result
  else
    balances <- property "balances" result ;;
    if truthy balances then
      match balances, result with
      | VArr entries, VObj props =>
          kept <- filterByDenom denom entries ;;
          ret (VObj (assign "balances" (VArr kept) props))
      | _, _ => throw (TypeError "result.balances.filter is not a function")
      end
    else ret result.

Definition jsonGet (target : string) : M value :=
  httpRequest
    {| method := "GET"; url := target; headers := json_headers; qs := [];
       body := VUndefined |}.

Definition accountsOperation (ctx : context) (cred : credentials)
    (operation : string) (i : nat) : M value :=
  if String.eqb operation "getAccount" then
    address <- str ctx "address" i ;;
    jsonGet (baseUrl cred +++ "/cosmos/auth/v1beta1/accounts/" +++ address)
  else if String.eqb operation "getBalance" then
    address <- str ctx "address" i ;;
    denom <- getNodeParameter (strings ctx) "denom" i (Some EmptyString) ;;
    let target := baseUrl cred +++ "/cosmos/bank/v1beta1/balances/" +++ address in
    let target' :=
      if String.eqb denom EmptyString then target
      else target +++ "?pagination.key=&pagination.offset=0&pagination.limit=100&pagination.count_total=true&pagination.reverse=false" in
    result <- jsonGet target' ;;
    filterBalances denom result
  else if String.eqb operation "getBalanceByDenom" then
    address <- str ctx "address" i ;;
    denom <- str ctx "denom" i ;;
    jsonGet (baseUrl cred +++ "/cosmos/bank/v1beta1/balances/" +++ address
               +++ "/" +++ denom)
  else if String.eqb operation "getDelegationRewards" then
    delegatorAddress <- str ctx "delegatorAddress" i ;;
    jsonGet (baseUrl cred +++ "/cosmos/distribution/v1beta1/delegators/"
               +++ delegatorAddress +++ "/rewards")
  else if String.eqb operation "getDelegations" then
    delegatorAddr <- str ctx "delegatorAddr" i ;;
    jsonGet (baseUrl cred +++ "/cosmos/staking/v1beta1/delegations/"
               +++ delegatorAddr)
  else if String.eqb operation "getUnbondingDelegations" then
    delegatorAddr <- str ctx "delegatorAddr" i ;;
    jsonGet (baseUrl cred +++ "/cosmos/staking/v1beta1/delegators/"
               +++ delegatorAddr +++ "/unbonding_delegations")
  else unknownOperation operation.

Definition executeAccountsOperations (ctx : context) (items : list item)
  : M (list item) :=
  operation <- str ctx "operation" 0 ;;
  cred <- getCredentials ctx ;;
  processItems ctx (fun e => NodeApiError (apiErrorMessage ctx e) e)
    (accountsOperation ctx cred operation)
    (seq 0 (List.length items)) [].

End SecretNetwork.

(** ** More of the platform: [String(v)], URI encoding, [JSON.parse] *)

Module Text.
Import Num JS.

(** ToString, as template literals and [URLSearchParams] apply it to a
    value. *)
Fixpoint ToString (v : value) : string :=
  match v with
  | VUndefined => "undefined"
  | VNull => "null"
  | VBool b => if b then "true" else "false"
  | VNum x => NumberToString.toString x
  | VStr s => s
  | VArr items =>
      join ","
        (map (fun x =>
                match x with
                | VUndefined | VNull => EmptyString
                | _ => ToString x
                end) items)
  | VObj _ => "[object Object]"
  end.

Definition is_alphanumeric (c : ascii) : bool :=
  let n := Z.of_N (N_of_ascii c) in
  ((48 <=? n) && (n <=? 57)) || ((65 <=? n) && (n <=? 90))
  || ((97 <=? n) && (n <=? 122)).

Definition one_of (marks : string) (c : ascii) : bool :=
  existsb (Ascii.eqb c) (list_ascii_of_string marks).

Definition upper_hex_digit (z : Z) : ascii :=
  ascii_of_N (Z.to_N (if z <? 10 then 48 + z else 55 + z)).

(** [%XX] for one byte. *)
Definition percent (c : ascii) : string :=
  let n := Z.of_N (N_of_ascii c) in
  String "%"
    (String (upper_hex_digit (n / 16))
       (String (upper_hex_digit (n mod 16)) EmptyString)).

(** [encodeURIComponent]: the letters, the digits and the marks
    [- _ . ! ~ * ' ( )] are kept, every other byte of the UTF-8 text is
    written [%XX]. *)
Fixpoint encodeURIComponent (s : string) : string :=
  match s with
  | EmptyString => EmptyString
  | String c rest =>
      (if is_alphanumeric c || one_of "-_.!~*'()" c then String c EmptyString
       else percent c) +++ encodeURIComponent rest
  end.

(** The serializer of [application/x-www-form-urlencoded]: the letters,
    the digits and [* - . _] are kept, a space is written [+], every
    other byte [%XX]. *)
Fixpoint form_encode (s : string) : string :=
  match s with
  | EmptyString => EmptyString
  | String c rest =>
      (if is_alphanumeric c || one_of "*-._" c then String c EmptyString
       else if Ascii.eqb c " " then "+"
       else percent c) +++ form_encode rest
  end.

(** [new URLSearchParams(params).toString()] for an object [params]. *)
Definition URLSearchParams_toString (params : list (string * value)) : string :=
  join "&"
    (map (fun entry =>
            form_encode (fst entry) +++ "=" +++ form_encode (ToString (snd entry)))
       params).

End Text.

Module JSON.
Import Num JS.

Definition is_white (c : ascii) : bool :=
  let n := N_of_ascii c in
  N.eqb n 32 || N.eqb n 9 || N.eqb n 10 || N.eqb n 13.

Fixpoint skip (s : string) : string :=
  match s with
  | String c rest => if is_white c then skip rest else s
  | EmptyString => s
  end.

(** The UTF-8 text of a code point. *)
Definition utf8 (cp : Z) : string :=
  string_of_list_byte
    (map Buffer.byte_of_Z
       (if cp <? 128 then [cp]
        else if cp <? 2048 then [192 + cp / 64; 128 + cp mod 64]
        else if cp <? 65536 then
          [224 + cp / 4096; 128 + (cp / 64) mod 64; 128 + cp mod 64]
        else
          [240 + cp / 262144; 128 + (cp / 4096) mod 64;
           128 + (cp / 64) mod 64; 128 + cp mod 64])).

(** U+FFFD, which stands for a surrogate that has no partner. *)
Definition replacement : string := utf8 65533.

Definition is_high (u : Z) : bool := (55296 <=? u) && (u <=? 56319).
Definition is_low (u : Z) : bool := (56320 <=? u) && (u <=? 57343).

(** The text of the code unit [u] of a [\uXXXX] escape, after a high
    surrogate that may be pending, and the high surrogate that is
    pending after it. *)
Definition unit_text (high : option Z) (u : Z) : string * option Z :=
  match high with
  | Some h =>
      if is_low u then
        (utf8 (65536 + (h - 55296) * 1024 + (u - 56320)), None)
      else if is_high u then (replacement, Some u)
      else (replacement +++ utf8 u, None)
  | None =>
      if is_high u then (EmptyString, Some u)
      else if is_low u then (replacement, None)
      else (utf8 u, None)
  end.

Definition flush (high : option Z) : string :=
  match high with
  | Some _ => replacement
  | None => EmptyString
  end.

Definition hex4 (a b c d : ascii) : option Z :=
  match Buffer.hex_value a, Buffer.hex_value b,
        Buffer.hex_value c, Buffer.hex_value d with
  | Some h1, Some h2, Some h3, Some h4 =>
      Some (((h1 * 16 + h2) * 16 + h3) * 16 + h4)
  | _, _, _, _ => None
  end.

Definition simple_escape (c : ascii) : option string :=
  let n := N_of_ascii c in
  if N.eqb n 34 then Some (String c EmptyString)
  else if N.eqb n 92 then Some (String c EmptyString)
  else if N.eqb n 47 then Some (String c EmptyString)
  else if Ascii.eqb c "b" then Some (String (ascii_of_N 8) EmptyString)
  else if Ascii.eqb c "f" then Some (String (ascii_of_N 12) EmptyString)
  else if Ascii.eqb c "n" then Some (String (ascii_of_N 10) EmptyString)
  else if Ascii.eqb c "r" then Some (String (ascii_of_N 13) EmptyString)
  else if Ascii.eqb c "t" then Some (String (ascii_of_N 9) EmptyString)
  else None.

Definition prepend (t : string) (r : option (string * string))
  : option (string * string) :=
  match r with
  | Some (s, rest) => Some (t +++ s, rest)
  | None => None
  end.

(** The characters of a string after its opening quote, up to the
    closing one, and what follows it. *)
Fixpoint string_body (high : option Z) (s : string)
  : option (string * string) :=
  match s with
  | EmptyString => None
  | String c rest =>
      let n := N_of_ascii c in
      if N.eqb n 34 then Some (flush high, rest)
      else if N.eqb n 92 then
        match rest with
        | String e rest1 =>
            if Ascii.eqb e "u" then
              match rest1 with
              | String a (String b (String c' (String d rest2))) =>
                  match hex4 a b c' d with
                  | Some u =>
                      let '(t, high') := unit_text high u in
                      prepend t (string_body high' rest2)
                  | None => None
                  end
              | _ => None
              end
            else
              match simple_escape e with
              | Some t => prepend (flush high +++ t) (string_body None rest1)
              | None => None
              end
        | EmptyString => None
        end
      else if N.ltb n 32 then None
      else prepend (flush high +++ String c EmptyString) (string_body None rest)
  end.

(** A number: [-]? digits, a fraction, an exponent; no leading zero,
    no bare point. *)
Definition number_token (s : string) : option (number * string) :=
  let '(negative, s1) :=
    match s with
    | String "-" r => (true, r)
    | _ => (false, s)
    end in
  let '(ip, s2) := span_digits s1 in
  match ip with
  | EmptyString => None
  | String d ds =>
      if Ascii.eqb d "0" && negb (String.eqb ds EmptyString) then None
      else
        let '(fp, s3) :=
          match s2 with
          | String "." r => let '(fp, r') := span_digits r in (Some fp, r')
          | _ => (None, s2)
          end in
        match fp with
        | Some EmptyString => None
        | _ =>
            let fraction :=
              match fp with
              | Some f => f
              | None => EmptyString
              end in
            let exponent : option (Z * string) :=
              match s3 with
              | String c r =>
                  if Ascii.eqb c "e" || Ascii.eqb c "E" then
                    let '(minus, r1) :=
                      match r with
                      | String "+" r' => (false, r')
                      | String "-" r' => (true, r')
                      | _ => (false, r)
                      end in
                    let '(ds, r2) := span_digits r1 in
                    match ds with
                    | EmptyString => None
                    | _ =>
                        Some (if minus then - digits_value 0 ds
                              else digits_value 0 ds, r2)
                    end
                  else Some (0, s3)
              | EmptyString => Some (0, s3)
              end in
            match exponent with
            | None => None
            | Some (e, rest) =>
                let e10 := e - Z.of_nat (String.length fraction) in
                match digits_value 0 (ip +++ fraction) with
                | Zpos m =>
                    let x := of_decimal m e10 in
                    Some (if negative then SFopp x else x, rest)
                | _ => Some (S754_zero negative, rest)
                end
            end
        end
  end.

(** An array index: the canonical text of an integer below [2^32 - 1].
    Properties with such keys are enumerated first, in ascending order. *)
Definition array_index (k : string) : option Z :=
  match k with
  | EmptyString => None
  | String d ds =>
      let '(digits, rest) := span_digits k in
      if negb (String.eqb rest EmptyString) then None
      else if Ascii.eqb d "0" && negb (String.eqb ds EmptyString) then None
      else
        let n := digits_value 0 digits in
        if n <? 4294967295 then Some n else None
  end.

Fixpoint insert_index (n : Z) (k : string) (v : value)
    (props : list (string * value)) : list (string * value) :=
  match props with
  | [] => [(k, v)]
  | (k', v') :: rest =>
      match array_index k' with
      | Some n' =>
          if n <? n' then (k, v) :: props
          else (k', v') :: insert_index n k v rest
      | None => (k, v) :: props
      end
  end.

(** CreateDataProperty on the object being read: a key it has keeps its
    place and takes the new value. *)
Definition define (k : string) (v : value) (props : list (string * value))
  : list (string * value) :=
  if existsb (fun entry => String.eqb k (fst entry)) props then assign k v props
  else
    match array_index k with
    | Some n => insert_index n k v props
    | None => props ++ [(k, v)]
    end.

(** The value at the start of a text and what follows it; the elements
    of an array after its first, and the members of an object after its
    first. *)
Fixpoint value_at (fuel : nat) (s : string) : option (value * string) :=
  match fuel with
  | O => None
  | S fuel' =>
      match skip s with
      | EmptyString => None
      | String c rest as t =>
          let n := N_of_ascii c in
          if N.eqb n 34 then
            match string_body None rest with
            | Some (text, rest') => Some (VStr text, rest')
            | None => None
            end
          else if Ascii.eqb c "[" then
            match skip rest with
            | String "]" rest' => Some (VArr [], rest')
            | _ =>
                match value_at fuel' rest with
                | Some (v, rest') => elements_at fuel' [v] rest'
                | None => None
                end
            end
          else if Ascii.eqb c "{" then
            match skip rest with
            | String "}" rest' => Some (VObj [], rest')
            | _ => members_at fuel' [] rest
            end
          else
            match strip "true" t, strip "false" t, strip "null" t with
            | Some rest', _, _ => Some (VBool true, rest')
            | _, Some rest', _ => Some (VBool false, rest')
            | _, _, Some rest' => Some (VNull, rest')
            | _, _, _ =>
                match number_token t with
                | Some (x, rest') => Some (VNum x, rest')
                | None => None
                end
            end
      end
  end
with elements_at (fuel : nat) (items : list value) (s : string)
  : option (value * string) :=
  match fuel with
  | O => None
  | S fuel' =>
      match skip s with
      | String "]" rest => Some (VArr items, rest)
      | String "," rest =>
          match value_at fuel' rest with
          | Some (v, rest') => elements_at fuel' (items ++ [v]) rest'
          | None => None
          end
      | _ => None
      end
  end
with members_at (fuel : nat) (props : list (string * value)) (s : string)
  : option (value * string) :=
  match fuel with
  | O => None
  | S fuel' =>
      match skip s with
      | String c rest =>
          if N.eqb (N_of_ascii c) 34 then
            match string_body None rest with
            | Some (k, rest1) =>
                match skip rest1 with
                | String ":" rest2 =>
                    match value_at fuel' rest2 with
                    | Some (v, rest3) =>
                        let props' := define k v props in
                        match skip rest3 with
                        | String "}" rest4 => Some (VObj props', rest4)
                        | String "," rest4 => members_at fuel' props' rest4
                        | _ => None
                        end
                    | None => None
                    end
                | _ => None
                end
            | None => None
            end
          else None
      | EmptyString => None
      end
  end.

(** [JSON.parse(text)]; [None] where it throws a SyntaxError. *)
Definition parse (text : string) : option value :=
  match value_at (2 * String.length text + 2) text with
  | Some (v, rest) =>
      match skip rest with
      | EmptyString => Some v
      | _ => None
      end
  | None => None
  end.

End JSON.

(** ** The node, continued: smart contracts, transactions, [execute] *)

Module Resources.
Import Num JS Runtime SecretNetwork.
Local Open Scope node_scope.

(** *** Smart contracts *)

(** The options of the requests of this handler. Those that post put
    their payload in the member [json] and have no [body]; the others
    have [json: true]. *)
Record options := {
  request_of : request;
  json_option : value
}.

(** [typeof msg === 'string' ? msg : JSON.stringify(msg)] *)
Definition textOf (msg : value) : value :=
  match msg with
  | VStr _ => msg
  | _ =>
      match stringify msg with
      | Some text => VStr text
      | None => VUndefined
      end
  end.

(** [Array.isArray(funds) ? funds : []] *)
Definition arrayOr (funds : value) : value :=
  match funds with
  | VArr _ => funds
  | _ => VArr []
  end.

(** The payload shared, word for word but for the message and the two
    amounts, by the three operations that post a transaction. *)
Definition payload (message : value) (amount gas_limit : string) : value :=
  VObj [ ("tx",
          VObj [ ("body",
                  VObj [ ("messages", VArr [message]);
                         ("memo", VStr EmptyString);
                         ("timeout_height", VStr "0");
                         ("extension_options", VArr []);
                         ("non_critical_extension_options", VArr []) ]);
                 ("auth_info",
                  VObj [ ("signer_infos", VArr []);
                         ("fee",
                          VObj [ ("amount",
                                  VArr [ VObj [ ("denom", VStr "uscrt");
                                                ("amount", VStr amount) ] ]);
                                 ("gas_limit", VStr gas_limit);
                                 ("payer", VStr EmptyString);
                                 ("granter", VStr EmptyString) ]) ]);
                 ("signatures", VArr []) ]);
         ("mode", VStr "BROADCAST_MODE_BLOCK") ].

Definition postJson (target : string) (content : value) : options :=
  {| request_of :=
       {| method := "POST"; url := target; headers := json_headers;
          qs := []; body := VUndefined |};
     json_option := content |}.

Definition getJson (target : string) : options :=
  {| request_of :=
       {| method := "GET"; url := target; headers := json_headers;
          qs := []; body := VUndefined |};
     json_option := VBool true |}.

(** The [options] that an operation builds for item [i]. *)
Definition smartContractsOptions (ctx : context) (cred : credentials)
    (operation : string) (i : nat) : M options :=
  if String.eqb operation "executeContract" then
    contractAddress <- str ctx "contractAddress" i ;;
    msg <- any ctx "msg" i ;;
    sender <- str ctx "sender" i ;;
    funds <- any ctx "funds" i ;;
    let message :=
      VObj [ ("@type", VStr "/secret.compute.v1beta1.MsgExecuteContract");
             ("sender", VStr sender);
             ("contract", VStr contractAddress);
             ("msg", textOf msg);
             ("sent_funds", arrayOr funds) ] in
    ret (postJson (baseUrl cred +++ "/cosmos/tx/v1beta1/txs")
           (payload message "25000" "200000"))
  else if String.eqb operation "getContract" then
    contractAddress <- str ctx "contractAddress" i ;;
    ret (getJson (baseUrl cred +++ "/compute/v1beta1/contracts/"
                    +++ contractAddress))
  else if String.eqb operation "queryContract" then
    contractAddress <- str ctx "contractAddress" i ;;
    query <- any ctx "query" i ;;
    ret (postJson (baseUrl cred +++ "/compute/v1beta1/contracts/"
                     +++ contractAddress +++ "/query")
           (VObj [("query", textOf query)]))
  else if String.eqb operation "instantiateContract" then
    codeId <- str ctx "codeId" i ;;
    initMsg <- any ctx "initMsg" i ;;
    label <- str ctx "label" i ;;
    funds <- any ctx "funds" i ;;
    let message :=
      VObj [ ("@type", VStr "/secret.compute.v1beta1.MsgInstantiateContract");
             ("sender", JS.or (address cred) (VStr EmptyString));
             ("code_id", VStr codeId);
             ("label", VStr label);
             ("init_msg", textOf initMsg);
             ("init_funds", arrayOr funds) ] in
    ret (postJson (baseUrl cred +++ "/cosmos/tx/v1beta1/txs")
           (payload message "25000" "200000"))
  else if String.eqb operation "listCodes" then
    paginationLimit <-
      getNodeParameter (numbers ctx) "paginationLimit" i (Some (of_Z 100)) ;;
    paginationKey <-
      getNodeParameter (strings ctx) "paginationKey" i (Some EmptyString) ;;
    let target :=
      baseUrl cred +++ "/compute/v1beta1/codes?pagination.limit="
        +++ NumberToString.toString paginationLimit in
    let target' :=
      if truthy (VStr paginationKey) then
        target +++ "&pagination.key=" +++ Text.encodeURIComponent paginationKey
      else target in
    ret (getJson target')
  else if String.eqb operation "storeCode" then
    wasmByteCode <- str ctx "wasmByteCode" i ;;
    sender <- str ctx "sender" i ;;
    let message :=
      VObj [ ("@type", VStr "/secret.compute.v1beta1.MsgStoreCode");
             ("sender", VStr sender);
             ("wasm_byte_code", VStr wasmByteCode);
             ("source", VStr EmptyString);
             ("builder", VStr EmptyString) ] in
    ret (postJson (baseUrl cred +++ "/cosmos/tx/v1beta1/txs")
           (payload message "50000" "500000"))
  else if String.eqb operation "getCode" then
    codeId <- str ctx "codeId" i ;;
    ret (getJson (baseUrl cred +++ "/compute/v1beta1/codes/" +++ codeId))
  else if String.eqb operation "getContractsByCode" then
    codeId <- str ctx "codeId" i ;;
    ret (getJson (baseUrl cred +++ "/compute/v1beta1/contracts/by-code/"
                    +++ codeId))
  else unknownOperation operation.

(** [result = await this.helpers.httpRequest(options)] *)
Definition smartContractsOperation (ctx : context) (cred : credentials)
    (operation : string) (i : nat) : M value :=
  options <- smartContractsOptions ctx cred operation i ;;
  httpRequest (request_of options).

Definition executeSmartContractsOperations (ctx : context) (items : list item)
  : M (list item) :=
  operation <- str ctx "operation" 0 ;;
  cred <- getCredentials ctx ;;
  processItems ctx (fun e => NodeApiError (apiErrorMessage ctx e) e)
    (smartContractsOperation ctx cred operation)
    (seq 0 (List.length items)) [].

(** *** Transactions *)

Section Transactions.

(** What this handler reads beyond the model of the others:
    [credentials.apiKey]; the SyntaxError that [JSON.parse] throws on a
    text, whose message depends on the engine; and, for an error that
    carries the response of the server with a body, the [NodeApiError]
    that the handler makes of that body and of the status code. *)
Variable apiKey : value.
Variable syntaxError : string -> error.
Variable responseError : error -> option error.

(** [...(credentials.apiKey && { 'Authorization': `Bearer ${credentials.apiKey}` })] *)
Definition authorization : list (string * string) :=
  if truthy apiKey then [("Authorization", "Bearer " +++ Text.ToString apiKey)]
  else [].

(** [JSON.parse(txData)] *)
Definition parseJson (txData : value) : M value :=
  match JSON.parse (Text.ToString txData) with
  | Some tx => ret tx
  | None => throw (syntaxError (Text.ToString txData))
  end.

(** [if (x) queryParams[k] = v] *)
Definition setIf (condition : value) (k : string) (v : value)
    (queryParams : list (string * value)) : list (string * value) :=
  if truthy condition then assign k v queryParams else queryParams.

Definition transactionsOperation (ctx : context) (cred : credentials)
    (operation : string) (i : nat) : M value :=
  if String.eqb operation "broadcastTransaction" then
    txBytes <- str ctx "txBytes" i ;;
    mode <- str ctx "mode" i ;;
    httpRequest
      {| method := "POST";
         url := baseUrl cred +++ "/cosmos/tx/v1beta1/txs";
         headers := json_headers ++ authorization;
         qs := [];
         body := VObj [ ("tx_bytes", VStr txBytes); ("mode", VStr mode) ] |}
  else if String.eqb operation "getTransaction" then
    hash <- str ctx "hash" i ;;
    httpRequest
      {| method := "GET";
         url := baseUrl cred +++ "/cosmos/tx/v1beta1/txs/" +++ hash;
         headers := authorization;
         qs := [];
         body := VUndefined |}
  else if String.eqb operation "getTransactions" then
    events <- str ctx "events" i ;;
    orderBy <- str ctx "orderBy" i ;;
    pageSize <- num ctx "pageSize" i ;;
    pageKey <- str ctx "pageKey" i ;;
    let queryParams := [] in
    let queryParams := setIf (VStr events) "events" (VStr events) queryParams in
    let queryParams := setIf (VStr orderBy) "order_by" (VStr orderBy) queryParams in
    let queryParams :=
      setIf (VNum pageSize) "pagination.limit"
            (VStr (NumberToString.toString pageSize)) queryParams in
    let queryParams :=
      setIf (VStr pageKey) "pagination.key" (VStr pageKey) queryParams in
    let queryString := Text.URLSearchParams_toString queryParams in
    httpRequest
      {| method := "GET";
         url := baseUrl cred +++ "/cosmos/tx/v1beta1/txs"
                  +++ (if truthy (VStr queryString) then "?" +++ queryString
                       else EmptyString);
         headers := authorization;
         qs := [];
         body := VUndefined |}
  else if String.eqb operation "simulateTransaction" then
    txData <- any ctx "txData" i ;;
    txBytes <- str ctx "txBytes" i ;;
    body <-
      (if truthy (VStr txBytes) then ret (VObj [("tx_bytes", VStr txBytes)])
       else if truthy txData then
         tx <- parseJson txData ;; ret (VObj [("tx", tx)])
       else ret (VObj [])) ;;
    httpRequest
      {| method := "POST";
         url := baseUrl cred +++ "/cosmos/tx/v1beta1/simulate";
         headers := json_headers ++ authorization;
         qs := [];
         body := body |}
  else if String.eqb operation "getBlock" then
    height <- str ctx "height" i ;;
    httpRequest
      {| method := "GET";
         url := baseUrl cred +++ "/cosmos/base/tendermint/v1beta1/blocks/"
                  +++ height;
         headers := authorization;
         qs := [];
         body := VUndefined |}
  else if String.eqb operation "getLatestBlock" then
    httpRequest
      {| method := "GET";
         url := baseUrl cred +++ "/cosmos/base/tendermint/v1beta1/blocks/latest";
         headers := authorization;
         qs := [];
         body := VUndefined |}
  else unknownOperation operation.

(** What the [catch] throws when the node does not continue on fail. *)
Definition rethrowTransactions (e : error) : error :=
  match responseError e with
  | Some apiError => apiError
  | None => NodeOperationError (message e)
  end.

Definition executeTransactionsOperations (ctx : context) (items : list item)
  : M (list item) :=
  operation <- str ctx "operation" 0 ;;
  cred <- getCredentials ctx ;;
  processItems ctx rethrowTransactions (transactionsOperation ctx cred operation)
    (seq 0 (List.length items)) [].

(** *** [execute] *)

Context {secp256k1 : Secp256k1}.

Definition unsupportedResource {A} (resource : string) : M A :=
  throw (NodeOperationError
           ("The resource " +++ String (ascii_of_N 34) resource
              +++ String (ascii_of_N 34) " is not supported")).

(** [execute]; [items] is [this.getInputData()]. *)
Definition execute (ctx : context) (items : list item) : M (list (list item)) :=
  resource <- str ctx "resource" 0 ;;
  if String.eqb resource "smartContracts" then
    out <- executeSmartContractsOperations ctx items ;; ret [out]
  else if String.eqb resource "snip20Tokens" then
    out <- executeSnip20TokensOperations ctx items ;; ret [out]
  else if String.eqb resource "snip721Tokens" then
    out <- executeSnip721TokensOperations ctx items ;; ret [out]
  else if String.eqb resource "ibcOperations" then
    out <- executeIbcOperationsOperations ctx items ;; ret [out]
  else if String.eqb resource "transactions" then
    out <- executeTransactionsOperations ctx items ;; ret [out]
  else if String.eqb resource "accounts" then
    out <- executeAccountsOperations ctx items ;; ret [out]
  else unsupportedResource resource.

End Transactions.

End Resources.

(** ** Vocabulary of the traffic of the node *)

Module Traffic.
Import Runtime.

(** A computation that, from any world, leaves the requests sent before
    it in place and adds at most [n] requests, each of which satisfies
    [P]. *)
Definition sends {A} (P : request -> Prop) (n : nat) (c : M A) : Prop :=
  forall w,
    exists l,
      sent (snd (c w)) = sent w ++ l
      /\ Forall P l
      /\ (List.length l <= n)%nat.

(** A computation that sends nothing and takes no reply. *)
Definition quiet {A} (c : M A) : Prop :=
  forall w, sent (snd (c w)) = sent w /\ replies (snd (c w)) = replies w.

(** A computation that takes its replies from the front of those the
    network still has to give. *)
Definition consuming {A} (c : M A) : Prop :=
  forall w, exists used, replies w = used ++ replies (snd (c w)).

(** A computation whose result, when it returns one, is an answer of
    the network as it came: the last reply it took. *)
Definition relays (c : M JS.value) : Prop :=
  forall w v w',
    c w = (Ok v, w') ->
    exists used r, replies w = used ++ r :: replies w' /\ outcome r = Ok v.

(** A request to a URL under the base URL of the credentials. *)
Definition under (cred : credentials) (r : request) : Prop :=
  exists path, url r = baseUrl cred +++ path.

End Traffic.

(** ** Vocabulary of the properties *)

Module Wire.
Import Num JS SecretNetwork.

(** One member of a JSON object: the quoted key, a colon, the text of
    the value. *)
Definition member (key text : string) : string := quote key +++ ":" +++ text.

(** A JSON object and a JSON array from the texts of their parts, in
    the order given. *)
Definition object (parts : list string) : string :=
  "{" +++ join "," parts +++ "}".

Definition array (parts : list string) : string :=
  "[" +++ join "," parts +++ "]".

(** The text of the sign doc: its four members in the order in which
    [signDoc] lists them. *)
Definition signDocText (body_bytes auth_info_bytes chain_id account_number : string)
  : string :=
  object [ member "body_bytes" (quote body_bytes);
           member "auth_info_bytes" (quote auth_info_bytes);
           member "chain_id" chain_id;
           member "account_number" account_number ].

(** The text of the transaction body of [signAndBroadcastTx]. *)
Definition txBodyText (address contractAddress msg : string) : string :=
  object
    [ member "messages"
        (array
           [ object
               [ member "@type" (quote "/secret.compute.v1beta1.MsgExecuteContract");
                 member "sender" (quote address);
                 member "contract" (quote contractAddress);
                 member "msg" (quote msg);
                 member "sent_funds" (array []) ] ]);
      member "memo" (quote EmptyString);
      member "timeout_height" (quote "0");
      member "extension_options" (array []);
      member "non_critical_extension_options" (array []) ].

(** The text of the auth info of [signAndBroadcastTx], for the text
    [sequence] of the sequence. *)
Definition authInfoText (pubKey : list byte) (sequence : string)
    (gasLimit : number) (gasPrice : string) : string :=
  object
    [ member "signer_infos"
        (array
           [ object
               [ member "public_key"
                   (object
                      [ member "@type" (quote "/cosmos.crypto.secp256k1.PubKey");
                        member "key" (quote (Buffer.toBase64 pubKey)) ]);
                 member "mode_info"
                   (object
                      [ member "single"
                          (object [ member "mode" (quote "SIGN_MODE_DIRECT") ]) ]);
                 member "sequence" sequence ] ]);
      member "fee"
        (object
           [ member "amount"
               (array
                  [ object
                      [ member "denom" (quote "uscrt");
                        member "amount" (quote (feeAmount gasLimit gasPrice)) ] ]);
             member "gas_limit" (quote (NumberToString.toString gasLimit));
             member "payer" (quote EmptyString);
             member "granter" (quote EmptyString) ]) ].

End Wire.

Module Reading.

(** The fee amount as the specification words it, for a decimal gas
    price [digits / 10 ^ decimals]: the ceiling of the exact product of
    the price and the gas limit. *)
Definition ceilingOfProduct (digits decimals gasLimit : Z) : Z :=
  - ((- (digits * gasLimit)) / 10 ^ decimals).

End Reading.

Module Batch.
Import JS Runtime SecretNetwork.

(** What a batch leaves when every error is recorded: items are
    processed in order, each in the world the previous one left; an item
    that succeeds yields its result, one that throws yields the message
    of its error, and either is paired with the index of the item. *)
Inductive recorded (operate : nat -> M value)
  : list nat -> world -> list item -> world -> Prop :=
| recorded_nil w : recorded operate [] w [] w
| recorded_ok i rest w result w1 outs w2 :
    operate i w = (Ok result, w1) ->
    recorded operate rest w1 outs w2 ->
    recorded operate (i :: rest) w (success result i :: outs) w2
| recorded_error i rest w e w1 outs w2 :
    operate i w = (Throw e, w1) ->
    recorded operate rest w1 outs w2 ->
    recorded operate (i :: rest) w (failure e i :: outs) w2.

(** A run of items that all succeed. *)
Inductive succeeded (operate : nat -> M value)
  : list nat -> world -> list item -> world -> Prop :=
| succeeded_nil w : succeeded operate [] w [] w
| succeeded_cons i rest w result w1 outs w2 :
    operate i w = (Ok result, w1) ->
    succeeded operate rest w1 outs w2 ->
    succeeded operate (i :: rest) w (success result i :: outs) w2.

End Batch.


(** ** Material for running the model on concrete inputs *)

Module Examples.
Import Num JS Runtime SecretNetwork.

(** The compressed generator point of the curve, the public key of the
    private key 1. *)
Definition generator_key : list byte :=
  Buffer.fromHex "0279be667ef9dcbbac55a06295ce870b07029bfcdb2dce28d959f2815b16f81798".

Definition sample_private_key : string :=
  "0000000000000000000000000000000000000000000000000000000000000001".

Definition sample_credentials : credentials :=
  {| baseUrl := "https://lcd.secret.express";
     chainId := VStr "secret-4";
     address := VUndefined |}.

Definition answer (v : value) : reply := {| latency := 120; outcome := Ok v |}.

Definition rejection (e : error) : reply := {| latency := 120; outcome := Throw e |}.

(** The message n8n-workflow writes for a [NodeApiError] around an error
    that has neither a code nor an HTTP status it knows. *)
Definition unknown_issue (e : error) : string :=
  "There was an unknown issue while executing the node".

(** A world at 2026-01-01T00:00:00Z in which nothing has been sent. *)
Definition world_with (rs : list reply) : world :=
  {| replies := rs; sent := []; now := 1767225600000; randoms := [] |}.

(** The message and the parameters of the [transferNft] test of the
    repository. *)
Definition transfer_message : value :=
  VObj [ ("transfer_nft",
          VObj [ ("recipient", VStr "secret1recipient");
                 ("token_id", VStr "1") ]) ].

(** Answers of the account endpoint: an account with its sequence, an
    account whose record has no sequence, and an answer with no account. *)
Definition account_found : value :=
  VObj [ ("account",
          VObj [ ("@type", VStr "/cosmos.auth.v1beta1.BaseAccount");
                 ("account_number", VStr "123");
                 ("sequence", VStr "1") ]) ].

Definition account_without_sequence : value :=
  VObj [ ("account",
          VObj [ ("@type", VStr "/cosmos.auth.v1beta1.BaseAccount");
                 ("account_number", VStr "123") ]) ].

Definition no_account : value := VObj [].

(** Answers of the broadcast endpoint: code 0, and code 5 with its log. *)
Definition accepted : value :=
  VObj [ ("tx_response",
          VObj [ ("txhash", VStr "hash123"); ("code", VNum (of_Z 0)) ]) ].

Definition refused : value :=
  VObj [ ("tx_response",
          VObj [ ("txhash", VStr "hash123");
                 ("code", VNum (of_Z 5));
                 ("raw_log", VStr "insufficient funds") ]) ].

(** A run of [signAndBroadcastTx] on the sample inputs. *)
Definition sample_run : M value :=
  signAndBroadcastTx sample_credentials "secret1contract" transfer_message
                     sample_private_key (of_Z 200000) "0.25uscrt".

Definition sample_public_key : list byte := generator_key.

Definition sample_address : string := getAddressFromPubKey sample_public_key.

Definition sample_body : value :=
  txBody sample_address "secret1contract"
         (Buffer.base64_of_string (serialize transfer_message)).

(** The auth info of the sample run for a given sequence. *)
Definition sample_auth (sequence : value) : value :=
  authInfo sample_public_key sequence (of_Z 200000) "0.25uscrt".

(** The signature of the sample run. *)
Definition sample_signature (sequence : value) : list byte :=
  match
    ecdsaSign
      (SHA256.digest
         (signBytes sample_body (sample_auth sequence) (VStr "secret-4")
                    (VStr "123")))
      (Buffer.fromHex sample_private_key)
  with
  | Ok signature => signature
  | Throw _ => []
  end.

(** The post of the sample run. *)
Definition sample_post (sequence : value) : request :=
  broadcast sample_credentials
    (txRaw (encode sample_body) (encode (sample_auth sequence))
           [VStr (Buffer.toBase64 (sample_signature sequence))]).

(** Parameter tables: the same value for every item. *)
Definition table {A} (entries : list (string * A)) : string -> nat -> option A :=
  fun name _ =>
    match find (fun entry => String.eqb name (fst entry)) entries with
    | Some entry => Some (snd entry)
    | None => None
    end.

Definition no_parameters {A} : string -> nat -> option A := fun _ _ => None.

(** The parameters of the [ibcTransfer] test of the repository, with its
    [timeoutHeight] of 0, to which a height-based timeout is added under
    the name the message gives it. *)
Definition ibc_context : context :=
  {| strings :=
       table [ ("operation", "ibcTransfer"); ("sourcePort", "transfer");
               ("sourceChannel", "channel-0"); ("sender", "secret1sender");
               ("receiver", "cosmos1receiver");
               ("privateKey", "test-private-key"); ("gasPrice", "0.1uscrt") ];
     numbers := table [ ("timeoutHeight", of_Z 0); ("gasLimit", of_Z 200000) ];
     booleans := no_parameters;
     objects :=
       table [ ("token",
                VObj [ ("denom", VStr "uscrt"); ("amount", VStr "1000000") ]);
               ("timeout_height",
                VObj [ ("revision_number", VStr "0");
                       ("revision_height", VStr "100") ]) ];
     stored_credentials := Ok sample_credentials;
     continueOnFail := false;
     apiErrorMessage := unknown_issue |}.

(** The message [ibcTransfer] builds from these parameters at the time
    of [world_with]. *)
Definition ibc_message : value :=
  VObj [ ("@type", VStr "/ibc.applications.transfer.v1.MsgTransfer");
         ("source_port", VStr "transfer");
         ("source_channel", VStr "channel-0");
         ("token", VObj [ ("denom", VStr "uscrt"); ("amount", VStr "1000000") ]);
         ("sender", VStr "secret1sender");
         ("receiver", VStr "cosmos1receiver");
         ("timeout_height", VUndefined);
         ("timeout_timestamp",
          VNum (mul (add (of_Z 1767225600000) (of_Z 600000)) (of_Z 1000000))) ].

(** The parameters of the [getOwnerOf] test of the repository, with
    [Continue On Fail] set, and two input items. *)
Definition owner_context : context :=
  {| strings :=
       table [ ("operation", "getOwnerOf"); ("contractAddress", "secret1contract");
               ("tokenId", "1"); ("viewingKey", "viewing-key") ];
     numbers := no_parameters;
     booleans := no_parameters;
     objects := no_parameters;
     stored_credentials := Ok sample_credentials;
     continueOnFail := true;
     apiErrorMessage := unknown_issue |}.

Definition two_items : list item :=
  [ {| json := VObj []; pairedItem := 0 |}; {| json := VObj []; pairedItem := 0 |} ].

Definition owner_answer : value :=
  VObj [ ("owner_of", VObj [ ("owner", VStr "secret1owner") ]) ].

(** A network that rejects the first request and answers the second. *)
Definition flaky_world : world :=
  world_with [ rejection (Error "Network error"); answer owner_answer ].

(** The answer and the parameters of the two [getBalance] tests of the
    repository. *)
Definition balances_answer : value :=
  VObj [ ("balances",
          VArr [ VObj [ ("denom", VStr "uscrt"); ("amount", VStr "1000000") ];
                 VObj [ ("denom", VStr "ibc/token"); ("amount", VStr "500000") ] ]);
         ("pagination",
          VObj [ ("next_key", VNull); ("total", VStr "2") ]) ].

Definition balance_context (denom : string) : context :=
  {| strings :=
       table [ ("operation", "getBalance"); ("address", "secret1test");
               ("denom", denom) ];
     numbers := no_parameters;
     booleans := no_parameters;
     objects := no_parameters;
     stored_credentials := Ok sample_credentials;
     continueOnFail := false;
     apiErrorMessage := unknown_issue |}.

(** The credentials and the parameters of the SNIP-20 [transfer] test of
    the repository. *)
Definition token_credentials : credentials :=
  {| baseUrl := "https://lcd.secret.express";
     chainId := VUndefined;
     address := VStr "secret1test" |}.

Definition transfer_context : context :=
  {| strings :=
       table [ ("operation", "transfer"); ("contractAddress", "secret1contract");
               ("recipient", "secret1recipient"); ("amount", "1000000");
               ("memo", "test transfer") ];
     numbers := no_parameters;
     booleans := no_parameters;
     objects := no_parameters;
     stored_credentials := Ok token_credentials;
     continueOnFail := false;
     apiErrorMessage := unknown_issue |}.

(** The parameters of the [executeContract] test of the repository. *)
Definition contract_context : context :=
  {| strings :=
       table [ ("resource", "smartContracts"); ("operation", "executeContract");
               ("contractAddress", "secret1contract");
               ("sender", "secret1sender") ];
     numbers := no_parameters;
     booleans := no_parameters;
     objects :=
       table [ ("msg", VObj [("test", VStr "message")]); ("funds", VArr []) ];
     stored_credentials := Ok token_credentials;
     continueOnFail := false;
     apiErrorMessage := unknown_issue |}.

(** The parameters of the [simulateTransaction] and [getTransactions]
    tests of the repository, and the API key of their credentials. *)
Definition transactions_context (operation : string) : context :=
  {| strings :=
       table [ ("resource", "transactions"); ("operation", operation);
               ("txBytes", EmptyString);
               ("events", "message.action='/cosmos.bank.v1beta1.MsgSend'");
               ("orderBy", "ORDER_BY_DESC"); ("pageKey", EmptyString) ];
     numbers := table [ ("pageSize", of_Z 10) ];
     booleans := no_parameters;
     objects :=
       table [ ("txData",
                VStr ("{" +++ quote "body" +++ ":{" +++ quote "messages"
                        +++ ":[]}}")) ];
     stored_credentials := Ok sample_credentials;
     continueOnFail := false;
     apiErrorMessage := unknown_issue |}.

Definition test_api_key : value := VStr "test-api-key".

(** An engine whose SyntaxError quotes the text, and a client whose
    errors carry no response. *)
Definition syntax_error (text : string) : error :=
  Error ("Unexpected token in JSON: " +++ text).

Definition no_response (e : error) : option error := None.

(** A context that sets nothing but the resource and the operation. *)
Definition bare_context (resource operation : string) (continue : bool)
  : context :=
  {| strings := table [ ("resource", resource); ("operation", operation) ];
     numbers := no_parameters;
     booleans := no_parameters;
     objects := no_parameters;
     stored_credentials := Ok sample_credentials;
     continueOnFail := continue;
     apiErrorMessage := unknown_issue |}.



(** The parameters of a [mintNft] with the metadata given. *)
Definition mint_context (metadata : value) : context :=
  {| strings :=
       table [ ("operation", "mintNft"); ("contractAddress", "secret1contract");
               ("tokenId", "1"); ("owner", "secret1owner");
               ("privateKey", sample_private_key) ];
     numbers := no_parameters;
     booleans := no_parameters;
     objects := table [ ("metadata", metadata) ];
     stored_credentials := Ok sample_credentials;
     continueOnFail := false;
     apiErrorMessage := unknown_issue |}.

(** The same two members of a metadata object, in the two orders. *)
Definition metadata_name_first : value :=
  VObj [ ("name", VStr "Ace"); ("image", VStr "ipfs://ace") ].

Definition metadata_image_first : value :=
  VObj [ ("image", VStr "ipfs://ace"); ("name", VStr "Ace") ].

End Examples.


(** * Properties *)

(** ** Strings and buffers *)

Lemma length_append (a b : string) :
  String.length (a +++ b) = (String.length a + String.length b)%nat.
Proof.
  induction a as [|c a IH]; simpl; [reflexivity|].
  now rewrite IH.
Qed.

Lemma substring_whole (s : string) (n : nat) :
  (String.length s <= n)%nat -> substring 0 n s = s.
Proof.
  revert n; induction s as [|c s IH]; intros n Hn.
  - destruct n; reflexivity.
  - destruct n as [|n]; simpl in *; [lia|].
    rewrite IH by lia. reflexivity.
Qed.

Lemma toHex_length (bs : list byte) :
  String.length (Buffer.toHex bs) = (2 * List.length bs)%nat.
Proof.
  induction bs as [|b bs IH]; simpl; [reflexivity|].
  rewrite IH. lia.
Qed.

Lemma prefix_append (p s : string) : prefix p (p +++ s) = true.
Proof.
  induction p as [|c p IH]; simpl.
  - destruct s; reflexivity.
  - destruct (ascii_dec c c) as [_|Hc]; [exact IH | now elim Hc].
Qed.

Lemma fromHex_toHex_byte (b : byte) (rest : string) :
  Buffer.fromHex
    (String (Buffer.hex_digit (Buffer.byte_to_Z b / 16))
       (String (Buffer.hex_digit (Buffer.byte_to_Z b mod 16)) rest))
  = b :: Buffer.fromHex rest.
Proof. destruct b; reflexivity. Qed.

Lemma fromHex_length_le (n : nat) :
  forall s, (String.length s <= n)%nat ->
            (2 * List.length (Buffer.fromHex s) <= String.length s)%nat.
Proof.
  induction n as [n IH] using lt_wf_ind. intros s Hs.
  destruct s as [|c1 [|c2 rest]]; cbn [Buffer.fromHex List.length String.length];
    try lia.
  destruct (Buffer.hex_value c1), (Buffer.hex_value c2);
    cbn [List.length]; try lia.
  cbn [String.length] in Hs.
  specialize (IH (String.length rest) ltac:(lia) rest (le_n _)). lia.
Qed.

Lemma append_empty (s : string) : s +++ EmptyString = s.
Proof. induction s as [|c s IH]; cbn; congruence. Qed.

Lemma toHex_fromHex_app (bs : list byte) (text : string) :
  Buffer.fromHex (Buffer.toHex bs +++ text) = bs ++ Buffer.fromHex text.
Proof.
  induction bs as [|b bs IH]; [reflexivity|].
  cbn [Buffer.toHex String.append]. rewrite fromHex_toHex_byte, IH. reflexivity.
Qed.

(** [buf.toString('hex')] writes two digits per byte and
    [Buffer.from(text, 'hex')] reads them back: decoding the text of a
    buffer gives the buffer. Decoding stops at the first pair that is
    not hexadecimal, so what follows such a pair is lost, and the bytes
    decoded from a text are never more than half its characters. *)
Theorem fromHex_toHex (bs : list byte) :
  Buffer.fromHex (Buffer.toHex bs) = bs
  /\ String.length (Buffer.toHex bs) = (2 * List.length bs)%nat
  /\ (forall text,
         (2 * List.length (Buffer.fromHex text) <= String.length text)%nat)
  /\ (forall rest, Buffer.fromHex (Buffer.toHex bs +++ "x" +++ rest) = bs).
Proof.
  split; [|split; [|split]].
  - rewrite <- (append_empty (Buffer.toHex bs)), toHex_fromHex_app.
    cbn. apply app_nil_r.
  - apply toHex_length.
  - intros text. now apply (fromHex_length_le (String.length text)).
  - intros rest. rewrite toHex_fromHex_app.
    assert (Hx : Buffer.fromHex ("x" +++ rest) = []) by (destruct rest; reflexivity).
    rewrite Hx. apply app_nil_r.
Qed.

Lemma toHex_injective (a b : list byte) :
  Buffer.toHex a = Buffer.toHex b -> a = b.
Proof.
  intros H. apply (f_equal Buffer.fromHex) in H.
  now rewrite !(proj1 (fromHex_toHex _)) in H.
Qed.

Lemma append_injective (p a b : string) : p +++ a = p +++ b -> a = b.
Proof. induction p as [|c p IH]; cbn; [trivial|]. intros [= H]. now apply IH. Qed.

(** Base64 text is never empty for a buffer that is not. *)
Lemma toBase64_nonempty (bs : list byte) :
  bs <> [] -> Buffer.toBase64 bs <> EmptyString.
Proof.
  destruct bs as [|a [|b [|c rest]]]; intros H; [now elim H| | |]; discriminate.
Qed.

(** Four characters of base64 for every three bytes started. *)
Lemma toBase64_length (bs : list byte) :
  String.length (Buffer.toBase64 bs) = (4 * ((List.length bs + 2) / 3))%nat.
Proof.
  assert (H : forall n (l : list byte), (List.length l <= n)%nat ->
            String.length (Buffer.toBase64 l) = (4 * ((List.length l + 2) / 3))%nat).
  { induction n as [|n IH]; intros l Hl.
    - destruct l; [reflexivity | simpl in Hl; lia].
    - destruct l as [|a [|b [|c rest]]]; try reflexivity.
      cbn [Buffer.toBase64 String.length List.length].
      rewrite IH by (simpl in Hl; lia).
      replace (S (S (S (List.length rest))) + 2)%nat
        with ((List.length rest + 2) + 1 * 3)%nat by lia.
      rewrite Nat.div_add by lia. lia. }
  now apply (H (List.length bs)).
Qed.

(** ** The digests have their fixed sizes *)

Lemma to_be_length (x : Z) : List.length (Word32.to_be x) = 4%nat.
Proof. reflexivity. Qed.

Lemma to_le_length (x : Z) : List.length (Word32.to_le x) = 4%nat.
Proof. unfold Word32.to_le. now rewrite length_rev. Qed.

Lemma SHA256_digest_length (msg : list byte) :
  List.length (SHA256.digest msg) = 32%nat.
Proof.
  unfold SHA256.digest, SHA256.output.
  repeat rewrite length_app. repeat rewrite to_be_length. reflexivity.
Qed.

Lemma RIPEMD160_digest_length (msg : list byte) :
  List.length (RIPEMD160.digest msg) = 20%nat.
Proof.
  unfold RIPEMD160.digest, RIPEMD160.output.
  repeat rewrite length_app. repeat rewrite to_le_length. reflexivity.
Qed.

(** The digests on the test vectors of their specifications. *)
Example SHA256_abc :
  Buffer.toHex (SHA256.digest (Buffer.from "abc"))
  = "ba7816bf8f01cfea414140de5dae2223b00361a396177a9cb410ff61f20015ad".
Proof. vm_compute. reflexivity. Qed.

Example SHA256_two_blocks :
  Buffer.toHex
    (SHA256.digest
       (Buffer.from "abcdbcdecdefdefgefghfghighijhijkijkljklmklmnlmnomnopnopq"))
  = "248d6a61d20638b8e5c026930c3e6039a33ce45964ff2167f6ecedd419db06c1".
Proof. vm_compute. reflexivity. Qed.

Example RIPEMD160_abc :
  Buffer.toHex (RIPEMD160.digest (Buffer.from "abc"))
  = "8eb208f7e05d987a9b044a8e98c6b087f15a0bfc".
Proof. vm_compute. reflexivity. Qed.

Example RIPEMD160_two_blocks :
  Buffer.toHex
    (RIPEMD160.digest
       (Buffer.from "12345678901234567890123456789012345678901234567890123456789012345678901234567890"))
  = "9b752e45573d4b39f4dbd3323cab82bf63326bfb".
Proof. vm_compute. reflexivity. Qed.

(** ** The monad *)

Import Num JS Runtime SecretNetwork.

Lemma bind_ok {A B} (c : M A) (k : A -> M B) w a w' :
  c w = (Ok a, w') -> bind c k w = k a w'.
Proof. intros H. unfold bind. now rewrite H. Qed.

Lemma bind_throw {A B} (c : M A) (k : A -> M B) w e w' :
  c w = (Throw e, w') -> bind c k w = (Throw e, w').
Proof. intros H. unfold bind. now rewrite H. Qed.

Lemma bind_ret {A B} (a : A) (k : A -> M B) w : bind (ret a) k w = k a w.
Proof. reflexivity. Qed.

Lemma property_some k v x w : get k v = Some x -> property k v w = (Ok x, w).
Proof. intros H. unfold property. now rewrite H. Qed.

Lemma json_base64_some v text w :
  stringify v = Some text ->
  json_base64 v w = (Ok (Buffer.base64_of_string text), w).
Proof. intros H. unfold json_base64. now rewrite H. Qed.

(** A request is answered by the next reply of the world, which it
    consumes. *)
Lemma httpRequest_reply options w r rest :
  replies w = r :: rest ->
  httpRequest options w
  = (outcome r,
     {| replies := rest; sent := sent w ++ [options];
        now := now w + latency r; randoms := randoms w |}).
Proof. intros H. unfold httpRequest. now rewrite H. Qed.

(** ** [signAndBroadcastTx], step by step *)

Section Pipeline.
Context {secp256k1 : Secp256k1}.
Variables (cred : credentials) (contractAddress : string) (executeMsg : value)
          (privateKey : string) (gasLimit : number) (gasPrice : string).

(** The run in which every step before the broadcast succeeds: the
    account is looked up, the transaction is built from the answer,
    signed, and posted; the answer to the post is the result. *)
Lemma signAndBroadcastTx_run w pubKey r1 r2 rest accountResponse account
    sequence0 accountNumber0 text signature :
  publicKeyCreate (Buffer.fromHex privateKey) = Ok pubKey ->
  replies w = r1 :: r2 :: rest ->
  outcome r1 = Ok accountResponse ->
  get "account" accountResponse = Some account ->
  get "sequence" account = Some sequence0 ->
  get "account_number" account = Some accountNumber0 ->
  stringify executeMsg = Some text ->
  let address := getAddressFromPubKey pubKey in
  let body := txBody address contractAddress (Buffer.base64_of_string text) in
  let auth := authInfo pubKey (JS.or sequence0 (VStr "0")) gasLimit gasPrice in
  ecdsaSign
    (SHA256.digest
       (signBytes body auth (chainId cred) (JS.or accountNumber0 (VStr "0"))))
    (Buffer.fromHex privateKey) = Ok signature ->
  signAndBroadcastTx cred contractAddress executeMsg privateKey gasLimit gasPrice w
  = (outcome r2,
     {| replies := rest;
        sent := sent w ++
                [ accountLookup cred address;
                  broadcast cred
                    (txRaw (encode body) (encode auth)
                           [VStr (Buffer.toBase64 signature)]) ];
        now := now w + latency r1 + latency r2;
        randoms := randoms w |}).
Proof.
  intros Hpub Hreplies Hr1 Hacc Hseq Hnum Htext address body auth Hsig.
  unfold signAndBroadcastTx.
  unfold lift at 1. rewrite Hpub.
  erewrite bind_ok by reflexivity.
  erewrite bind_ok
    by (rewrite (httpRequest_reply _ _ _ _ Hreplies), Hr1; reflexivity).
  erewrite bind_ok by (apply property_some; eassumption).
  erewrite bind_ok by (apply property_some; eassumption).
  erewrite bind_ok by (apply property_some; eassumption).
  erewrite bind_ok by (apply json_base64_some; eassumption).
  fold address. fold body. fold auth.
  unfold lift. rewrite Hsig.
  erewrite bind_ok by reflexivity.
  erewrite httpRequest_reply by reflexivity.
  cbn [sent now randoms replies]. rewrite <- app_assoc. reflexivity.
Qed.

Lemma skipn_length_app {A} (l new : list A) :
  skipn (List.length l) (l ++ new) = new.
Proof. induction l as [|x l IH]; simpl; [reflexivity | exact IH]. Qed.

Lemma httpRequest_sent options w :
  sent (snd (httpRequest options w)) = sent w ++ [options].
Proof. unfold httpRequest. destruct (replies w); reflexivity. Qed.

(** The requests of a run, whatever the world answers: nothing when the
    key is refused; otherwise the lookup of the account of the key,
    alone or followed by the post of the transaction built from the
    answer and signed with the key. *)
Lemma signAndBroadcastTx_requests w :
  let run := signAndBroadcastTx cred contractAddress executeMsg privateKey
                                gasLimit gasPrice in
  match publicKeyCreate (Buffer.fromHex privateKey) with
  | Throw _ => sentBy run w = []
  | Ok pubKey =>
      let address := getAddressFromPubKey pubKey in
      sentBy run w = [accountLookup cred address]
      \/ exists sequence accountNumber text signature,
           let body := txBody address contractAddress (Buffer.base64_of_string text) in
           let auth := authInfo pubKey sequence gasLimit gasPrice in
           stringify executeMsg = Some text
           /\ ecdsaSign (SHA256.digest (signBytes body auth (chainId cred) accountNumber))
                        (Buffer.fromHex privateKey) = Ok signature
           /\ sentBy run w
              = [ accountLookup cred address;
                  broadcast cred
                    (txRaw (encode body) (encode auth)
                           [VStr (Buffer.toBase64 signature)]) ]
  end.
Proof.
  intros run. unfold run, sentBy, signAndBroadcastTx. cbv zeta.
  assert (Hnone : skipn (List.length (sent w)) (sent w) = [])
    by (rewrite <- (app_nil_r (sent w)) at 2; apply skipn_length_app).
  destruct (publicKeyCreate (Buffer.fromHex privateKey)) as [pubKey|e].
  2:{ rewrite (bind_throw (lift (Throw e)) _ w e w eq_refl). exact Hnone. }
  rewrite (bind_ok (lift (Ok pubKey)) _ w pubKey w eq_refl).
  set (address := getAddressFromPubKey pubKey).
  pose proof (httpRequest_sent (accountLookup cred address) w) as Hsent.
  destruct (httpRequest (accountLookup cred address) w) as [[resp|e] w1] eqn:Hreq;
    cbn [snd] in Hsent.
  2:{ left. rewrite (bind_throw _ _ _ _ _ Hreq).
      cbn [snd]. rewrite Hsent. apply skipn_length_app. }
  rewrite (bind_ok _ _ _ _ _ Hreq).
  unfold property, json_base64.
  assert (Hlookup : skipn (List.length (sent w)) (sent w1)
                    = [accountLookup cred address])
    by (rewrite Hsent; apply skipn_length_app).
  destruct (get "account" resp) as [account|];
    [rewrite bind_ret | left; exact Hlookup].
  destruct (get "sequence" account) as [sequence0|];
    [rewrite bind_ret | left; exact Hlookup].
  destruct (get "account_number" account) as [accountNumber0|];
    [rewrite bind_ret | left; exact Hlookup].
  destruct (stringify executeMsg) as [text|];
    [rewrite bind_ret | left; exact Hlookup].
  match goal with
  | |- context [ecdsaSign ?h ?k] =>
      destruct (ecdsaSign h k) as [signature|e] eqn:Hsig
  end.
  2:{ left. rewrite (bind_throw (lift (Throw e)) _ w1 e w1 eq_refl).
      exact Hlookup. }
  rewrite (bind_ok (lift (Ok signature)) _ w1 signature w1 eq_refl).
  right.
  exists (JS.or sequence0 (VStr "0")), (JS.or accountNumber0 (VStr "0")),
    text, signature.
  split; [reflexivity|]. split; [exact Hsig|].
  rewrite httpRequest_sent, Hsent, <- app_assoc.
  apply skipn_length_app.
Qed.

(** What a run sends once the lookup is answered: the post is a function
    of the key, of the parameters and of two members of the account of
    the answer, read by name. *)
Lemma signAndBroadcastTx_sentBy_answer w r rest response pubKey :
  publicKeyCreate (Buffer.fromHex privateKey) = Ok pubKey ->
  replies w = r :: rest ->
  outcome r = Ok response ->
  let address := getAddressFromPubKey pubKey in
  sentBy (signAndBroadcastTx cred contractAddress executeMsg privateKey
                             gasLimit gasPrice) w
  = accountLookup cred address ::
    match get "account" response with
    | None => []
    | Some account =>
        match get "sequence" account, get "account_number" account,
              stringify executeMsg with
        | Some sequence0, Some accountNumber0, Some text =>
            let body :=
              txBody address contractAddress (Buffer.base64_of_string text) in
            let auth :=
              authInfo pubKey (JS.or sequence0 (VStr "0")) gasLimit gasPrice in
            match
              ecdsaSign
                (SHA256.digest
                   (signBytes body auth (chainId cred)
                              (JS.or accountNumber0 (VStr "0"))))
                (Buffer.fromHex privateKey)
            with
            | Ok signature =>
                [ broadcast cred
                    (txRaw (encode body) (encode auth)
                           [VStr (Buffer.toBase64 signature)]) ]
            | Throw _ => []
            end
        | _, _, _ => []
        end
    end.
Proof.
  intros Hpub Hreplies Hr address.
  unfold sentBy, signAndBroadcastTx. cbv zeta.
  rewrite Hpub.
  rewrite (bind_ok (lift (Ok pubKey)) _ w pubKey w eq_refl).
  fold address.
  erewrite bind_ok
    by (rewrite (httpRequest_reply _ _ _ _ Hreplies), Hr; reflexivity).
  set (w1 := {| replies := rest; sent := sent w ++ [accountLookup cred address];
                now := now w + latency r; randoms := randoms w |}).
  assert (Hlookup : skipn (List.length (sent w)) (sent w1)
                    = [accountLookup cred address])
    by apply skipn_length_app.
  unfold property, json_base64.
  destruct (get "account" response) as [account|]; [rewrite bind_ret | exact Hlookup].
  destruct (get "sequence" account) as [sequence0|];
    [rewrite bind_ret | exact Hlookup].
  destruct (get "account_number" account) as [accountNumber0|];
    [rewrite bind_ret | exact Hlookup].
  destruct (stringify executeMsg) as [text|]; [rewrite bind_ret | exact Hlookup].
  cbv zeta.
  match goal with
  | |- context [ecdsaSign ?h ?k] => destruct (ecdsaSign h k) as [signature|e]
  end.
  - rewrite (bind_ok (lift (Ok signature)) _ w1 signature w1 eq_refl).
    rewrite httpRequest_sent. unfold w1. cbn [sent].
    rewrite <- app_assoc. apply skipn_length_app.
  - rewrite (bind_throw (lift (Throw e)) _ w1 e w1 eq_refl). exact Hlookup.
Qed.

End Pipeline.

(** ** Address derivation *)

(** C1. The address of a public key. For every key it is the prefix
    [secret] followed by the hexadecimal text of the 20-byte identifier,
    the RIPEMD-160 digest of the 32-byte SHA-256 digest of the key; the
    cut to 40 characters keeps the whole text, so every address has 46
    characters. The derivation is deterministic: two keys have the same
    address exactly when they have the same identifier, and a run of
    [signAndBroadcastTx] looks up, in every world, the address of the
    key it was given, whatever the clock, the network or the earlier
    requests are. The two digests are SHA-256 and RIPEMD-160, as their
    test vectors and the addresses of the keys 1 and 2 show; these two
    addresses differ. *)
Theorem getAddressFromPubKey_derivation {secp256k1 : Secp256k1} :
  (forall pubKey : list byte,
      let hash := SHA256.digest pubKey in
      let identifier := RIPEMD160.digest hash in
      List.length hash = 32%nat
      /\ List.length identifier = 20%nat
      /\ String.length (Buffer.toHex identifier) = 40%nat
      /\ getAddressFromPubKey pubKey = "secret" +++ Buffer.toHex identifier
      /\ String.length (getAddressFromPubKey pubKey) = 46%nat)
  /\ (forall pubKey pubKey' : list byte,
         getAddressFromPubKey pubKey = getAddressFromPubKey pubKey'
         <-> RIPEMD160.digest (SHA256.digest pubKey)
             = RIPEMD160.digest (SHA256.digest pubKey'))
  /\ (forall (cred : credentials) (contractAddress : string) (executeMsg : value)
             (privateKey : string) (gasLimit : number) (gasPrice : string)
             (w : world),
         let run := signAndBroadcastTx cred contractAddress executeMsg
                                       privateKey gasLimit gasPrice in
         match publicKeyCreate (Buffer.fromHex privateKey) with
         | Ok pubKey =>
             exists rest,
               sentBy run w
               = {| method := "GET";
                    url := baseUrl cred +++ "/cosmos/auth/v1beta1/accounts/"
                             +++ getAddressFromPubKey pubKey;
                    headers := [("Content-Type", "application/json")];
                    qs := [];
                    body := VUndefined |} :: rest
         | Throw _ => sentBy run w = []
         end)
  /\ Buffer.toHex (SHA256.digest (Buffer.from "abc"))
     = "ba7816bf8f01cfea414140de5dae2223b00361a396177a9cb410ff61f20015ad"
  /\ Buffer.toHex
       (SHA256.digest
          (Buffer.from "abcdbcdecdefdefgefghfghighijhijkijkljklmklmnlmnomnopnopq"))
     = "248d6a61d20638b8e5c026930c3e6039a33ce45964ff2167f6ecedd419db06c1"
  /\ Buffer.toHex (RIPEMD160.digest (Buffer.from "abc"))
     = "8eb208f7e05d987a9b044a8e98c6b087f15a0bfc"
  /\ Buffer.toHex
       (RIPEMD160.digest
          (Buffer.from "12345678901234567890123456789012345678901234567890123456789012345678901234567890"))
     = "9b752e45573d4b39f4dbd3323cab82bf63326bfb"
  /\ getAddressFromPubKey
       (Buffer.fromHex "0279be667ef9dcbbac55a06295ce870b07029bfcdb2dce28d959f2815b16f81798")
     = "secret751e76e8199196d454941c45d1b3a323f1433bd6"
  /\ getAddressFromPubKey
       (Buffer.fromHex "02c6047f9441ed7d6d3045406e95c07cd85c778e4b8cef3ca7abac09b95c709ee5")
     = "secret06afd46bcdfd22ef94ac122aa11f241244a37ecc".
Proof.
  assert (Haddress : forall pubKey,
             getAddressFromPubKey pubKey
             = "secret" +++ Buffer.toHex (RIPEMD160.digest (SHA256.digest pubKey))).
  { intros pubKey. unfold getAddressFromPubKey. cbv zeta.
    rewrite substring_whole; [reflexivity|].
    rewrite toHex_length, RIPEMD160_digest_length. cbn. lia. }
  split; [|split; [|split]].
  - intros pubKey hash identifier.
    assert (Hhex : String.length (Buffer.toHex identifier) = 40%nat)
      by (rewrite toHex_length; unfold identifier;
          now rewrite RIPEMD160_digest_length).
    split; [apply SHA256_digest_length|].
    split; [apply RIPEMD160_digest_length|].
    split; [exact Hhex|].
    split; [apply Haddress|].
    rewrite Haddress. fold hash. fold identifier.
    rewrite length_append, Hhex. reflexivity.
  - intros pubKey pubKey'. rewrite !Haddress. split.
    + intros H. apply append_injective in H. now apply toHex_injective.
    + now intros ->.
  - intros cred contractAddress executeMsg privateKey gasLimit gasPrice w run.
    pose proof (signAndBroadcastTx_requests cred contractAddress executeMsg
                  privateKey gasLimit gasPrice w) as H.
    cbv zeta in H. fold run in H.
    destruct (publicKeyCreate (Buffer.fromHex privateKey)) as [pubKey|e];
      [|exact H].
    destruct H as [H | (sequence & accountNumber & text & signature & _ & _ & H)];
      rewrite H; eexists; reflexivity.
  - split; [|split; [|split; [|split; [|split]]]]; vm_compute; reflexivity.
Qed.

(** ** The signing library keeps its sizes *)

Lemma bytes32_length (z : Z) : List.length (Secp256k1Lib.bytes32 z) = 32%nat.
Proof. unfold Secp256k1Lib.bytes32. now rewrite length_map, length_seq. Qed.

Lemma sign_with_length k d z signature :
  Secp256k1Lib.sign_with k d z = Some signature ->
  List.length signature = 64%nat.
Proof.
  unfold Secp256k1Lib.sign_with.
  destruct k as [|k'|k']; try discriminate.
  destruct (Z.pos k' <? Secp256k1Lib.n); [|discriminate].
  cbv zeta.
  generalize (fst (Secp256k1Lib.affine (Secp256k1Lib.multiply k' Secp256k1Lib.G))
              mod Secp256k1Lib.n).
  intros r.
  match goal with
  | |- context [BigZ.to_Z ?b] => generalize (BigZ.to_Z b)
  end.
  intros s.
  destruct ((r =? 0) || (s =? 0)); [discriminate|].
  intros H.
  apply (f_equal (fun o => match o with Some x => x | None => [] end)) in H.
  cbv beta iota in H. rewrite <- H.
  rewrite length_app, !bytes32_length. reflexivity.
Qed.

Lemma sign_loop_length tries :
  forall K V d z signature,
    Secp256k1Lib.sign_loop tries K V d z = Ok signature ->
    List.length signature = 64%nat.
Proof.
  induction tries as [|tries IH]; intros K V d z signature; cbn [Secp256k1Lib.sign_loop].
  - discriminate.
  - destruct (Secp256k1Lib.sign_with _ d z) as [s|] eqn:Hs.
    + intros [= <-]. eapply sign_with_length. exact Hs.
    + apply IH.
Qed.

Lemma secp256k1_package_sizes : Secp256k1Sizes secp256k1_package.
Proof.
  split.
  - intros key pub. cbn. unfold Secp256k1Lib.publicKeyCreate.
    destruct (negb (Nat.eqb (List.length key) 32)); [discriminate|].
    destruct (Secp256k1Lib.integer key) as [|d|d]; try discriminate.
    destruct (Z.pos d <? Secp256k1Lib.n); [|discriminate].
    destruct (Secp256k1Lib.affine _) as [x y].
    intros [= <-]. cbn [List.length]. now rewrite bytes32_length.
  - intros hash key sig. cbn. unfold Secp256k1Lib.ecdsaSign.
    destruct (negb (Nat.eqb (List.length hash) 32)); [discriminate|].
    destruct (negb (Nat.eqb (List.length key) 32)); [discriminate|].
    destruct (negb (Secp256k1Lib.valid_key key)); [discriminate|].
    destruct (Secp256k1Lib.seed key hash) as [K V].
    apply sign_loop_length.
Qed.

(** The library on the test vectors of RFC 6979 for this curve: the
    private key 1 and the message [Satoshi Nakamoto]. *)
Example publicKeyCreate_one :
  publicKeyCreate (Secp256k1Lib.bytes32 1) = Ok Examples.generator_key.
Proof. vm_compute. reflexivity. Qed.

Example ecdsaSign_satoshi :
  ecdsaSign (SHA256.digest (Buffer.from "Satoshi Nakamoto"))
            (Secp256k1Lib.bytes32 1)
  = Ok (Buffer.fromHex
          ("934b1ea10a4b3c1757e2b0c017d0b6143ce3c9a7e6a4a49860d7a6ab210ee3d8"
           +++ "2442ce9d2b916064108014783e923ec36b49743e2ffa1c4496f01a512aafd9e5")).
Proof. vm_compute. reflexivity. Qed.

(** The sample run with an account that has a sequence and a network
    that accepts the transaction: the lookup, then the post. *)
Example sample_run_accepted :
  Examples.sample_run
    (Examples.world_with
       [Examples.answer Examples.account_found; Examples.answer Examples.accepted])
  = (Ok Examples.accepted,
     {| replies := [];
        sent := [ accountLookup Examples.sample_credentials Examples.sample_address;
                  Examples.sample_post (VStr "1") ];
        now := 1767225600240;
        randoms := [] |}).
Proof. vm_compute. reflexivity. Qed.

(** ** The text of objects *)

Lemma serialize_object (props : list (string * value)) :
  serialize (VObj props) = Wire.object (members props).
Proof.
  unfold Wire.object. cbn [serialize].
  match goal with
  | |- context [join "," (?f props)] =>
      assert (H : forall ps, f ps = members ps)
  end.
  { induction ps as [|[k v] rest IH]; [reflexivity|].
    destruct v; cbn [members]; rewrite <- IH; reflexivity. }
  now rewrite H.
Qed.

Lemma serialize_array (items : list value) :
  serialize (VArr items) = Wire.array (map serialize items).
Proof. reflexivity. Qed.

Lemma members_defined k v rest :
  v <> VUndefined ->
  members ((k, v) :: rest) = Wire.member k (serialize v) :: members rest.
Proof. intros H. destruct v; try reflexivity. now elim H. Qed.

(** [a || b] is not [undefined] when [b] is not. *)
Lemma or_defined a b : b <> VUndefined -> JS.or a b <> VUndefined.
Proof.
  intros Hb. unfold JS.or. destruct (truthy a) eqn:Ha; [|exact Hb].
  intros ->. discriminate.
Qed.

Lemma or_falsy a b : truthy a = false -> JS.or a b = b.
Proof. intros H. unfold JS.or. now rewrite H. Qed.

Lemma or_truthy a b : truthy a = true -> JS.or a b = a.
Proof. intros H. unfold JS.or. now rewrite H. Qed.

(** ** The sign doc *)

(** C2, as the code has it. The bytes that are signed are the UTF-8
    text of one JSON object whose four members are always written in
    this order: the base64 text of the JSON text of the body, that of
    the auth info, the chain id (or [secret-4]) and the account number.
    The body and the auth info that the code builds list their members
    in a fixed order too. Nothing else enters: two runs of
    [signAndBroadcastTx] on the same inputs send the same requests,
    whatever the clock, the earlier requests and the later answers of
    their worlds are, as soon as the account answers give the same
    sequence and the same account number; these are read by name, so
    the order and the other members of the answers do not matter. *)
Theorem signBytes_canonical {secp256k1 : Secp256k1} :
  (forall body auth chainId accountNumber : value,
      accountNumber <> VUndefined ->
      signBytes body auth chainId accountNumber
      = Buffer.from
          (Wire.object
             [ Wire.member "body_bytes"
                 (quote (Buffer.base64_of_string (serialize body)));
               Wire.member "auth_info_bytes"
                 (quote (Buffer.base64_of_string (serialize auth)));
               Wire.member "chain_id" (serialize (JS.or chainId (VStr "secret-4")));
               Wire.member "account_number" (serialize accountNumber) ]))
  /\ (forall address contractAddress msg : string,
         serialize (txBody address contractAddress msg)
         = Wire.txBodyText address contractAddress msg)
  /\ (forall (pubKey : list byte) (sequence : value) (gasLimit : number)
             (gasPrice : string),
         sequence <> VUndefined ->
         serialize (authInfo pubKey sequence gasLimit gasPrice)
         = Wire.authInfoText pubKey (serialize sequence) gasLimit gasPrice)
  /\ (forall (cred : credentials) (contractAddress : string) (executeMsg : value)
             (privateKey : string) (gasLimit : number) (gasPrice : string)
             (w w' : world) (r r' : reply) (rest rest' : list reply)
             (response response' : value),
         let run := signAndBroadcastTx cred contractAddress executeMsg
                                       privateKey gasLimit gasPrice in
         let field := fun (name : string) (answer : value) =>
           match get "account" answer with
           | Some account => get name account
           | None => None
           end in
         replies w = r :: rest -> outcome r = Ok response ->
         replies w' = r' :: rest' -> outcome r' = Ok response' ->
         field "sequence" response = field "sequence" response' ->
         field "account_number" response = field "account_number" response' ->
         sentBy run w = sentBy run w').
Proof.
  split; [|split; [|split]].
  - intros body auth chainId accountNumber Hnum.
    assert (Hchain : JS.or chainId (VStr "secret-4") <> VUndefined)
      by (apply or_defined; discriminate).
    unfold signBytes, signDoc, encode.
    rewrite serialize_object.
    do 2 (rewrite members_defined by discriminate).
    rewrite (members_defined "chain_id") by exact Hchain.
    rewrite (members_defined "account_number") by exact Hnum.
    reflexivity.
  - reflexivity.
  - intros pubKey sequence gasLimit gasPrice Hseq.
    unfold authInfo.
    rewrite serialize_object.
    rewrite members_defined by discriminate.
    rewrite serialize_array. cbn [map].
    rewrite serialize_object.
    do 2 (rewrite members_defined by discriminate).
    rewrite (members_defined "sequence") by exact Hseq.
    reflexivity.
  - intros cred contractAddress executeMsg privateKey gasLimit gasPrice
           w w' r r' rest rest' response response' run field
           Hw Hr Hw' Hr' Hseq Hnum.
    unfold run.
    destruct (publicKeyCreate (Buffer.fromHex privateKey)) as [pubKey|e] eqn:Hpub.
    2:{ pose proof (signAndBroadcastTx_requests cred contractAddress executeMsg
                      privateKey gasLimit gasPrice w) as H.
        pose proof (signAndBroadcastTx_requests cred contractAddress executeMsg
                      privateKey gasLimit gasPrice w') as H'.
        cbv zeta in H, H'. rewrite Hpub in H, H'. now rewrite H, H'. }
    rewrite (signAndBroadcastTx_sentBy_answer cred contractAddress executeMsg
               privateKey gasLimit gasPrice w r rest response pubKey Hpub Hw Hr).
    rewrite (signAndBroadcastTx_sentBy_answer cred contractAddress executeMsg
               privateKey gasLimit gasPrice w' r' rest' response' pubKey Hpub Hw' Hr').
    cbv zeta. f_equal. unfold field in Hseq, Hnum.
    destruct (get "account" response) as [account|],
             (get "account" response') as [account'|].
    + rewrite Hseq, Hnum. reflexivity.
    + rewrite Hseq. reflexivity.
    + rewrite <- Hseq. reflexivity.
    + reflexivity.
Qed.

(** The text that is signed keeps the order in which the members of a
    message are given: two [mintNft] whose metadata have the same two
    members in the two orders sign different bytes and post different
    transactions, and so do two bodies that differ in the order of
    their members alone. *)
Lemma signBytes_follow_member_order :
  let mint := fun metadata =>
    VObj [ ("mint_nft",
            VObj [ ("token_id", VStr "1"); ("owner", VStr "secret1owner");
                   ("metadata", metadata) ]) ] in
  let bodyOf := fun metadata =>
    txBody Examples.sample_address "secret1contract"
           (Buffer.base64_of_string (serialize (mint metadata))) in
  let auth := Examples.sample_auth (VStr "1") in
  let world :=
    Examples.world_with
      [Examples.answer Examples.account_found; Examples.answer Examples.accepted] in
  let posted := fun metadata =>
    map body
        (sentBy (snip721Operation (secp256k1 := secp256k1_package)
                   (Examples.mint_context metadata) Examples.sample_credentials
                   "mintNft" 0)
                world) in
  (forall name,
      get name Examples.metadata_name_first
      = get name Examples.metadata_image_first)
  /\ signBytes (bodyOf Examples.metadata_name_first) auth (VStr "secret-4") (VStr "123")
     <> signBytes (bodyOf Examples.metadata_image_first) auth (VStr "secret-4")
                  (VStr "123")
  /\ posted Examples.metadata_name_first <> posted Examples.metadata_image_first
  /\ List.length (posted Examples.metadata_name_first) = 2%nat
  /\ signBytes Examples.metadata_name_first auth (VStr "secret-4") (VStr "123")
     <> signBytes Examples.metadata_image_first auth (VStr "secret-4") (VStr "123").
Proof.
  intros mint bodyOf auth world posted.
  split; [|split; [|split; [|split]]].
  - intros name. cbn [get Examples.metadata_name_first Examples.metadata_image_first
                      lookup].
    destruct (String.eqb name "name") eqn:Hn, (String.eqb name "image") eqn:Hi;
      try reflexivity.
    apply String.eqb_eq in Hn, Hi. congruence.
  - intros H. vm_compute in H. discriminate H.
  - intros H. vm_compute in H. discriminate H.
  - vm_compute. reflexivity.
  - intros H. vm_compute in H. discriminate H.
Qed.

(** ** The signature of a posted transaction *)

(** C5. Every post that [signAndBroadcastTx] sends goes to the broadcast
    endpoint and carries, as its [tx_bytes], the base64 text of the JSON
    text of an envelope of three members: the body, the auth info and a
    [signatures] list of exactly one element. That element is the base64
    text, 88 characters and never the empty string, of the 64-byte
    signature the library made with the private key on the SHA-256
    digest of the sign doc of this body and this auth info. The auth
    info names exactly one signer, the public key of the private key. *)
Theorem broadcast_carries_one_signature
    {secp256k1 : Secp256k1} {sizes : Secp256k1Sizes secp256k1}
    (cred : credentials) (contractAddress : string) (executeMsg : value)
    (privateKey : string) (gasLimit : number) (gasPrice : string)
    (w : world) (post : request) :
  In post
     (sentBy (signAndBroadcastTx cred contractAddress executeMsg privateKey
                                 gasLimit gasPrice) w) ->
  method post = "POST" ->
  exists (pubKey signature : list byte) (body_bytes auth_info_bytes : string)
         (sequence accountNumber : value),
    let signed := Buffer.toBase64 signature in
    let envelope :=
      VObj [ ("body_bytes", VStr body_bytes);
             ("auth_info_bytes", VStr auth_info_bytes);
             ("signatures", VArr [VStr signed]) ] in
    let auth :=
      VObj [ ("signer_infos",
              VArr [ VObj [ ("public_key",
                             VObj [ ("@type", VStr "/cosmos.crypto.secp256k1.PubKey");
                                    ("key", VStr (Buffer.toBase64 pubKey)) ]);
                            ("mode_info",
                             VObj [ ("single",
                                     VObj [ ("mode", VStr "SIGN_MODE_DIRECT") ]) ]);
                            ("sequence", sequence) ] ]);
             ("fee", fee gasLimit gasPrice) ] in
    let signDoc :=
      VObj [ ("body_bytes", VStr body_bytes);
             ("auth_info_bytes", VStr auth_info_bytes);
             ("chain_id", JS.or (chainId cred) (VStr "secret-4"));
             ("account_number", accountNumber) ] in
    url post = baseUrl cred +++ "/cosmos/tx/v1beta1/txs"
    /\ body post
       = VObj [ ("tx_bytes", VStr (Buffer.base64_of_string (serialize envelope)));
                ("mode", VStr "BROADCAST_MODE_SYNC") ]
    /\ serialize envelope
       = Wire.object
           [ Wire.member "body_bytes" (quote body_bytes);
             Wire.member "auth_info_bytes" (quote auth_info_bytes);
             Wire.member "signatures" (Wire.array [quote signed]) ]
    /\ get "signatures" envelope = Some (VArr [VStr signed])
    /\ publicKeyCreate (Buffer.fromHex privateKey) = Ok pubKey
    /\ auth_info_bytes = Buffer.base64_of_string (serialize auth)
    /\ ecdsaSign (SHA256.digest (Buffer.from (serialize signDoc)))
                 (Buffer.fromHex privateKey)
       = Ok signature
    /\ List.length signature = 64%nat
    /\ String.length signed = 88%nat
    /\ signed <> EmptyString.
Proof.
  intros Hin Hpost.
  pose proof (signAndBroadcastTx_requests cred contractAddress executeMsg
                privateKey gasLimit gasPrice w) as H.
  cbv zeta in H.
  destruct (publicKeyCreate (Buffer.fromHex privateKey)) as [pubKey|e] eqn:Hpub.
  2:{ rewrite H in Hin. destruct Hin. }
  destruct H as [H | (sequence & accountNumber & text & signature & Htext & Hsig & H)];
    rewrite H in Hin.
  - destruct Hin as [<- | []]. discriminate Hpost.
  - destruct Hin as [<- | [<- | []]]; [discriminate Hpost|].
    pose proof (ecdsaSign_length _ _ _ Hsig) as Hlen.
    assert (H88 : String.length (Buffer.toBase64 signature) = 88%nat)
      by (rewrite toBase64_length, Hlen; reflexivity).
    exists pubKey, signature,
      (encode (txBody (getAddressFromPubKey pubKey) contractAddress
                      (Buffer.base64_of_string text))),
      (encode (authInfo pubKey sequence gasLimit gasPrice)),
      sequence, accountNumber.
    cbv zeta.
    split; [reflexivity|]. split; [reflexivity|]. split; [reflexivity|].
    split; [reflexivity|]. split; [reflexivity|]. split; [reflexivity|].
    split; [exact Hsig|]. split; [exact Hlen|]. split; [exact H88|].
    intros Hempty. rewrite Hempty in H88. discriminate H88.
Qed.

(** The post of the sample run is such a transaction. *)
Lemma broadcast_carries_one_signature_witness :
  exists (pubKey signature : list byte) (body_bytes auth_info_bytes : string)
         (sequence accountNumber : value),
    let signed := Buffer.toBase64 signature in
    let envelope :=
      VObj [ ("body_bytes", VStr body_bytes);
             ("auth_info_bytes", VStr auth_info_bytes);
             ("signatures", VArr [VStr signed]) ] in
    let auth :=
      VObj [ ("signer_infos",
              VArr [ VObj [ ("public_key",
                             VObj [ ("@type", VStr "/cosmos.crypto.secp256k1.PubKey");
                                    ("key", VStr (Buffer.toBase64 pubKey)) ]);
                            ("mode_info",
                             VObj [ ("single",
                                     VObj [ ("mode", VStr "SIGN_MODE_DIRECT") ]) ]);
                            ("sequence", sequence) ] ]);
             ("fee", fee (of_Z 200000) "0.25uscrt") ] in
    let signDoc :=
      VObj [ ("body_bytes", VStr body_bytes);
             ("auth_info_bytes", VStr auth_info_bytes);
             ("chain_id", JS.or (chainId Examples.sample_credentials) (VStr "secret-4"));
             ("account_number", accountNumber) ] in
    url (Examples.sample_post (VStr "1"))
      = baseUrl Examples.sample_credentials +++ "/cosmos/tx/v1beta1/txs"
    /\ body (Examples.sample_post (VStr "1"))
       = VObj [ ("tx_bytes", VStr (Buffer.base64_of_string (serialize envelope)));
                ("mode", VStr "BROADCAST_MODE_SYNC") ]
    /\ serialize envelope
       = Wire.object
           [ Wire.member "body_bytes" (quote body_bytes);
             Wire.member "auth_info_bytes" (quote auth_info_bytes);
             Wire.member "signatures" (Wire.array [quote signed]) ]
    /\ get "signatures" envelope = Some (VArr [VStr signed])
    /\ publicKeyCreate (Buffer.fromHex Examples.sample_private_key) = Ok pubKey
    /\ auth_info_bytes = Buffer.base64_of_string (serialize auth)
    /\ ecdsaSign (SHA256.digest (Buffer.from (serialize signDoc)))
                 (Buffer.fromHex Examples.sample_private_key)
       = Ok signature
    /\ List.length signature = 64%nat
    /\ String.length signed = 88%nat
    /\ signed <> EmptyString.
Proof.
  apply (broadcast_carries_one_signature
           (secp256k1 := secp256k1_package) (sizes := secp256k1_package_sizes)
           Examples.sample_credentials "secret1contract"
           Examples.transfer_message Examples.sample_private_key
           (of_Z 200000) "0.25uscrt"
           (Examples.world_with
              [ Examples.answer Examples.account_found;
                Examples.answer Examples.accepted ])).
  - vm_compute. right. left. reflexivity.
  - reflexivity.
Defined.

(** ** The account lookup *)

(** C3, as the code has it. With a usable key and a network that
    answers the lookup: a rejected lookup rethrows the error of the
    client unchanged; an answer without an account makes the read of
    its sequence a TypeError; an account whose record has no sequence,
    or a falsy one, is signed for with the sequence "0", and the
    transaction is posted. No step builds an error of its own for a
    missing account. *)
Theorem account_lookup_outcomes {secp256k1 : Secp256k1}
    (cred : credentials) (contractAddress : string) (executeMsg : value)
    (privateKey : string) (gasLimit : number) (gasPrice : string)
    (w : world) (pubKey : list byte) (r1 : reply) (rest : list reply) :
  publicKeyCreate (Buffer.fromHex privateKey) = Ok pubKey ->
  replies w = r1 :: rest ->
  let run := signAndBroadcastTx cred contractAddress executeMsg privateKey
                                gasLimit gasPrice in
  let address := getAddressFromPubKey pubKey in
  let looked_up :=
    {| replies := rest; sent := sent w ++ [accountLookup cred address];
       now := now w + latency r1; randoms := randoms w |} in
  (forall e, outcome r1 = Throw e -> run w = (Throw e, looked_up)) /\
  (forall response,
      outcome r1 = Ok response ->
      get "account" response = Some VUndefined ->
      run w
      = (Throw (TypeError "Cannot read properties of undefined (reading 'sequence')"),
         looked_up)) /\
  (forall response account sequence0 accountNumber0 text signature r2 rest',
      outcome r1 = Ok response ->
      get "account" response = Some account ->
      get "sequence" account = Some sequence0 ->
      truthy sequence0 = false ->
      get "account_number" account = Some accountNumber0 ->
      stringify executeMsg = Some text ->
      rest = r2 :: rest' ->
      let body := txBody address contractAddress (Buffer.base64_of_string text) in
      let auth := authInfo pubKey (VStr "0") gasLimit gasPrice in
      ecdsaSign
        (SHA256.digest
           (signBytes body auth (chainId cred) (JS.or accountNumber0 (VStr "0"))))
        (Buffer.fromHex privateKey) = Ok signature ->
      run w
      = (outcome r2,
         {| replies := rest';
            sent := sent w ++
                    [ accountLookup cred address;
                      broadcast cred
                        (txRaw (encode body) (encode auth)
                               [VStr (Buffer.toBase64 signature)]) ];
            now := now w + latency r1 + latency r2;
            randoms := randoms w |})).
Proof.
  intros Hpub Hreplies run address looked_up.
  assert (Hlookup : httpRequest (accountLookup cred address) w
                    = (outcome r1, looked_up))
    by (apply httpRequest_reply; exact Hreplies).
  split; [|split].
  - intros e He. unfold run, signAndBroadcastTx. cbv zeta.
    unfold lift at 1. rewrite Hpub.
    rewrite (bind_ok (fun w0 => (Ok pubKey, w0)) _ w pubKey w eq_refl).
    fold address. rewrite He in Hlookup.
    now rewrite (bind_throw _ _ _ _ _ Hlookup).
  - intros response Hr Hacc. unfold run, signAndBroadcastTx. cbv zeta.
    unfold lift at 1. rewrite Hpub.
    rewrite (bind_ok (fun w0 => (Ok pubKey, w0)) _ w pubKey w eq_refl).
    fold address. rewrite Hr in Hlookup.
    rewrite (bind_ok _ _ _ _ _ Hlookup).
    rewrite (bind_ok _ _ _ _ _ (property_some _ _ _ looked_up Hacc)).
    reflexivity.
  - intros response account sequence0 accountNumber0 text signature r2 rest'
           Hr Hacc Hseq Hfalsy Hnum Htext -> body auth Hsig.
    unfold run.
    rewrite (signAndBroadcastTx_run cred contractAddress executeMsg privateKey
               gasLimit gasPrice w pubKey r1 r2 rest' response account
               sequence0 accountNumber0 text signature
               Hpub Hreplies Hr Hacc Hseq Hnum Htext);
      rewrite (or_falsy sequence0) by exact Hfalsy; [reflexivity | exact Hsig].
Qed.

(** An account without a sequence does not make the run fail: the
    sample run signs for the sequence "0", posts the transaction and
    returns the answer of the network. *)
Lemma missing_sequence_is_signed_as_zero :
  Examples.sample_run
    (Examples.world_with
       [ Examples.answer Examples.account_without_sequence;
         Examples.answer Examples.accepted ])
  = (Ok Examples.accepted,
     {| replies := [];
        sent := [ accountLookup Examples.sample_credentials Examples.sample_address;
                  Examples.sample_post (VStr "0") ];
        now := 1767225600240;
        randoms := [] |}).
Proof. vm_compute. reflexivity. Qed.

(** The third case at work: no sequence in the account, a network that
    refuses the transaction. *)
Lemma account_lookup_outcomes_witness :
  Examples.sample_run
    (Examples.world_with
       [ Examples.answer Examples.account_without_sequence;
         Examples.answer Examples.refused ])
  = (Ok Examples.refused,
     {| replies := [];
        sent := [] ++
                [ accountLookup Examples.sample_credentials Examples.sample_address;
                  Examples.sample_post (VStr "0") ];
        now := 1767225600000 + 120 + 120;
        randoms := [] |}).
Proof.
  refine
    (proj2 (proj2
       (account_lookup_outcomes (secp256k1 := secp256k1_package)
          Examples.sample_credentials "secret1contract"
          Examples.transfer_message Examples.sample_private_key
          (of_Z 200000) "0.25uscrt"
          (Examples.world_with
             [ Examples.answer Examples.account_without_sequence;
               Examples.answer Examples.refused ])
          Examples.sample_public_key
          (Examples.answer Examples.account_without_sequence)
          [Examples.answer Examples.refused] _ _))
       Examples.account_without_sequence
       (VObj [ ("@type", VStr "/cosmos.auth.v1beta1.BaseAccount");
               ("account_number", VStr "123") ])
       VUndefined (VStr "123") (serialize Examples.transfer_message)
       (Examples.sample_signature (VStr "0"))
       (Examples.answer Examples.refused) [] _ _ _ _ _ _ _ _);
    vm_compute; reflexivity.
Defined.

(** ** The answer of the broadcast endpoint *)

(** C7, as the code has it. When the transaction has been built and
    signed, the result of [signAndBroadcastTx] is the outcome of the
    post itself: an answer is returned as it is, whatever result code
    it reports, and a rejected request rethrows the error of the client
    unchanged. *)
Theorem broadcast_answer_is_returned {secp256k1 : Secp256k1}
    (cred : credentials) (contractAddress : string) (executeMsg : value)
    (privateKey : string) (gasLimit : number) (gasPrice : string)
    (w : world) (pubKey : list byte) (r1 r2 : reply) (rest : list reply)
    (response account sequence0 accountNumber0 : value) (text : string)
    (signature : list byte) :
  publicKeyCreate (Buffer.fromHex privateKey) = Ok pubKey ->
  replies w = r1 :: r2 :: rest ->
  outcome r1 = Ok response ->
  get "account" response = Some account ->
  get "sequence" account = Some sequence0 ->
  get "account_number" account = Some accountNumber0 ->
  stringify executeMsg = Some text ->
  ecdsaSign
    (SHA256.digest
       (signBytes
          (txBody (getAddressFromPubKey pubKey) contractAddress
                  (Buffer.base64_of_string text))
          (authInfo pubKey (JS.or sequence0 (VStr "0")) gasLimit gasPrice)
          (chainId cred) (JS.or accountNumber0 (VStr "0"))))
    (Buffer.fromHex privateKey) = Ok signature ->
  let result :=
    fst (signAndBroadcastTx cred contractAddress executeMsg privateKey
                            gasLimit gasPrice w) in
  result = outcome r2 /\
  (forall answer, outcome r2 = Ok answer -> result = Ok answer) /\
  (forall e, outcome r2 = Throw e -> result = Throw e).
Proof.
  intros Hpub Hreplies Hr Hacc Hseq Hnum Htext Hsig result.
  assert (H : result = outcome r2).
  { unfold result.
    now rewrite (signAndBroadcastTx_run cred contractAddress executeMsg
                   privateKey gasLimit gasPrice w pubKey r1 r2 rest response
                   account sequence0 accountNumber0 text signature
                   Hpub Hreplies Hr Hacc Hseq Hnum Htext Hsig). }
  split; [exact H|].
  split; intros x Hx; now rewrite H, Hx.
Qed.

(** A transaction refused with code 5 is returned as a result. *)
Lemma refused_transaction_is_returned :
  fst (Examples.sample_run
         (Examples.world_with
            [ Examples.answer Examples.account_found;
              Examples.answer Examples.refused ]))
  = Ok Examples.refused
  /\ get "tx_response" Examples.refused
     = Some (VObj [ ("txhash", VStr "hash123");
                    ("code", VNum (of_Z 5));
                    ("raw_log", VStr "insufficient funds") ]).
Proof. split; [vm_compute; reflexivity | reflexivity]. Qed.

(** The same at work when the post is rejected by the HTTP client. *)
Lemma broadcast_answer_is_returned_witness :
  fst (Examples.sample_run
         (Examples.world_with
            [ Examples.answer Examples.account_found;
              Examples.rejection (Error "socket hang up") ]))
  = Throw (Error "socket hang up").
Proof.
  refine
    (proj2 (proj2
       (broadcast_answer_is_returned (secp256k1 := secp256k1_package)
          Examples.sample_credentials "secret1contract"
          Examples.transfer_message Examples.sample_private_key
          (of_Z 200000) "0.25uscrt"
          (Examples.world_with
             [ Examples.answer Examples.account_found;
               Examples.rejection (Error "socket hang up") ])
          Examples.sample_public_key
          (Examples.answer Examples.account_found)
          (Examples.rejection (Error "socket hang up")) []
          Examples.account_found
          (VObj [ ("@type", VStr "/cosmos.auth.v1beta1.BaseAccount");
                  ("account_number", VStr "123");
                  ("sequence", VStr "1") ])
          (VStr "1") (VStr "123") (serialize Examples.transfer_message)
          (Examples.sample_signature (VStr "1"))
          _ _ _ _ _ _ _ _))
       (Error "socket hang up") _);
    vm_compute; reflexivity.
Defined.

(** ** The fee *)

(** C4, as the code has it. The fee of the auth info has one amount,
    always in [uscrt]; its amount is the decimal text of [Math.ceil] of
    the binary64 product of the gas limit and the number [parseFloat]
    reads in the gas price once its first [uscrt] is removed. For
    [0.1uscrt] and 200000 it is 20000, for the default [0.25uscrt] and
    200000 it is 50000. *)
Theorem fee_of_authInfo (pubKey : list byte) (sequence : value)
    (gasLimit : number) (gasPrice : string) :
  let amount :=
    NumberToString.toString
      (ceil (mul gasLimit (parseFloat (remove_first "uscrt" gasPrice)))) in
  get "fee" (authInfo pubKey sequence gasLimit gasPrice)
    = Some (fee gasLimit gasPrice) /\
  get "amount" (fee gasLimit gasPrice)
    = Some (VArr [ VObj [ ("denom", VStr "uscrt"); ("amount", VStr amount) ] ]) /\
  feeAmount gasLimit gasPrice = amount /\
  feeAmount (of_Z 200000) "0.1uscrt" = "20000" /\
  feeAmount (of_Z 200000) "0.25uscrt" = "50000".
Proof.
  intros amount.
  split; [reflexivity|].
  split; [reflexivity|].
  split; [reflexivity|].
  split; vm_compute; reflexivity.
Qed.

(** The amount is not the ceiling of the exact product: for the price
    0.07 and the limit 100 the product is 7, and the fee is 8, because
    the binary64 product of 100 and 0.07 is 7.000000000000001. *)
Lemma fee_exceeds_exact_ceiling :
  feeAmount (of_Z 100) "0.07uscrt" = "8"
  /\ Reading.ceilingOfProduct 7 2 100 = 7
  /\ NumberToString.toString (mul (of_Z 100) (parseFloat "0.07"))
     = "7.000000000000001".
Proof. repeat split; vm_compute; reflexivity. Qed.

(** ** The timeouts of an IBC transfer *)

Lemma bind_thrown {A B} (e : error) (k : A -> M B) w :
  bind (throw e) k w = (Throw e, w).
Proof. reflexivity. Qed.

(** A parameter is read without touching the world, and the only error
    of the read is that of a parameter that is not set. *)
Lemma getNodeParameter_cases {A} (store : string -> nat -> option A)
    name i fallback w :
  (exists v, getNodeParameter store name i fallback w = (Ok v, w))
  \/ getNodeParameter store name i fallback w
     = (Throw (Error "Could not get parameter"), w).
Proof.
  unfold getNodeParameter.
  destruct (store name i) as [v|]; [left; now exists v|].
  destruct fallback as [d|]; [left; now exists d | right; reflexivity].
Qed.

Lemma timeout_timestamp_field_total timeoutHeight w :
  exists v, timeout_timestamp_field timeoutHeight w = (Ok v, w).
Proof.
  unfold timeout_timestamp_field.
  destruct (eqb timeoutHeight zero); eexists; reflexivity.
Qed.

(** An error of a request is the rejection of the network, or the
    refusal of a network that answers nothing. *)
Lemma httpRequest_error options w e w' :
  httpRequest options w = (Throw e, w') ->
  (exists r rest, replies w = r :: rest /\ outcome r = Throw e)
  \/ (replies w = [] /\ e = Error "connect ECONNREFUSED").
Proof.
  unfold httpRequest. destruct (replies w) as [|r rest].
  - intros [= <- _]. right. now split.
  - intros [= Hr _]. left. now exists r, rest.
Qed.

(** Runs the next read of a parameter of the goal, closing the case in
    which the parameter is not set with [missing]. *)
Ltac read_parameter missing :=
  match goal with
  | |- context [bind (getNodeParameter ?store ?name ?i ?fallback) ?k ?w] =>
      let v := fresh "v" in
      let H := fresh "H" in
      destruct (getNodeParameter_cases store name i fallback w) as [[v H] | H];
      [ rewrite (bind_ok (getNodeParameter store name i fallback) k w v w H)
      | rewrite (bind_throw (getNodeParameter store name i fallback) k w _ w H);
        missing ]
  end.

(** The two timeout members of the message of [ibcTransfer], by the
    sign of [timeoutHeight]. *)
Lemma timeout_fields (timeoutHeight : number) (w : world) :
  (ltb zero timeoutHeight = true ->
   timeout_height_field timeoutHeight
   = VObj [ ("revision_number", VStr "0");
            ("revision_height", VStr (NumberToString.toString timeoutHeight)) ]
   /\ timeout_timestamp_field timeoutHeight w = (Ok (VStr "0"), w))
  /\ (eqb timeoutHeight zero = true ->
      timeout_height_field timeoutHeight = VUndefined
      /\ timeout_timestamp_field timeoutHeight w
         = (Ok (VNum (mul (add (of_Z (now w)) (of_Z 600000)) (of_Z 1000000))), w))
  /\ (ltb zero timeoutHeight = false -> eqb timeoutHeight zero = false ->
      timeout_height_field timeoutHeight = VUndefined
      /\ timeout_timestamp_field timeoutHeight w = (Ok (VStr "0"), w)).
Proof.
  split; [|split].
  - unfold ltb, eqb, timeout_height_field, timeout_timestamp_field, ltb, eqb,
      SFltb, SFeqb.
    destruct (SFcompare zero timeoutHeight) as [[]|] eqn:Hc; try discriminate.
    intros _. split; [reflexivity|].
    destruct timeoutHeight as [s| s | | s m e]; try discriminate Hc;
      destruct s; try discriminate Hc; reflexivity.
  - unfold ltb, eqb, timeout_height_field, timeout_timestamp_field, ltb, eqb,
      SFltb, SFeqb.
    destruct timeoutHeight as [s| s | | s m e]; try discriminate;
      try (destruct s; discriminate).
    intros _. split; reflexivity.
  - intros Hl He. unfold timeout_height_field, timeout_timestamp_field.
    now rewrite Hl, He.
Qed.

(** C6, as the code has it. [ibcTransfer] reads one timeout parameter,
    [timeoutHeight], and raises no error of its own: it fails only when
    a parameter is not set or when the post is rejected. It reads nine
    parameters, and whatever else the caller supplies changes nothing.
    With its nine parameters set it posts one transaction, whose
    message has its two timeout members decided by [timeoutHeight]
    alone. A positive [timeoutHeight] gives the message a height-based
    timeout and the timestamp "0"; a [timeoutHeight] of 0 gives it no
    height-based timeout and the timestamp
    [(Date.now() + 600000) * 1000000]; any other [timeoutHeight] gives
    it no height-based timeout and the timestamp "0". The two forms are
    never set together. *)
Theorem ibcTransfer_timeouts (ctx : context) (cred : credentials) (i : nat)
    (w : world) (timeoutHeight : number) :
  (forall e w',
      ibcOperation ctx cred "ibcTransfer" i w = (Throw e, w') ->
      e = Error "Could not get parameter"
      \/ (exists r rest, replies w = r :: rest /\ outcome r = Throw e)
      \/ (replies w = [] /\ e = Error "connect ECONNREFUSED")) /\
  (forall ctx',
      (forall name,
          In name [ "sourcePort"; "sourceChannel"; "sender"; "receiver";
                    "privateKey"; "gasPrice" ] ->
          strings ctx' name i = strings ctx name i) ->
      numbers ctx' "timeoutHeight" i = numbers ctx "timeoutHeight" i ->
      numbers ctx' "gasLimit" i = numbers ctx "gasLimit" i ->
      objects ctx' "token" i = objects ctx "token" i ->
      ibcOperation ctx' cred "ibcTransfer" i w
      = ibcOperation ctx cred "ibcTransfer" i w) /\
  (forall (sourcePort sourceChannel sender receiver privateKey gasPrice : string)
          (token : value) (gasLimit : number),
      strings ctx "sourcePort" i = Some sourcePort ->
      strings ctx "sourceChannel" i = Some sourceChannel ->
      objects ctx "token" i = Some token ->
      strings ctx "sender" i = Some sender ->
      strings ctx "receiver" i = Some receiver ->
      numbers ctx "timeoutHeight" i = Some timeoutHeight ->
      strings ctx "privateKey" i = Some privateKey ->
      numbers ctx "gasLimit" i = Some gasLimit ->
      strings ctx "gasPrice" i = Some gasPrice ->
      let posted := fun (timeout_height timeout_timestamp : value) =>
        httpRequest
          {| method := "POST";
             url := baseUrl cred +++ "/cosmos/tx/v1beta1/txs";
             headers := [("Content-Type", "application/json")];
             qs := [];
             body :=
               VObj
                 [ ("tx_bytes",
                    VStr
                      (Buffer.base64_of_string
                         (serialize
                            (VObj
                               [ ("body",
                                  VObj
                                    [ ("messages",
                                       VArr
                                         [ VObj
                                             [ ("@type", VStr "/ibc.applications.transfer.v1.MsgTransfer");
                                               ("source_port", VStr sourcePort);
                                               ("source_channel", VStr sourceChannel);
                                               ("token", token);
                                               ("sender", VStr sender);
                                               ("receiver", VStr receiver);
                                               ("timeout_height", timeout_height);
                                               ("timeout_timestamp", timeout_timestamp) ] ]);
                                      ("memo", VStr EmptyString);
                                      ("timeout_height", VStr "0");
                                      ("extension_options", VArr []);
                                      ("non_critical_extension_options", VArr []) ]);
                                 ("auth_info", ibcAuthInfo gasLimit gasPrice);
                                 ("signatures", VArr []) ]))));
                   ("mode", VStr "BROADCAST_MODE_SYNC") ] |}
          w in
      let run := ibcOperation ctx cred "ibcTransfer" i w in
      (ltb zero timeoutHeight = true ->
       run = posted
               (VObj [ ("revision_number", VStr "0");
                       ("revision_height",
                        VStr (NumberToString.toString timeoutHeight)) ])
               (VStr "0"))
      /\ (eqb timeoutHeight zero = true ->
          run = posted
                  VUndefined
                  (VNum (mul (add (of_Z (now w)) (of_Z 600000)) (of_Z 1000000))))
      /\ (ltb zero timeoutHeight = false -> eqb timeoutHeight zero = false ->
          run = posted VUndefined (VStr "0"))).
Proof.
  split; [|split].
  - intros e w'. unfold ibcOperation. cbn [String.eqb Ascii.eqb Bool.eqb].
    unfold str, num, any.
    repeat read_parameter ltac:(intros [= <- _]; left; reflexivity).
    match goal with
    | |- context [bind (timeout_timestamp_field ?t) ?k ?w0] =>
        destruct (timeout_timestamp_field_total t w0) as [stamp Hstamp];
        rewrite (bind_ok _ k w0 stamp w0 Hstamp)
    end.
    intros Hpost. right. eapply httpRequest_error. exact Hpost.
  - intros ctx' Hstrings Hheight Hlimit Htoken.
    unfold ibcOperation. cbn [String.eqb Ascii.eqb Bool.eqb].
    unfold str, num, any, getNodeParameter.
    rewrite Hheight, Hlimit, Htoken.
    rewrite !Hstrings by (cbn; tauto).
    reflexivity.
  - intros sourcePort sourceChannel sender receiver privateKey gasPrice token
           gasLimit Hport Hchannel Htoken Hsender Hreceiver Hheight Hkey Hlimit
           Hprice posted run.
    assert (Hrun : forall height stamp,
               timeout_height_field timeoutHeight = height ->
               timeout_timestamp_field timeoutHeight w = (Ok stamp, w) ->
               run = posted height stamp).
    { intros height stamp Hh Hs.
      unfold run, ibcOperation. cbn [String.eqb Ascii.eqb Bool.eqb].
      unfold str, num, any, getNodeParameter.
      rewrite Hport, Hchannel, Htoken, Hsender, Hreceiver, Hheight, Hkey,
        Hlimit, Hprice, !bind_ret.
      rewrite (bind_ok _ _ _ _ _ Hs), Hh. reflexivity. }
    destruct (timeout_fields timeoutHeight w) as (Hpos & Hzero & Hother).
    split; [|split].
    + intros H. apply Hrun; now apply Hpos.
    + intros H. apply Hrun; now apply Hzero.
    + intros Hl He. apply Hrun; now apply Hother.
Qed.

(** With a [timeoutHeight] of 0 and a height-based timeout supplied
    beside it, the transfer is posted and the answer returned: the
    message has the timestamp and no height, and no error is raised. *)
Lemma ibcTransfer_accepts_both_timeouts :
  ibcOperation Examples.ibc_context Examples.sample_credentials "ibcTransfer" 0
    (Examples.world_with [Examples.answer Examples.accepted])
  = (Ok Examples.accepted,
     {| replies := [];
        sent := [ broadcast Examples.sample_credentials
                    (ibcEnvelope Examples.ibc_message
                       (ibcAuthInfo (of_Z 200000) "0.1uscrt")) ];
        now := 1767225600120;
        randoms := [] |})
  /\ objects Examples.ibc_context "timeout_height" 0%nat
     = Some (VObj [ ("revision_number", VStr "0");
                    ("revision_height", VStr "100") ])
  /\ numbers Examples.ibc_context "timeoutHeight" 0%nat = Some (of_Z 0)
  /\ get "timeout_height" Examples.ibc_message = Some VUndefined
  /\ option_map serialize (get "timeout_timestamp" Examples.ibc_message)
     = Some "1767226200000000000".
Proof. repeat split; vm_compute; reflexivity. Qed.

(** The transfer of the test, with its [timeoutHeight] of 0: the message
    that is posted has the timestamp of ten minutes after the clock of
    the world, in nanoseconds, and no height-based timeout, which the
    JSON text leaves out. *)
Lemma ibcTransfer_timeouts_witness :
  let message :=
    VObj [ ("@type", VStr "/ibc.applications.transfer.v1.MsgTransfer");
           ("source_port", VStr "transfer");
           ("source_channel", VStr "channel-0");
           ("token", VObj [ ("denom", VStr "uscrt"); ("amount", VStr "1000000") ]);
           ("sender", VStr "secret1sender");
           ("receiver", VStr "cosmos1receiver");
           ("timeout_height", VUndefined);
           ("timeout_timestamp",
            VNum (mul (add (of_Z (now (Examples.world_with []))) (of_Z 600000))
                      (of_Z 1000000))) ] in
  ibcOperation Examples.ibc_context Examples.sample_credentials "ibcTransfer" 0
    (Examples.world_with [])
  = httpRequest
      {| method := "POST";
         url := baseUrl Examples.sample_credentials +++ "/cosmos/tx/v1beta1/txs";
         headers := [("Content-Type", "application/json")];
         qs := [];
         body :=
           VObj
             [ ("tx_bytes",
                VStr
                  (Buffer.base64_of_string
                     (serialize
                        (VObj
                           [ ("body",
                              VObj
                                [ ("messages", VArr [message]);
                                  ("memo", VStr EmptyString);
                                  ("timeout_height", VStr "0");
                                  ("extension_options", VArr []);
                                  ("non_critical_extension_options", VArr []) ]);
                             ("auth_info", ibcAuthInfo (of_Z 200000) "0.1uscrt");
                             ("signatures", VArr []) ]))));
               ("mode", VStr "BROADCAST_MODE_SYNC") ] |}
      (Examples.world_with []).
Proof.
  exact (proj1 (proj2
           (proj2 (proj2
              (ibcTransfer_timeouts Examples.ibc_context Examples.sample_credentials
                 0%nat (Examples.world_with []) (of_Z 0)))
              "transfer" "channel-0" "secret1sender" "cosmos1receiver"
              "test-private-key" "0.1uscrt"
              (VObj [ ("denom", VStr "uscrt"); ("amount", VStr "1000000") ])
              (of_Z 200000)
              eq_refl eq_refl eq_refl eq_refl eq_refl eq_refl eq_refl eq_refl
              eq_refl))
           eq_refl).
Defined.

(** ** The item loop *)

(** One turn of the loop. *)
Lemma processItems_step ctx rethrow operate i rest returnData w :
  processItems ctx rethrow operate (i :: rest) returnData w
  = match operate i w with
    | (Ok result, w1) =>
        processItems ctx rethrow operate rest
                     (returnData ++ [success result i]) w1
    | (Throw e, w1) =>
        if continueOnFail ctx then
          processItems ctx rethrow operate rest
                       (returnData ++ [failure e i]) w1
        else (Throw (rethrow e), w1)
    end.
Proof.
  cbn [processItems]. unfold bind at 1. unfold try_catch. unfold bind at 1.
  destruct (operate i w) as [[result|e] w1]; [reflexivity|].
  destruct (continueOnFail ctx); reflexivity.
Qed.

(** Items that all succeed are pushed in order, in either mode. *)
Lemma processItems_succeeded ctx rethrow operate indices :
  forall returnData w outs w',
    Batch.succeeded operate indices w outs w' ->
    processItems ctx rethrow operate indices returnData w
    = (Ok (returnData ++ outs), w').
Proof.
  induction indices as [|i rest IH]; intros returnData w outs w' Hrun;
    inversion Hrun; subst.
  - cbn. now rewrite app_nil_r.
  - rewrite processItems_step.
    match goal with H : operate i w = _ |- _ => rewrite H end.
    erewrite IH by eassumption. now rewrite <- app_assoc.
Qed.

(** With [Continue On Fail] the loop never throws: it returns one entry
    per item, the result of the item or the message of its error. *)
Lemma processItems_recorded ctx rethrow operate :
  continueOnFail ctx = true ->
  forall indices returnData w,
  exists outs w',
    processItems ctx rethrow operate indices returnData w
    = (Ok (returnData ++ outs), w')
    /\ Batch.recorded operate indices w outs w'.
Proof.
  intros Hmode. induction indices as [|i rest IH]; intros returnData w.
  - exists [], w. cbn. rewrite app_nil_r. split; [reflexivity | constructor].
  - rewrite processItems_step, Hmode.
    destruct (operate i w) as [[result|e] w1] eqn:Hi.
    + destruct (IH (returnData ++ [success result i]) w1) as (outs & w' & Hrun & Hrec).
      exists (success result i :: outs), w'.
      rewrite Hrun, <- app_assoc. split; [reflexivity|].
      econstructor; eassumption.
    + destruct (IH (returnData ++ [failure e i]) w1) as (outs & w' & Hrun & Hrec).
      exists (failure e i :: outs), w'.
      rewrite Hrun, <- app_assoc. split; [reflexivity|].
      eapply Batch.recorded_error; eassumption.
Qed.

(** Without it, the first error ends the loop: what is thrown is made
    from that error, and the world is the one the failing item left. *)
Lemma processItems_aborts ctx rethrow operate :
  continueOnFail ctx = false ->
  forall before returnData w outs w1 i after e w2,
    Batch.succeeded operate before w outs w1 ->
    operate i w1 = (Throw e, w2) ->
    processItems ctx rethrow operate (before ++ i :: after) returnData w
    = (Throw (rethrow e), w2).
Proof.
  intros Hmode. induction before as [|j before IH];
    intros returnData w outs w1 i after e w2 Hrun Hi; inversion Hrun; subst.
  - cbn [app]. now rewrite processItems_step, Hi, Hmode.
  - cbn [app]. rewrite processItems_step.
    match goal with H : operate j w = _ |- _ => rewrite H end.
    eapply IH; eassumption.
Qed.

(** Every recorded entry is paired with the index of its item. *)
Lemma recorded_paired operate indices w outs w' :
  Batch.recorded operate indices w outs w' -> map pairedItem outs = indices.
Proof. induction 1; cbn; congruence. Qed.

(** A handler is its loop once the operation and the credentials are
    read. *)
Lemma handler_loop ctx operation cred rethrow operate n w :
  strings ctx "operation" 0%nat = Some operation ->
  stored_credentials ctx = Ok cred ->
  bind (str ctx "operation" 0)
       (fun operation =>
          bind (getCredentials ctx)
               (fun cred =>
                  processItems ctx rethrow (operate cred operation) (seq 0 n) []))
       w
  = processItems ctx rethrow (operate cred operation) (seq 0 n) [] w.
Proof.
  intros Hop Hcred.
  unfold str, getNodeParameter, getCredentials, lift, bind, ret.
  now rewrite Hop, Hcred.
Qed.

(** C8. For the SNIP-20 and the SNIP-721 handlers, once the operation
    and the credentials are read. With [Continue On Fail], the handler
    returns one entry per item, in order and paired with the index of
    its item: the result of the item, or the message of the error it
    threw, after which the next items are processed all the same.
    Without it, the first error is thrown as it is and nothing is
    returned; the items after it are not run. *)
Theorem handlers_record_or_abort {secp256k1 : Secp256k1}
    (ctx : context) (items : list item) (operation : string)
    (cred : credentials) (w : world) :
  strings ctx "operation" 0%nat = Some operation ->
  stored_credentials ctx = Ok cred ->
  let indices := seq 0 (List.length items) in
  let snip20 := snip20Operation ctx cred operation in
  let snip721 := snip721Operation ctx cred operation in
  (continueOnFail ctx = true ->
     (exists outs w',
         executeSnip20TokensOperations ctx items w = (Ok outs, w')
         /\ Batch.recorded snip20 indices w outs w'
         /\ map pairedItem outs = indices)
     /\ (exists outs w',
            executeSnip721TokensOperations ctx items w = (Ok outs, w')
            /\ Batch.recorded snip721 indices w outs w'
            /\ map pairedItem outs = indices))
  /\ (continueOnFail ctx = false ->
        forall before i after outs w1 e w2,
          indices = before ++ i :: after ->
          (Batch.succeeded snip20 before w outs w1 ->
           snip20 i w1 = (Throw e, w2) ->
           executeSnip20TokensOperations ctx items w = (Throw e, w2))
          /\ (Batch.succeeded snip721 before w outs w1 ->
              snip721 i w1 = (Throw e, w2) ->
              executeSnip721TokensOperations ctx items w = (Throw e, w2)))
  /\ (forall e i,
        json (failure e i) = VObj [("error", VStr (message e))]
        /\ pairedItem (failure e i) = i).
Proof.
  intros Hop Hcred indices snip20 snip721.
  assert (H20 : executeSnip20TokensOperations ctx items w
                = processItems ctx (fun e => e) snip20 indices [] w)
    by (apply (handler_loop ctx operation cred (fun e => e)
                 (fun c o => snip20Operation ctx c o)); assumption).
  assert (H721 : executeSnip721TokensOperations ctx items w
                 = processItems ctx (fun e => e) snip721 indices [] w)
    by (apply (handler_loop ctx operation cred (fun e => e)
                 (fun c o => snip721Operation ctx c o)); assumption).
  split; [|split].
  - intros Hmode. split.
    + destruct (processItems_recorded ctx (fun e => e) snip20 Hmode indices [] w)
        as (outs & w' & Hrun & Hrec).
      exists outs, w'. rewrite H20. split; [exact Hrun|].
      split; [exact Hrec | eapply recorded_paired; exact Hrec].
    + destruct (processItems_recorded ctx (fun e => e) snip721 Hmode indices [] w)
        as (outs & w' & Hrun & Hrec).
      exists outs, w'. rewrite H721. split; [exact Hrun|].
      split; [exact Hrec | eapply recorded_paired; exact Hrec].
  - intros Hmode before i after outs w1 e w2 Hsplit. split; intros Hrun Hi.
    + rewrite H20, Hsplit.
      exact (processItems_aborts ctx (fun e => e) snip20 Hmode before [] w outs
               w1 i after e w2 Hrun Hi).
    + rewrite H721, Hsplit.
      exact (processItems_aborts ctx (fun e => e) snip721 Hmode before [] w outs
               w1 i after e w2 Hrun Hi).
  - intros e i. split; reflexivity.
Qed.

(** Two items on a network that rejects the first request: the handler
    records the message for item 0 and returns the answer for item 1. *)
Example executeSnip721TokensOperations_flaky :
  fst (executeSnip721TokensOperations (secp256k1 := secp256k1_package)
         Examples.owner_context Examples.two_items Examples.flaky_world)
  = Ok [ {| json := VObj [("error", VStr "Network error")]; pairedItem := 0 |};
         {| json := Examples.owner_answer; pairedItem := 1 |} ].
Proof. vm_compute. reflexivity. Qed.

(** The first part at work on these two items. *)
Lemma handlers_record_or_abort_witness :
  (exists outs w',
      executeSnip20TokensOperations Examples.owner_context Examples.two_items
        Examples.flaky_world = (Ok outs, w')
      /\ Batch.recorded
           (snip20Operation Examples.owner_context Examples.sample_credentials
              "getOwnerOf")
           (seq 0 2) Examples.flaky_world outs w'
      /\ map pairedItem outs = seq 0 2)
  /\ (exists outs w',
         executeSnip721TokensOperations (secp256k1 := secp256k1_package)
           Examples.owner_context Examples.two_items Examples.flaky_world
         = (Ok outs, w')
         /\ Batch.recorded
              (snip721Operation (secp256k1 := secp256k1_package)
                 Examples.owner_context Examples.sample_credentials "getOwnerOf")
              (seq 0 2) Examples.flaky_world outs w'
         /\ map pairedItem outs = seq 0 2).
Proof.
  exact (proj1
           (handlers_record_or_abort (secp256k1 := secp256k1_package)
              Examples.owner_context Examples.two_items "getOwnerOf"
              Examples.sample_credentials Examples.flaky_world
              eq_refl eq_refl)
           eq_refl).
Defined.

(** ** Two transactions of one signer *)





(** ** The balances of an account *)

(** The entries that [filterByDenom] keeps, for an array without [null]
    and [undefined]. *)
Lemma filterByDenom_filter denom entries w :
  Forall (fun balance => balance <> VNull /\ balance <> VUndefined) entries ->
  filterByDenom denom entries w
  = (Ok (filter (fun balance =>
                   match balance with
                   | VObj members =>
                       match lookup "denom" members with
                       | VStr d => String.eqb d denom
                       | _ => false
                       end
                   | _ => false
                   end) entries), w).
Proof.
  induction 1 as [|balance rest [Hnull Hundefined] _ IH]; [reflexivity|].
  cbn [filterByDenom filter].
  assert (Hd : exists d, get "denom" balance = Some d
                         /\ strict_eq_string d denom
                            = match balance with
                              | VObj members =>
                                  match lookup "denom" members with
                                  | VStr d => String.eqb d denom
                                  | _ => false
                                  end
                              | _ => false
                              end).
  { destruct balance; try (eexists; split; reflexivity);
      [now elim Hundefined | now elim Hnull]. }
  destruct Hd as (d & Hget & Heq).
  rewrite (bind_ok _ _ _ _ _ (property_some _ _ _ w Hget)).
  rewrite (bind_ok _ _ _ _ _ IH). cbn [ret]. unfold ret. now rewrite Heq.
Qed.

(** Assigning a property changes that property alone. *)
Lemma lookup_assign k v props k' :
  lookup k' (assign k v props) = if String.eqb k' k then v else lookup k' props.
Proof.
  induction props as [|[k0 v0] rest IH]; cbn [assign lookup].
  - reflexivity.
  - destruct (String.eqb k k0) eqn:Hk; cbn [lookup].
    + apply String.eqb_eq in Hk. subst k0.
      destruct (String.eqb k' k); reflexivity.
    + destruct (String.eqb k' k0) eqn:Hk0.
      * apply String.eqb_eq in Hk0. subst k0.
        rewrite String.eqb_sym in Hk. now rewrite Hk.
      * exact IH.
Qed.

(** The keys of an object keep their order under an assignment to a
    key it has. *)
Lemma keys_assign k v props :
  lookup k props <> VUndefined ->
  map fst (assign k v props) = map fst props.
Proof.
  induction props as [|[k0 v0] rest IH]; cbn [assign lookup map fst].
  - intros H. now elim H.
  - destruct (String.eqb k k0) eqn:Hk; intros H; cbn [map fst].
    + apply String.eqb_eq in Hk. now subst.
    + now rewrite IH.
Qed.

(** C10, as the code has it. [getBalance], for an address that is set
    and a request that is answered. With a filter that is not empty and
    an answer whose [balances] is an array with no [null] and no
    [undefined] among its entries, the result is the answer with
    [balances] replaced by the entries that are objects whose [denom]
    is the string of the filter, in their order: an entry is kept
    exactly when it is one of the array and its [denom] is that string.
    Every other property is as it was. With an empty filter, or an
    answer whose [balances] is missing or falsy, the result is the
    answer itself. *)
Theorem getBalance_filters_by_denom (ctx : context) (cred : credentials)
    (i : nat) (w : world) (address : string) (r : reply) (rest : list reply)
    (response : value) :
  strings ctx "address" i = Some address ->
  replies w = r :: rest ->
  outcome r = Ok response ->
  let denom :=
    match strings ctx "denom" i with
    | Some d => d
    | None => EmptyString
    end in
  let result := fst (accountsOperation ctx cred "getBalance" i w) in
  (forall props entries,
      denom <> EmptyString ->
      response = VObj props ->
      lookup "balances" props = VArr entries ->
      Forall (fun balance => balance <> VNull /\ balance <> VUndefined) entries ->
      let kept :=
        filter (fun balance =>
                  match balance with
                  | VObj members =>
                      match lookup "denom" members with
                      | VStr d => String.eqb d denom
                      | _ => false
                      end
                  | _ => false
                  end) entries in
      result = Ok (VObj (assign "balances" (VArr kept) props))
      /\ (forall balance,
             In balance kept
             <-> In balance entries /\ get "denom" balance = Some (VStr denom))
      /\ lookup "balances" (assign "balances" (VArr kept) props) = VArr kept
      /\ map fst (assign "balances" (VArr kept) props) = map fst props
      /\ (forall k, k <> "balances" ->
            lookup k (assign "balances" (VArr kept) props) = lookup k props))
  /\ (denom = EmptyString -> result = Ok response)
  /\ (forall balances,
         get "balances" response = Some balances ->
         truthy balances = false ->
         result = Ok response).
Proof.
  intros Haddress Hreplies Hr denom result.
  assert (Hresult : exists w1, result = fst (filterBalances denom response w1)).
  { unfold result, accountsOperation. cbn [String.eqb Ascii.eqb Bool.eqb].
    unfold str, getNodeParameter. rewrite Haddress, bind_ret.
    fold denom.
    assert (Hd : (match strings ctx "denom" i with
                  | Some v => ret v
                  | None => ret EmptyString
                  end) = ret (A := string) denom)
      by (unfold denom; destruct (strings ctx "denom" i); reflexivity).
    rewrite Hd, bind_ret. unfold jsonGet.
    erewrite bind_ok
      by (rewrite (httpRequest_reply _ _ _ _ Hreplies), Hr; reflexivity).
    eexists. reflexivity. }
  destruct Hresult as [w1 Hresult]. rewrite Hresult.
  split; [|split].
  - intros props entries Hdenom -> Hbal Hentries kept.
    split; [|split; [|split; [|split]]].
    + unfold filterBalances.
      destruct (String.eqb denom EmptyString) eqn:He;
        [apply String.eqb_eq in He; now elim Hdenom|].
      rewrite (bind_ok _ _ _ _ _ (property_some "balances" (VObj props) _ w1 eq_refl)).
      rewrite Hbal. cbn [truthy].
      rewrite (bind_ok _ _ _ _ _ (filterByDenom_filter denom entries w1 Hentries)).
      reflexivity.
    + intros balance. unfold kept. rewrite filter_In.
      split; intros [Hin Hkeep]; (split; [exact Hin|]).
      * destruct balance as [| | | | | |members]; try discriminate Hkeep.
        cbn [get]. destruct (lookup "denom" members); try discriminate Hkeep.
        apply String.eqb_eq in Hkeep. now subst.
      * destruct balance as [| | | | | |members]; try discriminate Hkeep.
        cbn [get] in Hkeep. injection Hkeep as ->. apply String.eqb_refl.
    + rewrite lookup_assign. now rewrite String.eqb_refl.
    + apply keys_assign. rewrite Hbal. discriminate.
    + intros k Hk. rewrite lookup_assign.
      destruct (String.eqb k "balances") eqn:He; [|reflexivity].
      apply String.eqb_eq in He. now elim Hk.
  - intros ->. reflexivity.
  - intros balances Hget Hfalsy. unfold filterBalances.
    destruct (String.eqb denom EmptyString); [reflexivity|].
    rewrite (bind_ok _ _ _ _ _ (property_some _ _ _ w1 Hget)).
    now rewrite Hfalsy.
Qed.

(** Two answers on which the claim fails: an array of balances with a
    [null] entry, for which no entry is returned, and an answer whose
    [balances] is a text, not an array, which is not returned as it is.
    Both end in a [TypeError]. *)
Lemma getBalance_throws_on_other_shapes :
  let run := fun answer =>
    fst (accountsOperation (Examples.balance_context "uscrt")
           Examples.sample_credentials "getBalance" 0
           (Examples.world_with [Examples.answer answer])) in
  run (VObj [ ("balances",
               VArr [ VObj [ ("denom", VStr "uscrt"); ("amount", VStr "1000000") ];
                      VNull ]) ])
  = Throw (TypeError "Cannot read properties of null (reading 'denom')")
  /\ run (VObj [ ("balances", VStr "none") ])
     = Throw (TypeError "result.balances.filter is not a function").
Proof. split; vm_compute; reflexivity. Qed.

(** The two [getBalance] tests of the repository: without a filter the
    answer is returned, with the filter [uscrt] one entry is kept. *)
Example getBalance_unfiltered :
  fst (executeAccountsOperations (Examples.balance_context EmptyString)
         [ {| json := VObj []; pairedItem := 0 |} ]
         (Examples.world_with [Examples.answer Examples.balances_answer]))
  = Ok [ {| json := Examples.balances_answer; pairedItem := 0 |} ].
Proof. vm_compute. reflexivity. Qed.

Example getBalance_uscrt :
  fst (executeAccountsOperations (Examples.balance_context "uscrt")
         [ {| json := VObj []; pairedItem := 0 |} ]
         (Examples.world_with [Examples.answer Examples.balances_answer]))
  = Ok [ {| json :=
              VObj [ ("balances",
                      VArr [ VObj [ ("denom", VStr "uscrt");
                                    ("amount", VStr "1000000") ] ]);
                     ("pagination",
                      VObj [ ("next_key", VNull); ("total", VStr "2") ]) ];
            pairedItem := 0 |} ].
Proof. vm_compute. reflexivity. Qed.

(** The first part at work on the answer of the tests: of its two
    entries the one in [uscrt] is kept. *)
Lemma getBalance_filters_by_denom_witness :
  fst (accountsOperation (Examples.balance_context "uscrt")
         Examples.sample_credentials "getBalance" 0
         (Examples.world_with [Examples.answer Examples.balances_answer]))
  = Ok (VObj
          (assign "balances"
             (VArr
                (filter
                   (fun balance =>
                      match balance with
                      | VObj members =>
                          match lookup "denom" members with
                          | VStr d => String.eqb d "uscrt"
                          | _ => false
                          end
                      | _ => false
                      end)
                   [ VObj [ ("denom", VStr "uscrt"); ("amount", VStr "1000000") ];
                     VObj [ ("denom", VStr "ibc/token");
                            ("amount", VStr "500000") ] ]))
             [ ("balances",
                VArr [ VObj [ ("denom", VStr "uscrt"); ("amount", VStr "1000000") ];
                       VObj [ ("denom", VStr "ibc/token");
                              ("amount", VStr "500000") ] ]);
               ("pagination",
                VObj [ ("next_key", VNull); ("total", VStr "2") ]) ])).
Proof.
  refine
    (proj1
       (proj1
          (getBalance_filters_by_denom (Examples.balance_context "uscrt")
             Examples.sample_credentials 0%nat
             (Examples.world_with [Examples.answer Examples.balances_answer])
             "secret1test" (Examples.answer Examples.balances_answer) []
             Examples.balances_answer eq_refl eq_refl eq_refl)
          _ _ _ eq_refl eq_refl _)).
  - discriminate.
  - repeat constructor; discriminate.
Defined.

(** * Further properties of the code *)

Import Resources.

(** ** [signAndBroadcastTx]: the key *)

(** X1. A private key whose text has fewer than 64 characters, or starts
    with [0x], does not decode to 32 bytes: the library rejects it, and
    [signAndBroadcastTx] throws before it sends anything; the world is as
    it was. *)
Theorem short_private_key_sends_nothing
    (cred : credentials) (contractAddress : string) (executeMsg : value)
    (privateKey : string) (gasLimit : number) (gasPrice : string) (w : world) :
  (String.length privateKey < 64)%nat \/ prefix "0x" privateKey = true ->
  exists e,
    publicKeyCreate (Buffer.fromHex privateKey) = Throw e
    /\ signAndBroadcastTx (secp256k1 := secp256k1_package) cred contractAddress
         executeMsg privateKey gasLimit gasPrice w
       = (Throw e, w).
Proof.
  intros Hkey.
  assert (Hlen : Nat.eqb (List.length (Buffer.fromHex privateKey)) 32 = false).
  { apply Nat.eqb_neq. destruct Hkey as [Hshort | Hprefix].
    - pose proof (fromHex_length_le (String.length privateKey) privateKey (le_n _)).
      lia.
    - destruct privateKey as [|c1 [|c2 rest]]; try discriminate.
      cbn [prefix] in Hprefix.
      destruct (ascii_dec "0" c1) as [<-|]; [|discriminate Hprefix].
      destruct (ascii_dec "x" c2) as [<-|]; [|discriminate Hprefix].
      cbn. discriminate. }
  eexists. split.
  - cbn [publicKeyCreate secp256k1_package]. unfold Secp256k1Lib.publicKeyCreate.
    rewrite Hlen. reflexivity.
  - unfold signAndBroadcastTx.
    cbn [publicKeyCreate secp256k1_package]. unfold Secp256k1Lib.publicKeyCreate.
    rewrite Hlen. reflexivity.
Qed.

Lemma short_private_key_sends_nothing_witness :
  exists e,
    publicKeyCreate (Buffer.fromHex "0xabcdef") = Throw e
    /\ signAndBroadcastTx (secp256k1 := secp256k1_package)
         Examples.sample_credentials "secret1contract" Examples.transfer_message
         "0xabcdef" (of_Z 200000) "0.25uscrt" (Examples.world_with [])
       = (Throw e, Examples.world_with []).
Proof.
  apply (short_private_key_sends_nothing Examples.sample_credentials
           "secret1contract" Examples.transfer_message "0xabcdef"
           (of_Z 200000) "0.25uscrt" (Examples.world_with [])).
  left. cbn. lia.
Defined.

(** X2. With a key that the library accepts, the first request of
    [signAndBroadcastTx] is the lookup of the account whose address is
    derived from that key; at most one request follows, the post of a
    transaction whose sender is that address. The address of the
    credentials is not used: credentials with the same base URL and
    chain id give the same run. *)
Theorem lookup_is_for_the_address_of_the_key {secp256k1 : Secp256k1}
    (cred : credentials) (contractAddress : string) (executeMsg : value)
    (privateKey : string) (gasLimit : number) (gasPrice : string) (w : world)
    (pubKey : list byte) :
  publicKeyCreate (Buffer.fromHex privateKey) = Ok pubKey ->
  let run := signAndBroadcastTx cred contractAddress executeMsg privateKey
                                gasLimit gasPrice in
  let address := getAddressFromPubKey pubKey in
  (exists posts,
      sentBy run w = accountLookup cred address :: posts
      /\ (List.length posts <= 1)%nat
      /\ forall post, In post posts ->
           exists msg auth_info_bytes signature,
             post = broadcast cred
                      (txRaw (encode (txBody address contractAddress msg))
                             auth_info_bytes [VStr signature]))
  /\ (forall cred',
         baseUrl cred' = baseUrl cred -> chainId cred' = chainId cred ->
         signAndBroadcastTx cred' contractAddress executeMsg privateKey
                            gasLimit gasPrice w
         = run w).
Proof.
  intros Hpub run address. split.
  - unfold run, sentBy, signAndBroadcastTx. cbv zeta.
    rewrite Hpub.
    rewrite (bind_ok (lift (Ok pubKey)) _ w pubKey w eq_refl).
    fold address.
    pose proof (httpRequest_sent (accountLookup cred address) w) as Hsent.
    assert (Hone : forall w1, sent w1 = sent w ++ [accountLookup cred address] ->
              exists posts,
                skipn (List.length (sent w)) (sent w1)
                = accountLookup cred address :: posts
                /\ (List.length posts <= 1)%nat
                /\ forall post, In post posts ->
                     exists msg auth_info_bytes signature,
                       post = broadcast cred
                                (txRaw (encode (txBody address contractAddress msg))
                                       auth_info_bytes [VStr signature])).
    { intros w1 H1. exists []. rewrite H1, skipn_length_app.
      split; [reflexivity|]. split; [cbn; lia|]. intros post []. }
    destruct (httpRequest (accountLookup cred address) w) as [[resp|e] w1] eqn:Hreq;
      cbn [snd] in Hsent.
    2:{ rewrite (bind_throw _ _ _ _ _ Hreq). cbn [snd]. now apply Hone. }
    rewrite (bind_ok _ _ _ _ _ Hreq).
    unfold property, json_base64.
    destruct (get "account" resp) as [account|];
      [rewrite bind_ret | now apply Hone].
    destruct (get "sequence" account) as [sequence0|];
      [rewrite bind_ret | now apply Hone].
    destruct (get "account_number" account) as [accountNumber0|];
      [rewrite bind_ret | now apply Hone].
    destruct (stringify executeMsg) as [text|];
      [rewrite bind_ret | now apply Hone].
    match goal with
    | |- context [ecdsaSign ?h ?k] =>
        destruct (ecdsaSign h k) as [signature|e]
    end.
    2:{ rewrite (bind_throw (lift (Throw e)) _ w1 e w1 eq_refl). now apply Hone. }
    rewrite (bind_ok (lift (Ok signature)) _ w1 signature w1 eq_refl).
    rewrite httpRequest_sent, Hsent, <- app_assoc, skipn_length_app.
    eexists. split; [reflexivity|]. split; [cbn; lia|].
    intros post [<-|[]]. do 3 eexists. reflexivity.
  - intros cred' Hbase Hchain.
    unfold run, signAndBroadcastTx, accountLookup, broadcast, broadcast_url.
    rewrite Hbase, Hchain. reflexivity.
Qed.

Lemma lookup_is_for_the_address_of_the_key_witness :
  exists posts,
    sentBy (signAndBroadcastTx (secp256k1 := secp256k1_package)
              Examples.sample_credentials "secret1contract"
              Examples.transfer_message Examples.sample_private_key
              (of_Z 200000) "0.25uscrt")
           (Examples.world_with [])
    = accountLookup Examples.sample_credentials
        (getAddressFromPubKey Examples.generator_key) :: posts
    /\ (List.length posts <= 1)%nat
    /\ forall post, In post posts ->
         exists msg auth_info_bytes signature,
           post = broadcast Examples.sample_credentials
                    (txRaw (encode (txBody (getAddressFromPubKey Examples.generator_key)
                                      "secret1contract" msg))
                           auth_info_bytes [VStr signature]).
Proof.
  refine (proj1 (lookup_is_for_the_address_of_the_key
                   (secp256k1 := secp256k1_package)
                   Examples.sample_credentials "secret1contract"
                   Examples.transfer_message Examples.sample_private_key
                   (of_Z 200000) "0.25uscrt" (Examples.world_with [])
                   Examples.generator_key _)).
  vm_compute. reflexivity.
Defined.

(** ** Requests of the handlers *)

Lemma skipn_sent (w : world) : skipn (List.length (sent w)) (sent w) = [].
Proof. apply skipn_all. Qed.

Lemma sentBy_request options w :
  sentBy (httpRequest options) w = [options].
Proof. unfold sentBy. rewrite httpRequest_sent. apply skipn_length_app. Qed.

(** The gas of the five writing operations of the SNIP-20 handler. *)
Lemma estimateGas_gas (messageType : string) :
  In messageType [ "transfer"; "increaseAllowance"; "decreaseAllowance";
                   "createViewingKey"; "setViewingKey" ] ->
  exists gas,
    In gas ["200000"; "150000"; "100000"]
    /\ property "gas" (estimateGas messageType) = ret (VStr gas).
Proof.
  intros [<-|[<-|[<-|[<-|[<-|[]]]]]]; eexists;
    (split; [|reflexivity]); cbn; tauto.
Qed.

Lemma bind_assoc {A B C} (c : M A) (f : A -> M B) (g : B -> M C) w :
  bind (bind c f) g w = bind c (fun a => bind (f a) g) w.
Proof. unfold bind. destruct (c w) as [[a|e] w1]; reflexivity. Qed.

(** [Math.random] touches neither the requests nor the replies. *)
Lemma Math_random_base36_cases w :
  exists r w', Math_random_base36 w = (Ok r, w')
               /\ sent w' = sent w /\ replies w' = replies w.
Proof.
  unfold Math_random_base36. destruct (randoms w); do 2 eexists; now split.
Qed.

(** What [postUnsigned] sends: the message in a transaction without
    signer and without signature. *)
Lemma postUnsigned_sent cred txMsg messageType w w0 :
  In messageType [ "transfer"; "increaseAllowance"; "decreaseAllowance";
                   "createViewingKey"; "setViewingKey" ] ->
  sent w0 = sent w ->
  exists gas,
    In gas ["200000"; "150000"; "100000"]
    /\ skipn (List.length (sent w))
             (sent (snd (postUnsigned cred txMsg (estimateGas messageType) w0)))
       = [ broadcast cred
             (txRaw
                (encode
                   (VObj [ ("messages", VArr [txMsg]);
                           ("memo", VStr EmptyString);
                           ("timeout_height", VStr "0");
                           ("extension_options", VArr []);
                           ("non_critical_extension_options", VArr []) ]))
                (encode
                   (VObj [ ("signer_infos", VArr []);
                           ("fee",
                            VObj [ ("amount",
                                    VArr [ VObj [ ("denom", VStr "uscrt");
                                                  ("amount", VStr "25000") ] ]);
                                   ("gas_limit", VStr gas);
                                   ("payer", VStr EmptyString);
                                   ("granter", VStr EmptyString) ]) ]))
                []) ].
Proof.
  intros Hm Hw0. destruct (estimateGas_gas messageType Hm) as (gas & Hgas & Hprop).
  exists gas. split; [exact Hgas|].
  unfold postUnsigned. rewrite Hprop, bind_ret.
  rewrite httpRequest_sent, Hw0. apply skipn_length_app.
Qed.

(** X3. The five writing operations of the SNIP-20 handler send at most
    one request, and it is never signed: the post of a transaction with
    no signer, an empty list of signatures and the fixed fee of 25000
    uscrt, whatever the parameters. Its one message is a
    [MsgExecuteContract] whose sender is the address of the credentials.
    Nothing is sent only when a parameter is not set. *)
Theorem snip20_writes_post_unsigned (ctx : context) (cred : credentials)
    (operation : string) (i : nat) (w : world) :
  In operation [ "transfer"; "increaseAllowance"; "decreaseAllowance";
                 "createViewingKey"; "setViewingKey" ] ->
  (sentBy (snip20Operation ctx cred operation i) w = []
   /\ fst (snip20Operation ctx cred operation i w)
      = Throw (Error "Could not get parameter"))
  \/ exists contractAddress msg gas,
       In gas ["200000"; "150000"; "100000"]
       /\ sentBy (snip20Operation ctx cred operation i) w
          = [ broadcast cred
                (txRaw
                   (encode
                      (VObj [ ("messages",
                               VArr [ VObj [ ("@type", VStr "/secret.compute.v1beta1.MsgExecuteContract");
                                             ("sender", address cred);
                                             ("contract", VStr contractAddress);
                                             ("msg", VStr msg);
                                             ("sent_funds", VArr []) ] ]);
                              ("memo", VStr EmptyString);
                              ("timeout_height", VStr "0");
                              ("extension_options", VArr []);
                              ("non_critical_extension_options", VArr []) ]))
                   (encode
                      (VObj [ ("signer_infos", VArr []);
                              ("fee",
                               VObj [ ("amount",
                                       VArr [ VObj [ ("denom", VStr "uscrt");
                                                     ("amount", VStr "25000") ] ]);
                                      ("gas_limit", VStr gas);
                                      ("payer", VStr EmptyString);
                                      ("granter", VStr EmptyString) ]) ]))
                   []) ].
Proof.
  intros Hop.
  destruct Hop as [<-|[<-|[<-|[<-|[<-|[]]]]]];
    unfold snip20Operation; cbn [String.eqb Ascii.eqb Bool.eqb];
    unfold sentBy, str, createTransactionMessage, json_base64;
    repeat read_parameter
      ltac:(left; cbn [snd fst]; split; [apply skipn_sent | reflexivity]).
  - cbn [stringify bind ret]. right. do 2 eexists.
    apply postUnsigned_sent; [cbn; tauto | reflexivity].
  - cbn [stringify bind ret]. right. do 2 eexists.
    apply postUnsigned_sent; [cbn; tauto | reflexivity].
  - cbn [stringify bind ret]. right. do 2 eexists.
    apply postUnsigned_sent; [cbn; tauto | reflexivity].
  - destruct (String.eqb v0 EmptyString).
    + destruct (Math_random_base36_cases w) as (r & w1 & Hr & Hsent & _).
      rewrite bind_assoc, (bind_ok _ _ _ _ _ Hr).
      cbn [stringify bind ret]. right. do 2 eexists.
      apply postUnsigned_sent; [cbn; tauto | exact Hsent].
    + cbn [stringify bind ret]. right. do 2 eexists.
      apply postUnsigned_sent; [cbn; tauto | reflexivity].
  - cbn [stringify bind ret]. right. do 2 eexists.
    apply postUnsigned_sent; [cbn; tauto | reflexivity].
Qed.

Lemma snip20_writes_post_unsigned_witness :
  (sentBy (snip20Operation Examples.transfer_context Examples.token_credentials
             "transfer" 0) (Examples.world_with []) = []
   /\ fst (snip20Operation Examples.transfer_context Examples.token_credentials
             "transfer" 0 (Examples.world_with []))
      = Throw (Error "Could not get parameter"))
  \/ exists contractAddress msg gas,
       In gas ["200000"; "150000"; "100000"]
       /\ sentBy (snip20Operation Examples.transfer_context
                    Examples.token_credentials "transfer" 0)
                 (Examples.world_with [])
          = [ broadcast Examples.token_credentials
                (txRaw
                   (encode
                      (VObj [ ("messages",
                               VArr [ VObj [ ("@type", VStr "/secret.compute.v1beta1.MsgExecuteContract");
                                             ("sender", address Examples.token_credentials);
                                             ("contract", VStr contractAddress);
                                             ("msg", VStr msg);
                                             ("sent_funds", VArr []) ] ]);
                              ("memo", VStr EmptyString);
                              ("timeout_height", VStr "0");
                              ("extension_options", VArr []);
                              ("non_critical_extension_options", VArr []) ]))
                   (encode
                      (VObj [ ("signer_infos", VArr []);
                              ("fee",
                               VObj [ ("amount",
                                       VArr [ VObj [ ("denom", VStr "uscrt");
                                                     ("amount", VStr "25000") ] ]);
                                      ("gas_limit", VStr gas);
                                      ("payer", VStr EmptyString);
                                      ("granter", VStr EmptyString) ]) ]))
                   []) ].
Proof.
  apply (snip20_writes_post_unsigned Examples.transfer_context
           Examples.token_credentials "transfer" 0%nat (Examples.world_with [])).
  cbn. tauto.
Defined.

(** The transfer test of the repository: one unsigned post. *)
Example snip20_transfer_posts_once :
  List.length
    (sentBy (executeSnip20TokensOperations Examples.transfer_context
               [ {| json := VObj []; pairedItem := 0 |} ])
            (Examples.world_with [Examples.answer Examples.accepted]))
  = 1%nat.
Proof. vm_compute. reflexivity. Qed.

(** ** Queries to a token contract *)

(** X4. The reading operations of the two token handlers are one request
    each, the post of the query to the query endpoint of the contract,
    and their result is the answer to it as it comes. A SNIP-20 query
    carries the contract address beside the base64 text of the query, a
    SNIP-721 query carries the base64 text alone. They read no private
    key, and fail without sending only when a parameter is not set. *)
Theorem token_queries_are_one_post {secp256k1 : Secp256k1}
    (ctx : context) (cred : credentials) (i : nat) (w : world) :
  (forall operation,
      In operation ["getBalance"; "getAllowance"; "getTokenInfo"] ->
      snip20Operation ctx cred operation i w
      = (Throw (Error "Could not get parameter"), w)
      \/ exists contractAddress query,
           snip20Operation ctx cred operation i w
           = httpRequest
               {| method := "POST";
                  url := baseUrl cred +++ "/compute/v1beta1/contracts/"
                           +++ contractAddress +++ "/query";
                  headers := json_headers;
                  qs := [];
                  body := VObj [ ("contract_address", VStr contractAddress);
                                 ("query", VStr (Buffer.base64_of_string query)) ] |}
               w)
  /\ (forall operation,
         In operation ["getOwnerOf"; "getNftInfo"; "getApprovals"; "getTokens"] ->
         snip721Operation ctx cred operation i w
         = (Throw (Error "Could not get parameter"), w)
         \/ exists contractAddress query,
              snip721Operation ctx cred operation i w
              = httpRequest
                  {| method := "POST";
                     url := baseUrl cred +++ "/compute/v1beta1/contracts/"
                              +++ contractAddress +++ "/query";
                     headers := json_headers;
                     qs := [];
                     body := VObj [ ("query",
                                     VStr (Buffer.base64_of_string query)) ] |}
                  w).
Proof.
  split.
  - intros operation [<-|[<-|[<-|[]]]];
      unfold snip20Operation; cbn [String.eqb Ascii.eqb Bool.eqb];
      unfold str, createQueryMessage, json_base64, postQuery;
      repeat read_parameter ltac:(left; reflexivity);
      cbn [stringify bind ret]; right; do 2 eexists; reflexivity.
  - intros operation [<-|[<-|[<-|[<-|[]]]]];
      unfold snip721Operation; cbn [String.eqb Ascii.eqb Bool.eqb];
      unfold str, queryContract, json_base64;
      repeat read_parameter ltac:(left; reflexivity);
      cbn [stringify bind ret]; right; do 2 eexists; reflexivity.
Qed.

(** The [getOwnerOf] test of the repository. *)
Example getOwnerOf_posts_the_query :
  sentBy (snip721Operation (secp256k1 := secp256k1_package)
            Examples.owner_context Examples.sample_credentials "getOwnerOf" 0)
         (Examples.world_with [Examples.answer Examples.owner_answer])
  = [ {| method := "POST";
         url := "https://lcd.secret.express/compute/v1beta1/contracts/secret1contract/query";
         headers := json_headers;
         qs := [];
         body :=
           VObj [ ("query",
                   VStr "eyJvd25lcl9vZiI6eyJ0b2tlbl9pZCI6IjEiLCJ2aWV3aW5nX2tleSI6InZpZXdpbmcta2V5In19") ] |} ].
Proof. vm_compute. reflexivity. Qed.

(** ** What every handler does before and around its items *)

(** X5. Each of the six handlers reads the operation and the credentials
    before its loop, outside the [try]: when the operation is not set,
    or the credentials are refused, the handler throws that error
    whatever [Continue On Fail] says, and nothing is sent. With no input
    item a handler returns no item and sends nothing. *)
Theorem handlers_read_operation_and_credentials_first {secp256k1 : Secp256k1}
    (apiKey : value) (syntaxError : string -> error)
    (responseError : error -> option error)
    (ctx : context) (items : list item) (w : world) :
  let handlers :=
    [ executeSmartContractsOperations ctx items;
      executeSnip20TokensOperations ctx items;
      executeSnip721TokensOperations ctx items;
      executeIbcOperationsOperations ctx items;
      executeTransactionsOperations apiKey syntaxError responseError ctx items;
      executeAccountsOperations ctx items ] in
  (strings ctx "operation" 0%nat = None ->
   Forall (fun handler =>
             handler w = (Throw (Error "Could not get parameter"), w))
          handlers)
  /\ (forall operation e,
         strings ctx "operation" 0%nat = Some operation ->
         stored_credentials ctx = Throw e ->
         Forall (fun handler => handler w = (Throw e, w)) handlers)
  /\ (forall operation cred,
         strings ctx "operation" 0%nat = Some operation ->
         stored_credentials ctx = Ok cred ->
         items = [] ->
         Forall (fun handler => handler w = (Ok [], w)) handlers).
Proof.
  intros handlers. unfold handlers. split; [|split].
  - intros Hop. repeat constructor;
      unfold executeSmartContractsOperations, executeSnip20TokensOperations,
        executeSnip721TokensOperations, executeIbcOperationsOperations,
        executeTransactionsOperations, executeAccountsOperations,
        str, getNodeParameter, bind; rewrite Hop; reflexivity.
  - intros operation e Hop Hcred. repeat constructor;
      unfold executeSmartContractsOperations, executeSnip20TokensOperations,
        executeSnip721TokensOperations, executeIbcOperationsOperations,
        executeTransactionsOperations, executeAccountsOperations,
        str, getNodeParameter, getCredentials, lift, bind;
      rewrite Hop, Hcred; reflexivity.
  - intros operation cred Hop Hcred ->. repeat constructor;
      unfold executeSmartContractsOperations, executeSnip20TokensOperations,
        executeSnip721TokensOperations, executeIbcOperationsOperations,
        executeTransactionsOperations, executeAccountsOperations,
        str, getNodeParameter, getCredentials, lift, bind;
      rewrite Hop, Hcred; reflexivity.
Qed.

(** X6. The loops of the four other handlers, once the operation and the
    credentials are read. With [Continue On Fail] each returns one entry
    per item, in order and paired with its index: the result or the
    message of the error. Without it the first error ends the run, and
    the handlers differ in what they throw: the IBC handler the error
    itself, the smart-contract and account handlers a [NodeApiError]
    around it, whose message is the one n8n-workflow writes, the
    transaction handler the [NodeApiError] of the response body when the
    error carries one and otherwise a [NodeOperationError] with the
    message of the error. *)
Theorem other_handlers_record_or_abort
    (apiKey : value) (syntaxError : string -> error)
    (responseError : error -> option error)
    (ctx : context) (items : list item) (operation : string)
    (cred : credentials) (w : world) :
  strings ctx "operation" 0%nat = Some operation ->
  stored_credentials ctx = Ok cred ->
  let indices := seq 0 (List.length items) in
  let contracts := smartContractsOperation ctx cred operation in
  let ibc := ibcOperation ctx cred operation in
  let transactions :=
    transactionsOperation apiKey syntaxError ctx cred operation in
  let accounts := accountsOperation ctx cred operation in
  let apiError := fun e => NodeApiError (apiErrorMessage ctx e) e in
  let runs :=
    [ (executeSmartContractsOperations ctx items, contracts, apiError);
      (executeIbcOperationsOperations ctx items, ibc, fun e => e);
      (executeTransactionsOperations apiKey syntaxError responseError ctx items,
       transactions,
       fun e => match responseError e with
                | Some apiError => apiError
                | None => NodeOperationError (message e)
                end);
      (executeAccountsOperations ctx items, accounts, apiError) ] in
  (continueOnFail ctx = true ->
   Forall (fun '(handler, operate, _) =>
             exists outs w',
               handler w = (Ok outs, w')
               /\ Batch.recorded operate indices w outs w'
               /\ map pairedItem outs = indices)
          runs)
  /\ (continueOnFail ctx = false ->
      forall before i after,
        indices = before ++ i :: after ->
        Forall (fun '(handler, operate, thrown) =>
                  forall outs w1 e w2,
                    Batch.succeeded operate before w outs w1 ->
                    operate i w1 = (Throw e, w2) ->
                    handler w = (Throw (thrown e), w2))
               runs).
Proof.
  intros Hop Hcred indices contracts ibc transactions accounts apiError runs.
  assert (Hc : executeSmartContractsOperations ctx items w
               = processItems ctx apiError contracts indices [] w)
    by (apply (handler_loop ctx operation cred apiError
                 (fun c o => smartContractsOperation ctx c o)); assumption).
  assert (Hi : executeIbcOperationsOperations ctx items w
               = processItems ctx (fun e => e) ibc indices [] w)
    by (apply (handler_loop ctx operation cred (fun e => e)
                 (fun c o => ibcOperation ctx c o)); assumption).
  assert (Ht : executeTransactionsOperations apiKey syntaxError responseError
                 ctx items w
               = processItems ctx (rethrowTransactions responseError)
                   transactions indices [] w)
    by (apply (handler_loop ctx operation cred (rethrowTransactions responseError)
                 (fun c o => transactionsOperation apiKey syntaxError ctx c o));
        assumption).
  assert (Ha : executeAccountsOperations ctx items w
               = processItems ctx apiError accounts indices [] w)
    by (apply (handler_loop ctx operation cred apiError
                 (fun c o => accountsOperation ctx c o)); assumption).
  assert (Hrec : forall rethrow operate,
             continueOnFail ctx = true ->
             exists outs w',
               processItems ctx rethrow operate indices [] w = (Ok outs, w')
               /\ Batch.recorded operate indices w outs w'
               /\ map pairedItem outs = indices).
  { intros rethrow operate Hmode.
    destruct (processItems_recorded ctx rethrow operate Hmode indices [] w)
      as (outs & w' & Hrun & Hrec).
    exists outs, w'. split; [exact Hrun|].
    split; [exact Hrec | eapply recorded_paired; exact Hrec]. }
  split.
  - intros Hmode. unfold runs. repeat constructor;
      rewrite ?Hc, ?Hi, ?Ht, ?Ha; now apply Hrec.
  - intros Hmode before i after Hsplit. unfold runs. repeat constructor;
      intros outs w1 e w2 Hrun Hfail; rewrite ?Hc, ?Hi, ?Ht, ?Ha, Hsplit.
    + exact (processItems_aborts ctx _ contracts Hmode before [] w outs w1 i
               after e w2 Hrun Hfail).
    + exact (processItems_aborts ctx (fun e => e) ibc Hmode before [] w outs w1 i
               after e w2 Hrun Hfail).
    + exact (processItems_aborts ctx (rethrowTransactions responseError)
               transactions Hmode before [] w outs w1 i after e w2 Hrun Hfail).
    + exact (processItems_aborts ctx _ accounts Hmode before [] w outs w1 i
               after e w2 Hrun Hfail).
Qed.

(** The two modes at work on two items, for an operation that sends one
    request per item to a network that rejects the first. *)
Lemma other_handlers_record_or_abort_witness :
  let ctx := Examples.bare_context "transactions" "getLatestBlock" true in
  let indices := seq 0 (List.length Examples.two_items) in
  Forall (fun '(handler, operate, _) =>
            exists outs w',
              handler Examples.flaky_world = (Ok outs, w')
              /\ Batch.recorded operate indices Examples.flaky_world outs w'
              /\ map pairedItem outs = indices)
    [ (executeSmartContractsOperations ctx Examples.two_items,
       smartContractsOperation ctx Examples.sample_credentials "getLatestBlock",
       fun e => NodeApiError (apiErrorMessage ctx e) e);
      (executeIbcOperationsOperations ctx Examples.two_items,
       ibcOperation ctx Examples.sample_credentials "getLatestBlock",
       fun e => e);
      (executeTransactionsOperations Examples.test_api_key Examples.syntax_error
         Examples.no_response ctx Examples.two_items,
       transactionsOperation Examples.test_api_key Examples.syntax_error ctx
         Examples.sample_credentials "getLatestBlock",
       fun e => match Examples.no_response e with
                | Some apiError => apiError
                | None => NodeOperationError (message e)
                end);
      (executeAccountsOperations ctx Examples.two_items,
       accountsOperation ctx Examples.sample_credentials "getLatestBlock",
       fun e => NodeApiError (apiErrorMessage ctx e) e) ].
Proof.
  exact (proj1
           (other_handlers_record_or_abort Examples.test_api_key
              Examples.syntax_error Examples.no_response
              (Examples.bare_context "transactions" "getLatestBlock" true)
              Examples.two_items "getLatestBlock" Examples.sample_credentials
              Examples.flaky_world eq_refl eq_refl)
           eq_refl).
Defined.

(** Without [Continue On Fail] the account handler ends on the first
    rejection with a [NodeApiError] around it, whose message is the one
    the library writes, not the one of the rejection. *)
Example executeAccountsOperations_aborts :
  fst (executeAccountsOperations (Examples.balance_context EmptyString)
         Examples.two_items Examples.flaky_world)
  = Throw (NodeApiError "There was an unknown issue while executing the node"
                        (Error "Network error")).
Proof. vm_compute. reflexivity. Qed.

(** The same two items through the transaction handler: the message of
    the rejection for the first, the answer for the second. *)
Example executeTransactionsOperations_flaky :
  fst (executeTransactionsOperations Examples.test_api_key Examples.syntax_error
         Examples.no_response
         (Examples.bare_context "transactions" "getLatestBlock" true)
         Examples.two_items Examples.flaky_world)
  = Ok [ {| json := VObj [("error", VStr "Network error")]; pairedItem := 0 |};
         {| json := Examples.owner_answer; pairedItem := 1 |} ].
Proof. vm_compute. reflexivity. Qed.

(** ** Operations a handler does not know *)

(** Walks down the chain of comparisons of an operation name. *)
Ltac split_operation operation :=
  repeat match goal with
         | |- context [String.eqb operation ?name] =>
             let E := fresh "E" in
             destruct (String.eqb operation name) eqn:E; cbv beta iota
         end.

(** Closes the branch of a name that is excluded. *)
Ltac excluded H :=
  match goal with
  | E : String.eqb _ _ = true |- _ =>
      apply String.eqb_eq in E; exfalso; apply H; rewrite E; cbn; tauto
  end.

(** X7. An operation name outside the list of a handler makes the item
    fail with the [NodeOperationError] [Unknown operation: <name>];
    nothing is read and nothing is sent for it. The SNIP-721 handler
    differs: it reads the contract address before it looks at the name,
    so its error is that of the missing parameter when the address is
    not set. *)
Theorem unknown_operation_is_refused {secp256k1 : Secp256k1}
    (apiKey : value) (syntaxError : string -> error)
    (ctx : context) (cred : credentials) (operation : string) (i : nat)
    (w : world) :
  let unknown := Throw (NodeOperationError ("Unknown operation: " +++ operation)) in
  (~ In operation [ "executeContract"; "getContract"; "queryContract";
                    "instantiateContract"; "listCodes"; "storeCode"; "getCode";
                    "getContractsByCode" ] ->
   smartContractsOperation ctx cred operation i w = (unknown, w))
  /\ (~ In operation [ "transfer"; "getBalance"; "increaseAllowance";
                       "decreaseAllowance"; "getAllowance"; "getTokenInfo";
                       "createViewingKey"; "setViewingKey" ] ->
      snip20Operation ctx cred operation i w = (unknown, w))
  /\ (~ In operation [ "transferNft"; "mintNft"; "getOwnerOf"; "getNftInfo";
                       "approve"; "approveAll"; "getApprovals"; "getTokens" ] ->
      snip721Operation ctx cred operation i w
      = (match strings ctx "contractAddress" i with
         | Some _ => unknown
         | None => Throw (Error "Could not get parameter")
         end, w))
  /\ (~ In operation [ "ibcTransfer"; "getChannels"; "getChannel";
                       "getConnections"; "getConnection"; "getClientStates";
                       "getDenomTraces"; "updateClient" ] ->
      ibcOperation ctx cred operation i w = (unknown, w))
  /\ (~ In operation [ "broadcastTransaction"; "getTransaction";
                       "getTransactions"; "simulateTransaction"; "getBlock";
                       "getLatestBlock" ] ->
      transactionsOperation apiKey syntaxError ctx cred operation i w
      = (unknown, w))
  /\ (~ In operation [ "getAccount"; "getBalance"; "getBalanceByDenom";
                       "getDelegationRewards"; "getDelegations";
                       "getUnbondingDelegations" ] ->
      accountsOperation ctx cred operation i w = (unknown, w)).
Proof.
  intros unknown. repeat split; intros Hout.
  - unfold smartContractsOperation, smartContractsOptions.
    split_operation operation; try excluded Hout. reflexivity.
  - unfold snip20Operation.
    split_operation operation; try excluded Hout. reflexivity.
  - unfold snip721Operation, str, getNodeParameter.
    destruct (strings ctx "contractAddress" i); [|reflexivity].
    rewrite bind_ret.
    split_operation operation; try excluded Hout. reflexivity.
  - unfold ibcOperation.
    split_operation operation; try excluded Hout. reflexivity.
  - unfold transactionsOperation.
    split_operation operation; try excluded Hout. reflexivity.
  - unfold accountsOperation.
    split_operation operation; try excluded Hout. reflexivity.
Qed.

(** An unknown operation with [Continue On Fail]: the message is recorded
    for the item and nothing is sent. *)
Example unknown_operation_recorded :
  executeAccountsOperations (Examples.bare_context "accounts" "getNothing" true)
    [ {| json := VObj []; pairedItem := 0 |} ] Examples.flaky_world
  = (Ok [ {| json := VObj [("error", VStr "Unknown operation: getNothing")];
             pairedItem := 0 |} ],
     Examples.flaky_world).
Proof. vm_compute. reflexivity. Qed.

(** ** The memo of a SNIP-20 transfer *)

(** X8. The [transfer] operation, with its four parameters set, posts
    the message whose [msg] is the base64 text of the JSON object
    [{"transfer":{...}}] with the recipient and the amount; the memo is
    its third member when it is not empty, and is left out of the text,
    not sent as an empty string, when it is. *)
Theorem transfer_leaves_out_an_empty_memo (ctx : context) (cred : credentials)
    (i : nat) (w : world) (contractAddress recipient amount memo : string) :
  strings ctx "contractAddress" i = Some contractAddress ->
  strings ctx "recipient" i = Some recipient ->
  strings ctx "amount" i = Some amount ->
  strings ctx "memo" i = Some memo ->
  let members :=
    [ Wire.member "recipient" (quote recipient);
      Wire.member "amount" (quote amount) ]
    ++ (if String.eqb memo EmptyString then []
        else [Wire.member "memo" (quote memo)]) in
  let text := Wire.object [Wire.member "transfer" (Wire.object members)] in
  snip20Operation ctx cred "transfer" i w
  = postUnsigned cred
      (VObj [ ("@type", VStr "/secret.compute.v1beta1.MsgExecuteContract");
              ("sender", address cred);
              ("contract", VStr contractAddress);
              ("msg", VStr (Buffer.base64_of_string text));
              ("sent_funds", VArr []) ])
      (estimateGas "transfer") w.
Proof.
  intros Hc Hr Ha Hm members text.
  unfold snip20Operation. cbn [String.eqb Ascii.eqb Bool.eqb].
  unfold str, getNodeParameter, createTransactionMessage, json_base64.
  rewrite Hc, Hr, Ha, Hm. rewrite !bind_ret.
  cbn [stringify]. rewrite bind_assoc, bind_ret, bind_ret.
  assert (Htext :
            serialize
              (VObj [ ("transfer",
                       VObj [ ("recipient", VStr recipient);
                              ("amount", VStr amount);
                              ("memo", JS.or (VStr memo) VUndefined) ]) ])
            = text).
  { unfold text, members, JS.or. cbn [truthy].
    destruct (String.eqb memo EmptyString); reflexivity. }
  rewrite Htext. reflexivity.
Qed.

Lemma transfer_leaves_out_an_empty_memo_witness :
  snip20Operation Examples.transfer_context Examples.token_credentials
    "transfer" 0 (Examples.world_with [])
  = postUnsigned Examples.token_credentials
      (VObj [ ("@type", VStr "/secret.compute.v1beta1.MsgExecuteContract");
              ("sender", address Examples.token_credentials);
              ("contract", VStr "secret1contract");
              ("msg",
               VStr (Buffer.base64_of_string
                       (Wire.object
                          [ Wire.member "transfer"
                              (Wire.object
                                 ([ Wire.member "recipient" (quote "secret1recipient");
                                    Wire.member "amount" (quote "1000000") ]
                                  ++ (if String.eqb "test transfer" EmptyString
                                      then []
                                      else [ Wire.member "memo"
                                               (quote "test transfer") ]))) ])));
              ("sent_funds", VArr []) ])
      (estimateGas "transfer") (Examples.world_with []).
Proof.
  exact (transfer_leaves_out_an_empty_memo Examples.transfer_context
           Examples.token_credentials 0%nat (Examples.world_with [])
           "secret1contract" "secret1recipient" "1000000" "test transfer"
           eq_refl eq_refl eq_refl eq_refl).
Defined.

(** ** The fee of the IBC operations *)

Lemma remove_digits_and_dots_app (a b : string) :
  remove_digits_and_dots (a +++ b)
  = remove_digits_and_dots a +++ remove_digits_and_dots b.
Proof.
  induction a as [|c a IH]; [reflexivity|].
  cbn [String.append remove_digits_and_dots].
  destruct (is_digit c || Ascii.eqb c "."); cbn [String.append]; now rewrite IH.
Qed.

(** X9. The fee of [ibcTransfer] and [updateClient] takes its
    denomination from the gas price by removing every digit and every
    point from it, wherever they stand, and its amount is the product of
    the price and the gas limit as it comes, not rounded up. For a price
    written as a number followed by a denomination without digits or
    points, the denomination is the one written; no text that the
    removal yields holds a digit or a point, so a denomination that has
    one does not come through as written. *)
Theorem ibc_fee_denomination (gasLimit : number) (price denom : string) :
  let numeric := fun c => is_digit c || Ascii.eqb c "." in
  Forall (fun c => numeric c = true) (list_ascii_of_string price) ->
  Forall (fun c => numeric c = false) (list_ascii_of_string denom) ->
  ibcAuthInfo gasLimit (price +++ denom)
  = VObj [ ("signer_infos", VArr []);
           ("fee",
            VObj [ ("amount",
                    VArr [ VObj [ ("denom", VStr denom);
                                  ("amount",
                                   VStr (NumberToString.toString
                                           (mul (parseFloat (price +++ denom))
                                                gasLimit))) ] ]);
                   ("gas_limit", VStr (NumberToString.toString gasLimit));
                   ("payer", VStr EmptyString);
                   ("granter", VStr EmptyString) ]) ]
  /\ (forall gasPrice,
         Forall (fun c => numeric c = false)
                (list_ascii_of_string (remove_digits_and_dots gasPrice)))
  /\ (forall gasPrice,
         remove_digits_and_dots gasPrice = gasPrice ->
         Forall (fun c => numeric c = false) (list_ascii_of_string gasPrice)).
Proof.
  intros numeric Hprice Hdenom.
  assert (Hclean : forall gasPrice,
             Forall (fun c => numeric c = false)
                    (list_ascii_of_string (remove_digits_and_dots gasPrice))).
  { induction gasPrice as [|c rest IH]; [constructor|].
    cbn [remove_digits_and_dots]. fold (numeric c).
    destruct (numeric c) eqn:Hc; [exact IH|].
    cbn [list_ascii_of_string]. now constructor. }
  split; [|split].
  - assert (Hp : remove_digits_and_dots price = EmptyString).
    { induction price as [|c rest IH]; [reflexivity|].
      cbn [list_ascii_of_string] in Hprice. inversion Hprice as [|? ? Hc Hrest]; subst.
      cbn [remove_digits_and_dots]. fold (numeric c). rewrite Hc. now apply IH. }
    assert (Hd : remove_digits_and_dots denom = denom).
    { induction denom as [|c rest IH]; [reflexivity|].
      cbn [list_ascii_of_string] in Hdenom. inversion Hdenom as [|? ? Hc Hrest]; subst.
      cbn [remove_digits_and_dots]. fold (numeric c). rewrite Hc.
      now rewrite IH. }
    unfold ibcAuthInfo. rewrite remove_digits_and_dots_app, Hp, Hd. reflexivity.
  - exact Hclean.
  - intros gasPrice Hfixed. rewrite <- Hfixed. apply Hclean.
Qed.

Lemma ibc_fee_denomination_witness :
  ibcAuthInfo (of_Z 200000) ("0.1" +++ "uscrt")
  = VObj [ ("signer_infos", VArr []);
           ("fee",
            VObj [ ("amount",
                    VArr [ VObj [ ("denom", VStr "uscrt");
                                  ("amount",
                                   VStr (NumberToString.toString
                                           (mul (parseFloat ("0.1" +++ "uscrt"))
                                                (of_Z 200000)))) ] ]);
                   ("gas_limit", VStr (NumberToString.toString (of_Z 200000)));
                   ("payer", VStr EmptyString);
                   ("granter", VStr EmptyString) ]) ].
Proof.
  refine (proj1 (ibc_fee_denomination (of_Z 200000) "0.1" "uscrt" _ _));
    repeat constructor.
Defined.

(** The fee of the [ibcTransfer] test of the repository, and one that is
    not a whole number of tokens, with the denomination of an IBC
    voucher. *)
Example ibc_fee_of_the_test :
  option_map serialize (get "fee" (ibcAuthInfo (of_Z 200000) "0.1uscrt"))
  = Some (Wire.object
            [ Wire.member "amount"
                (Wire.array
                   [ Wire.object [ Wire.member "denom" (quote "uscrt");
                                   Wire.member "amount" (quote "20000") ] ]);
              Wire.member "gas_limit" (quote "200000");
              Wire.member "payer" (quote EmptyString);
              Wire.member "granter" (quote EmptyString) ])
  /\ option_map serialize
       (get "fee" (ibcAuthInfo (of_Z 200001) "0.025ibc/27394FB092D2"))
     = Some (Wire.object
               [ Wire.member "amount"
                   (Wire.array
                      [ Wire.object [ Wire.member "denom" (quote "ibc/FBD");
                                      Wire.member "amount" (quote "5000.025000000001") ] ]);
                 Wire.member "gas_limit" (quote "200001");
                 Wire.member "payer" (quote EmptyString);
                 Wire.member "granter" (quote EmptyString) ]).
Proof. split; vm_compute; reflexivity. Qed.

(** ** The IBC operations that post *)

(** X10. [ibcTransfer] and [updateClient] read the private key and make
    no use of it: the transaction they post has no signer and an empty
    list of signatures, and two sets of parameters that differ in the
    private key alone, set in both, give the same run. *)
Theorem ibc_posts_are_unsigned (ctx : context) (cred : credentials)
    (operation : string) (i : nat) (w : world) :
  In operation ["ibcTransfer"; "updateClient"] ->
  Forall (fun r =>
            exists message gasLimit gasPrice,
              r = broadcast cred
                    (ibcEnvelope message (ibcAuthInfo gasLimit gasPrice))
              /\ get "signatures"
                     (ibcEnvelope message (ibcAuthInfo gasLimit gasPrice))
                 = Some (VArr [])
              /\ get "signer_infos" (ibcAuthInfo gasLimit gasPrice)
                 = Some (VArr []))
         (sentBy (ibcOperation ctx cred operation i) w)
  /\ (forall ctx',
         (forall name, name <> "privateKey" ->
                       strings ctx' name i = strings ctx name i) ->
         (forall name, numbers ctx' name i = numbers ctx name i) ->
         (forall name, objects ctx' name i = objects ctx name i) ->
         strings ctx "privateKey" i <> None ->
         strings ctx' "privateKey" i <> None ->
         ibcOperation ctx' cred operation i w = ibcOperation ctx cred operation i w).
Proof.
  intros Hop. split.
  - destruct Hop as [<-|[<-|[]]];
      unfold ibcOperation; cbn [String.eqb Ascii.eqb Bool.eqb];
      unfold sentBy, str, num, any;
      repeat read_parameter ltac:(cbn [snd]; rewrite skipn_sent; constructor).
    + match goal with
      | |- context [bind (timeout_timestamp_field ?t) ?k ?w0] =>
          destruct (timeout_timestamp_field_total t w0) as [stamp Hstamp];
          rewrite (bind_ok _ k w0 stamp w0 Hstamp)
      end.
      rewrite httpRequest_sent, skipn_length_app.
      repeat constructor. do 3 eexists. split; [reflexivity|]. split; reflexivity.
    + rewrite httpRequest_sent, skipn_length_app.
      repeat constructor. do 3 eexists. split; [reflexivity|]. split; reflexivity.
  - intros ctx' Hstrings Hnumbers Hobjects Hkey Hkey'.
    destruct (strings ctx "privateKey" i) as [key|] eqn:Ek; [|now elim Hkey].
    destruct (strings ctx' "privateKey" i) as [key'|] eqn:Ek'; [|now elim Hkey'].
    destruct Hop as [<-|[<-|[]]];
      unfold ibcOperation; cbn [String.eqb Ascii.eqb Bool.eqb];
      unfold str, num, any, getNodeParameter;
      rewrite Ek, Ek', ?Hnumbers, ?Hobjects;
      rewrite ?(Hstrings "sourcePort"), ?(Hstrings "sourceChannel"),
        ?(Hstrings "sender"), ?(Hstrings "receiver"), ?(Hstrings "gasPrice"),
        ?(Hstrings "clientId") by discriminate;
      reflexivity.
Qed.

Lemma ibc_posts_are_unsigned_witness :
  Forall (fun r =>
            exists message gasLimit gasPrice,
              r = broadcast Examples.sample_credentials
                    (ibcEnvelope message (ibcAuthInfo gasLimit gasPrice))
              /\ get "signatures"
                     (ibcEnvelope message (ibcAuthInfo gasLimit gasPrice))
                 = Some (VArr [])
              /\ get "signer_infos" (ibcAuthInfo gasLimit gasPrice)
                 = Some (VArr []))
         (sentBy (ibcOperation Examples.ibc_context Examples.sample_credentials
                    "ibcTransfer" 0)
                 (Examples.world_with [Examples.answer Examples.accepted])).
Proof.
  refine (proj1 (ibc_posts_are_unsigned Examples.ibc_context
                   Examples.sample_credentials "ibcTransfer" 0%nat
                   (Examples.world_with [Examples.answer Examples.accepted]) _)).
  cbn. tauto.
Defined.

(** ** The account operations *)

Lemma filterByDenom_world denom entries w :
  snd (filterByDenom denom entries w) = w.
Proof.
  induction entries as [|balance rest IH]; [reflexivity|].
  cbn [filterByDenom]. unfold bind at 1, property.
  destruct (get "denom" balance); [|reflexivity].
  cbn [ret]. unfold bind at 1.
  destruct (filterByDenom denom rest w) as [[kept|e] w1] eqn:Hrest;
    cbn [snd] in IH; subst w1; reflexivity.
Qed.

Lemma filterBalances_world denom result w :
  snd (filterBalances denom result w) = w.
Proof.
  unfold filterBalances.
  destruct (String.eqb denom EmptyString); [reflexivity|].
  unfold bind at 1, property.
  destruct (get "balances" result) as [balances|]; [|reflexivity].
  cbn [ret]. destruct (truthy balances); [|reflexivity].
  destruct balances; try reflexivity.
  destruct result; try reflexivity.
  unfold bind.
  pose proof (filterByDenom_world denom items w) as Hw.
  destruct (filterByDenom denom items w) as [[kept|e] w1];
    cbn [snd] in Hw; subst w1; reflexivity.
Qed.

(** The filter stops at the first entry that has no properties. *)
Lemma filterByDenom_null denom before bad after w :
  Forall (fun balance => get "denom" balance <> None) before ->
  bad = VNull \/ bad = VUndefined ->
  exists text,
    filterByDenom denom (before ++ bad :: after) w = (Throw (TypeError text), w).
Proof.
  intros Hbefore Hbad. induction Hbefore as [|balance others Hb _ IH].
  - cbn [app filterByDenom]. unfold property.
    destruct Hbad as [-> | ->]; cbn [get]; eexists; reflexivity.
  - destruct IH as [text IH]. exists text.
    cbn [app filterByDenom]. unfold property.
    destruct (get "denom" balance) as [d|]; [|now elim Hb].
    rewrite bind_ret. erewrite bind_throw by exact IH. reflexivity.
Qed.

Lemma append_assoc (a b c : string) : (a +++ b) +++ c = a +++ b +++ c.
Proof. induction a as [|x a IH]; cbn; congruence. Qed.

(** X11. The account handler only reads: whatever the operation name
    and the parameters, an item sends at most one request, a [GET]
    without body and without query object, to a path under the base URL
    of the credentials. *)
Theorem accounts_only_get (ctx : context) (cred : credentials)
    (operation : string) (i : nat) (w : world) :
  (List.length (sentBy (accountsOperation ctx cred operation i) w) <= 1)%nat
  /\ Forall (fun r =>
               method r = "GET" /\ body r = VUndefined /\ qs r = []
               /\ headers r = json_headers
               /\ exists path, url r = baseUrl cred +++ path)
            (sentBy (accountsOperation ctx cred operation i) w).
Proof.
  assert (Hget : forall target path w0,
             sent w0 = sent w ->
             target = baseUrl cred +++ path ->
             forall k : value -> M value,
               (forall v w1, snd (k v w1) = w1) ->
               let l := skipn (List.length (sent w))
                          (sent (snd (bind (jsonGet target) k w0))) in
               (List.length l <= 1)%nat
               /\ Forall (fun r =>
                            method r = "GET" /\ body r = VUndefined /\ qs r = []
                            /\ headers r = json_headers
                            /\ exists path, url r = baseUrl cred +++ path) l).
  { intros target path w0 Hw0 -> k Hk l. unfold l, jsonGet, bind.
    pose proof (httpRequest_sent
                  {| method := "GET"; url := baseUrl cred +++ path;
                     headers := json_headers; qs := []; body := VUndefined |} w0)
      as Hsent.
    destruct (httpRequest _ w0) as [[v|e] w1]; cbn [snd] in Hsent |- *;
      rewrite ?Hk, Hsent, Hw0, skipn_length_app;
      (split; [cbn; lia|]); repeat constructor; now exists path. }
  assert (Hplain : forall target path w0,
             sent w0 = sent w ->
             target = baseUrl cred +++ path ->
             let l := skipn (List.length (sent w))
                        (sent (snd (jsonGet target w0))) in
             (List.length l <= 1)%nat
             /\ Forall (fun r =>
                          method r = "GET" /\ body r = VUndefined /\ qs r = []
                          /\ headers r = json_headers
                          /\ exists path, url r = baseUrl cred +++ path) l).
  { intros target path w0 Hw0 Htarget.
    pose proof (Hget target path w0 Hw0 Htarget (fun v => ret v)
                  (fun v w1 => eq_refl)) as H.
    cbv zeta in H |- *.
    replace (jsonGet target w0) with (bind (jsonGet target) (fun v => ret v) w0);
      [exact H|].
    unfold bind. destruct (jsonGet target w0) as [[v|e] w1]; reflexivity. }
  unfold accountsOperation, sentBy.
  split_operation operation; unfold str, unknownOperation;
    repeat read_parameter
      ltac:(cbn [snd]; rewrite skipn_sent; split; [cbn; lia | constructor]).
  - eapply Hplain; reflexivity.
  - destruct (String.eqb v0 EmptyString);
      match goal with
      | |- context [jsonGet ?target] =>
          eapply (Hget target);
          [reflexivity | | intros; apply filterBalances_world]
      end;
      [reflexivity | rewrite !append_assoc; reflexivity].
  - eapply Hplain; reflexivity.
  - eapply Hplain; reflexivity.
  - eapply Hplain; reflexivity.
  - eapply Hplain; reflexivity.
  - cbn [snd throw]. rewrite skipn_sent. split; [cbn; lia | constructor].
Qed.

(** X12. [getBalance] with a filter on an answer that does not have the
    shape it expects: a [balances] that is not an array but is truthy,
    an entry of the array that is [null] or [undefined] after entries
    that are not, or an answer that is itself [null], make the operation
    throw a [TypeError] after the request is sent. *)
Theorem getBalance_rejects_malformed_balances (ctx : context)
    (cred : credentials) (i : nat) (w : world) (address denom : string)
    (r : reply) (rest : list reply) (response : value) :
  strings ctx "address" i = Some address ->
  strings ctx "denom" i = Some denom ->
  denom <> EmptyString ->
  replies w = r :: rest ->
  outcome r = Ok response ->
  let result := fst (accountsOperation ctx cred "getBalance" i w) in
  (forall props balances,
      response = VObj props ->
      lookup "balances" props = balances ->
      truthy balances = true ->
      (forall entries, balances <> VArr entries) ->
      exists text, result = Throw (TypeError text))
  /\ (forall props before bad after,
         response = VObj props ->
         lookup "balances" props = VArr (before ++ bad :: after) ->
         Forall (fun balance => get "denom" balance <> None) before ->
         bad = VNull \/ bad = VUndefined ->
         exists text, result = Throw (TypeError text))
  /\ (response = VNull -> exists text, result = Throw (TypeError text))
  /\ List.length (sentBy (accountsOperation ctx cred "getBalance" i) w) = 1%nat.
Proof.
  intros Haddress Hdenom Hset Hreplies Hr result.
  assert (He : String.eqb denom EmptyString = false)
    by (apply String.eqb_neq; exact Hset).
  assert (Hrun : accountsOperation ctx cred "getBalance" i w
                 = filterBalances denom response
                     {| replies := rest;
                        sent := sent w ++
                                [ {| method := "GET";
                                     url := (baseUrl cred +++ "/cosmos/bank/v1beta1/balances/" +++ address)
                                            +++ "?pagination.key=&pagination.offset=0&pagination.limit=100&pagination.count_total=true&pagination.reverse=false";
                                     headers := json_headers; qs := [];
                                     body := VUndefined |} ];
                        now := now w + latency r;
                        randoms := randoms w |}).
  { unfold accountsOperation. cbn [String.eqb Ascii.eqb Bool.eqb].
    unfold str, getNodeParameter. rewrite Haddress, Hdenom, !bind_ret, He.
    unfold jsonGet.
    erewrite bind_ok
      by (rewrite (httpRequest_reply _ _ _ _ Hreplies), Hr; reflexivity).
    reflexivity. }
  unfold result. rewrite Hrun.
  split; [|split; [|split]].
  - intros props balances -> Hbal Htruthy Hnot.
    unfold filterBalances. rewrite He.
    erewrite bind_ok by (apply property_some; cbn [get]; rewrite Hbal; reflexivity).
    rewrite Htruthy.
    destruct balances; try (eexists; reflexivity).
    now elim (Hnot items).
  - intros props before bad after -> Hbal Hbefore Hbad.
    unfold filterBalances. rewrite He.
    erewrite bind_ok by (apply property_some; cbn [get]; rewrite Hbal; reflexivity).
    cbn [truthy].
    match goal with
    | |- context [bind (filterByDenom denom _) ?k ?w0] =>
        destruct (filterByDenom_null denom before bad after w0 Hbefore Hbad)
          as [text Hfail]
    end.
    exists text. erewrite bind_throw by exact Hfail. reflexivity.
  - intros ->. unfold filterBalances. rewrite He. eexists. reflexivity.
  - unfold sentBy. rewrite Hrun, filterBalances_world. cbn [sent].
    rewrite skipn_length_app. reflexivity.
Qed.

Lemma getBalance_rejects_malformed_balances_witness :
  exists text,
    fst (accountsOperation (Examples.balance_context "uscrt")
           Examples.sample_credentials "getBalance" 0
           (Examples.world_with [Examples.answer VNull]))
    = Throw (TypeError text).
Proof.
  refine (proj1 (proj2 (proj2
            (getBalance_rejects_malformed_balances
               (Examples.balance_context "uscrt") Examples.sample_credentials
               0%nat (Examples.world_with [Examples.answer VNull])
               "secret1test" "uscrt" (Examples.answer VNull) [] VNull
               eq_refl eq_refl _ eq_refl eq_refl))) eq_refl).
  discriminate.
Defined.

(** ** The traffic of the node *)

Import Traffic.

Lemma quiet_ret {A} (a : A) : quiet (ret a).
Proof. intros w. split; reflexivity. Qed.

Lemma quiet_throw {A} (e : error) : quiet (throw (A := A) e).
Proof. intros w. split; reflexivity. Qed.

Lemma quiet_lift {A} (r : result A) : quiet (lift r).
Proof. intros w. split; reflexivity. Qed.

Lemma quiet_bind {A B} (c : M A) (k : A -> M B) :
  quiet c -> (forall a, quiet (k a)) -> quiet (bind c k).
Proof.
  intros Hc Hk w. unfold bind. specialize (Hc w).
  destruct (c w) as [[a|e] w1]; cbn [snd] in Hc |- *; [|exact Hc].
  destruct Hc as [Hs Hr], (Hk a w1) as [Hs1 Hr1]. split; congruence.
Qed.

Lemma quiet_getNodeParameter {A} (store : string -> nat -> option A) name i fallback :
  quiet (getNodeParameter store name i fallback).
Proof.
  unfold getNodeParameter. destruct (store name i); [apply quiet_ret|].
  destruct fallback; [apply quiet_ret | apply quiet_throw].
Qed.

Lemma quiet_property k v : quiet (property k v).
Proof. unfold property. destruct (get k v); [apply quiet_ret | apply quiet_throw]. Qed.

Lemma quiet_json_base64 v : quiet (json_base64 v).
Proof.
  unfold json_base64. destruct (stringify v); [apply quiet_ret | apply quiet_throw].
Qed.

Lemma quiet_Date_now : quiet Date_now.
Proof. intros w. split; reflexivity. Qed.

Lemma quiet_Math_random_base36 : quiet Math_random_base36.
Proof.
  intros w. unfold Math_random_base36. destruct (randoms w); split; reflexivity.
Qed.

Lemma quiet_filterByDenom denom entries : quiet (filterByDenom denom entries).
Proof. intros w. now rewrite filterByDenom_world. Qed.

Lemma quiet_filterBalances denom result : quiet (filterBalances denom result).
Proof. intros w. now rewrite filterBalances_world. Qed.

(** Discharges a goal [quiet c] for a computation made of reads. *)
Ltac quiet :=
  repeat first
    [ apply quiet_ret | apply quiet_throw | apply quiet_lift
    | apply quiet_getNodeParameter | apply quiet_property
    | apply quiet_json_base64 | apply quiet_Date_now
    | apply quiet_Math_random_base36 | apply quiet_filterBalances
    | apply quiet_bind; [|intros ?]
    | match goal with
      | |- quiet (if ?b then _ else _) => destruct b
      | |- quiet (match ?x with _ => _ end) => destruct x
      end ].

Lemma sends_quiet {A} P n (c : M A) : quiet c -> sends P n c.
Proof.
  intros Hc w. exists []. rewrite (proj1 (Hc w)), app_nil_r.
  split; [reflexivity|]. split; [constructor | cbn; lia].
Qed.

Lemma sends_weaken {A} P n m (c : M A) :
  (n <= m)%nat -> sends P n c -> sends P m c.
Proof.
  intros Hn Hc w. destruct (Hc w) as (l & Hl & HP & Hlen).
  exists l. split; [exact Hl|]. split; [exact HP | lia].
Qed.

Lemma sends_implies {A} (P Q : request -> Prop) n (c : M A) :
  (forall r, P r -> Q r) -> sends P n c -> sends Q n c.
Proof.
  intros HPQ Hc w. destruct (Hc w) as (l & Hl & HP & Hlen).
  exists l. split; [exact Hl|]. split; [|exact Hlen].
  eapply Forall_impl; [exact HPQ | exact HP].
Qed.

Lemma sends_httpRequest P n options : P options -> sends P (S n) (httpRequest options).
Proof.
  intros HP w. exists [options]. rewrite httpRequest_sent.
  split; [reflexivity|]. split; [now repeat constructor | cbn; lia].
Qed.

Lemma sends_bind {A B} P n m (c : M A) (k : A -> M B) :
  sends P n c -> (forall a, sends P m (k a)) -> sends P (n + m) (bind c k).
Proof.
  intros Hc Hk w. unfold bind. destruct (Hc w) as (l1 & Hl1 & HP1 & Hlen1).
  destruct (c w) as [[a|e] w1]; cbn [snd] in Hl1 |- *.
  - destruct (Hk a w1) as (l2 & Hl2 & HP2 & Hlen2).
    exists (l1 ++ l2). rewrite Hl2, Hl1, app_assoc.
    split; [reflexivity|]. split; [now apply Forall_app|].
    rewrite length_app. lia.
  - exists l1. split; [exact Hl1|]. split; [exact HP1 | lia].
Qed.

Lemma sends_after_quiet {A B} P n (c : M A) (k : A -> M B) :
  quiet c -> (forall a, sends P n (k a)) -> sends P n (bind c k).
Proof.
  intros Hc Hk. apply (sends_bind P 0 n); [now apply sends_quiet | exact Hk].
Qed.

Lemma sends_then_quiet {A B} P n (c : M A) (k : A -> M B) :
  sends P n c -> (forall a, quiet (k a)) -> sends P n (bind c k).
Proof.
  intros Hc Hk. apply (sends_weaken P (n + 0)); [lia|].
  apply sends_bind; [exact Hc|]. intros a. now apply sends_quiet.
Qed.

Lemma sends_assoc {A B C} P n (c : M A) (f : A -> M B) (g : B -> M C) :
  sends P n (bind c (fun a => bind (f a) g)) -> sends P n (bind (bind c f) g).
Proof. intros H w. rewrite bind_assoc. apply H. Qed.

Lemma sends_ret_bind {A B} P n (a : A) (k : A -> M B) :
  sends P n (k a) -> sends P n (bind (ret a) k).
Proof. intros H w. rewrite bind_ret. apply H. Qed.

Lemma sends_throw_bind {A B} P n (e : error) (k : A -> M B) :
  sends P n (bind (throw e) k).
Proof. apply sends_quiet. intros w. split; reflexivity. Qed.

(** Follows a computation down to its requests. *)
Ltac traffic :=
  repeat first
    [ match goal with
      | |- sends _ _ (bind (throw _) _) => apply sends_throw_bind
      | |- sends _ _ (bind (ret _) _) => apply sends_ret_bind
      | |- sends _ _ (bind (bind _ _) _) => apply sends_assoc
      end
    | apply sends_quiet; solve [quiet]
    | apply sends_httpRequest
    | apply sends_after_quiet; [solve [quiet] | intros ?]
    | apply sends_then_quiet; [|intros ?; solve [quiet]]
    | match goal with
      | |- sends _ _ (if ?b then _ else _) => destruct b
      | |- sends _ _ (let _ := _ in _) => cbv zeta
      | |- sends _ _ (match ?x with (_, _) => _ end) =>
          first [progress cbv beta iota | destruct x]
      | |- sends _ 2 (bind _ _) => apply (sends_bind _ 1 1); [|intros ?]
      end ].

(** The loop sends what its items send. *)
Lemma sends_processItems P n ctx rethrow operate :
  (forall i, sends P n (operate i)) ->
  forall indices returnData,
    sends P (n * List.length indices)
          (processItems ctx rethrow operate indices returnData).
Proof.
  intros Hop. induction indices as [|i rest IH]; intros returnData w.
  - exists []. cbn. rewrite app_nil_r. split; [reflexivity|].
    split; [constructor | lia].
  - rewrite processItems_step.
    destruct (Hop i w) as (l1 & Hl1 & HP1 & Hlen1).
    assert (Hrest : forall rd w1,
               sent w1 = sent w ++ l1 ->
               exists l,
                 sent (snd (processItems ctx rethrow operate rest rd w1))
                 = sent w ++ l
                 /\ Forall P l /\ (List.length l <= n * List.length (i :: rest))%nat).
    { intros rd w1 Hw1. destruct (IH rd w1) as (l2 & Hl2 & HP2 & Hlen2).
      exists (l1 ++ l2). rewrite Hl2, Hw1, app_assoc.
      split; [reflexivity|]. split; [now apply Forall_app|].
      rewrite length_app. cbn [List.length]. lia. }
    destruct (operate i w) as [[result|e] w1]; cbn [snd] in Hl1.
    + now apply Hrest.
    + destruct (continueOnFail ctx); [now apply Hrest|].
      exists l1. cbn [snd]. split; [exact Hl1|]. split; [exact HP1|].
      cbn [List.length]. lia.
Qed.

Lemma sends_getCredentials {A} P n ctx (k : credentials -> M A) :
  (forall cred, stored_credentials ctx = Ok cred -> sends P n (k cred)) ->
  sends P n (bind (getCredentials ctx) k).
Proof.
  intros Hk. unfold getCredentials.
  destruct (stored_credentials ctx) as [cred|e] eqn:Hcred.
  - intros w. unfold bind, lift. now apply Hk.
  - apply sends_quiet. intros w. split; reflexivity.
Qed.

Lemma under_path cred path r : url r = baseUrl cred +++ path -> under cred r.
Proof. intros H. now exists path. Qed.

(** Closes a goal [under cred r] for a request written out. *)
Ltac under_base :=
  try match goal with
      | |- context [if ?b then _ else _] => destruct b
      end;
  eapply under_path;
  cbn [url request_of postJson getJson broadcast broadcast_url accountLookup];
  rewrite ?append_assoc; reflexivity.

Section OperationsTraffic.
Context {secp256k1 : Secp256k1}.
Variables (apiKey : value) (syntaxError : string -> error).
Variables (ctx : context) (cred : credentials) (operation : string) (i : nat).

Lemma sends_smartContractsOperation :
  sends (under cred) 1 (smartContractsOperation ctx cred operation i).
Proof.
  unfold smartContractsOperation, smartContractsOptions.
  split_operation operation; unfold str, num, any, unknownOperation;
    traffic; under_base.
Qed.

Lemma sends_snip20Operation :
  sends (under cred) 1 (snip20Operation ctx cred operation i).
Proof.
  unfold snip20Operation.
  split_operation operation;
    unfold str, num, any, unknownOperation, createTransactionMessage,
      createQueryMessage, postUnsigned, postQuery;
    traffic; under_base.
Qed.

Lemma sends_signAndBroadcastTx contractAddress executeMsg privateKey gasLimit gasPrice :
  sends (under cred) 2
    (signAndBroadcastTx cred contractAddress executeMsg privateKey gasLimit gasPrice).
Proof.
  unfold signAndBroadcastTx. traffic; under_base.
Qed.

Lemma sends_snip721Operation :
  sends (under cred) 2 (snip721Operation ctx cred operation i).
Proof.
  unfold snip721Operation, str.
  apply sends_after_quiet; [quiet|]. intros contractAddress.
  split_operation operation;
    unfold signingParameters, str, num, any, unknownOperation, queryContract;
    traffic; under_base.
Qed.

Lemma sends_ibcOperation :
  sends (under cred) 1 (ibcOperation ctx cred operation i).
Proof.
  unfold ibcOperation.
  split_operation operation;
    unfold str, num, any, unknownOperation, pagedGet, plainGet,
      timeout_timestamp_field;
    traffic; under_base.
Qed.

Lemma sends_transactionsOperation :
  sends (under cred) 1
        (transactionsOperation apiKey syntaxError ctx cred operation i).
Proof.
  unfold transactionsOperation.
  split_operation operation;
    unfold str, num, any, unknownOperation, parseJson;
    traffic; under_base.
Qed.

Lemma sends_accountsOperation :
  sends (under cred) 1 (accountsOperation ctx cred operation i).
Proof.
  unfold accountsOperation.
  split_operation operation;
    unfold str, num, any, unknownOperation, jsonGet;
    traffic; under_base.
Qed.

End OperationsTraffic.

(** A handler sends what its loop sends. *)
Lemma sends_handler (ctx : context) (k n : nat) rethrow
    (operate : credentials -> string -> nat -> M value) :
  (forall cred operation i, sends (under cred) k (operate cred operation i)) ->
  sends (fun r => forall cred, stored_credentials ctx = Ok cred -> under cred r)
        (k * n)
        (bind (str ctx "operation" 0)
              (fun operation =>
                 bind (getCredentials ctx)
                      (fun cred =>
                         processItems ctx rethrow (operate cred operation)
                                      (seq 0 n) []))).
Proof.
  intros Hop. unfold str.
  apply sends_after_quiet; [quiet|]. intros operation.
  apply sends_getCredentials. intros cred Hcred.
  apply (sends_implies (under cred)).
  - intros r Hr cred' Hcred'. congruence.
  - replace (k * n)%nat with (k * List.length (seq 0 n))%nat
      by (now rewrite length_seq).
    apply sends_processItems. intros i. apply Hop.
Qed.

(** X13. Whatever the parameters, the credentials and the answers of the
    network: a run of a handler on [n] items leaves the earlier requests
    in place and adds at most [n] requests, or [2 n] for the SNIP-721
    handler, which signs; [execute] adds at most [2 n]. Every request
    goes to a URL that starts with the base URL of the credentials. *)
Theorem node_traffic {secp256k1 : Secp256k1}
    (apiKey : value) (syntaxError : string -> error)
    (responseError : error -> option error)
    (ctx : context) (items : list item) :
  let mine :=
    fun r => forall cred, stored_credentials ctx = Ok cred -> under cred r in
  let n := List.length items in
  sends mine n (executeSmartContractsOperations ctx items)
  /\ sends mine n (executeSnip20TokensOperations ctx items)
  /\ sends mine (2 * n) (executeSnip721TokensOperations ctx items)
  /\ sends mine n (executeIbcOperationsOperations ctx items)
  /\ sends mine n
           (executeTransactionsOperations apiKey syntaxError responseError
              ctx items)
  /\ sends mine n (executeAccountsOperations ctx items)
  /\ sends mine (2 * n)
           (execute apiKey syntaxError responseError ctx items).
Proof.
  intros mine n.
  assert (Hc : sends mine n (executeSmartContractsOperations ctx items)).
  { apply (sends_weaken _ (1 * n)); [lia|].
    apply (sends_handler ctx 1 n (fun e => NodeApiError (apiErrorMessage ctx e) e)
             (fun cred operation => smartContractsOperation ctx cred operation)).
    intros. apply sends_smartContractsOperation. }
  assert (H20 : sends mine n (executeSnip20TokensOperations ctx items)).
  { apply (sends_weaken _ (1 * n)); [lia|].
    apply (sends_handler ctx 1 n (fun e => e)
             (fun cred operation => snip20Operation ctx cred operation)).
    intros. apply sends_snip20Operation. }
  assert (H721 : sends mine (2 * n) (executeSnip721TokensOperations ctx items)).
  { apply (sends_handler ctx 2 n (fun e => e)
             (fun cred operation => snip721Operation ctx cred operation)).
    intros. apply sends_snip721Operation. }
  assert (Hi : sends mine n (executeIbcOperationsOperations ctx items)).
  { apply (sends_weaken _ (1 * n)); [lia|].
    apply (sends_handler ctx 1 n (fun e => e)
             (fun cred operation => ibcOperation ctx cred operation)).
    intros. apply sends_ibcOperation. }
  assert (Ht : sends mine n
                 (executeTransactionsOperations apiKey syntaxError responseError
                    ctx items)).
  { apply (sends_weaken _ (1 * n)); [lia|].
    apply (sends_handler ctx 1 n (rethrowTransactions responseError)
             (fun cred operation =>
                transactionsOperation apiKey syntaxError ctx cred operation)).
    intros. apply sends_transactionsOperation. }
  assert (Ha : sends mine n (executeAccountsOperations ctx items)).
  { apply (sends_weaken _ (1 * n)); [lia|].
    apply (sends_handler ctx 1 n (fun e => NodeApiError (apiErrorMessage ctx e) e)
             (fun cred operation => accountsOperation ctx cred operation)).
    intros. apply sends_accountsOperation. }
  repeat (split; [assumption|]).
  unfold execute, str.
  apply sends_after_quiet; [quiet|]. intros resource.
  split_operation resource;
    try (apply sends_then_quiet; [|intros out; apply quiet_ret]);
    try (apply (sends_weaken _ n); [lia | assumption]);
    try assumption.
  apply sends_quiet. apply quiet_throw.
Qed.

(** The sample run of the pipeline: two requests, both under the base
    URL. *)
Example sample_run_traffic :
  map url
    (sentBy Examples.sample_run
       (Examples.world_with
          [Examples.answer Examples.account_found; Examples.answer Examples.accepted]))
  = [ "https://lcd.secret.express/cosmos/auth/v1beta1/accounts/secret751e76e8199196d454941c45d1b3a323f1433bd6";
      "https://lcd.secret.express/cosmos/tx/v1beta1/txs" ].
Proof. vm_compute. reflexivity. Qed.

(** ** The smart-contract operations *)

Lemma list_ascii_of_string_app (a b : string) :
  list_ascii_of_string (a +++ b) = list_ascii_of_string a ++ list_ascii_of_string b.
Proof. induction a as [|c a IH]; cbn; congruence. Qed.

(** What [encodeURIComponent] writes for one byte. *)
Lemma encodeURIComponent_byte (c : ascii) :
  Forall (fun x => Text.is_alphanumeric x || Text.one_of "-_.!~*'()%" x = true)
         (list_ascii_of_string
            (if Text.is_alphanumeric c || Text.one_of "-_.!~*'()" c
             then String c EmptyString else Text.percent c)).
Proof.
  apply Forall_forall. apply forallb_forall.
  destruct c as [[] [] [] [] [] [] [] []]; vm_compute; reflexivity.
Qed.

(** X14. [listCodes] always sends its request, since both of its
    parameters have a default: a [GET] of the codes with the limit, 100
    unless set, and, when the key is not empty, the key after it,
    encoded. The encoded key holds only letters, digits, the marks
    [- _ . ! ~ * ' ( )] and [%]: no [&], [=], [#] or [?] of the key
    reaches the URL as such. *)
Theorem listCodes_request (ctx : context) (cred : credentials) (i : nat)
    (w : world) :
  let limit :=
    match numbers ctx "paginationLimit" i with
    | Some n => n
    | None => of_Z 100
    end in
  let key :=
    match strings ctx "paginationKey" i with
    | Some k => k
    | None => EmptyString
    end in
  smartContractsOperation ctx cred "listCodes" i w
  = httpRequest
      {| method := "GET";
         url := baseUrl cred +++ "/compute/v1beta1/codes?pagination.limit="
                  +++ NumberToString.toString limit
                  +++ (if String.eqb key EmptyString then EmptyString
                       else "&pagination.key=" +++ Text.encodeURIComponent key);
         headers := json_headers;
         qs := [];
         body := VUndefined |}
      w
  /\ (forall text,
         Forall (fun c =>
                   Text.is_alphanumeric c || Text.one_of "-_.!~*'()%" c = true)
                (list_ascii_of_string (Text.encodeURIComponent text)))
  /\ (forall text,
         (String.length text <= String.length (Text.encodeURIComponent text))%nat).
Proof.
  intros limit key. split; [|split].
  - unfold smartContractsOperation, smartContractsOptions.
    cbn [String.eqb Ascii.eqb Bool.eqb].
    assert (Hl : getNodeParameter (numbers ctx) "paginationLimit" i
                   (Some (of_Z 100)) = ret limit)
      by (unfold getNodeParameter, limit;
          destruct (numbers ctx "paginationLimit" i); reflexivity).
    assert (Hk : getNodeParameter (strings ctx) "paginationKey" i
                   (Some EmptyString) = ret key)
      by (unfold getNodeParameter, key;
          destruct (strings ctx "paginationKey" i); reflexivity).
    rewrite Hl, Hk. rewrite bind_assoc, bind_ret, bind_assoc, !bind_ret.
    cbn [truthy request_of getJson].
    destruct (String.eqb key EmptyString); cbn [negb].
    + now rewrite append_empty.
    + now rewrite !append_assoc.
  - induction text as [|c rest IH]; [constructor|].
    cbn [Text.encodeURIComponent]. rewrite list_ascii_of_string_app.
    apply Forall_app. split; [apply encodeURIComponent_byte | exact IH].
  - induction text as [|c rest IH]; [cbn; lia|].
    cbn [Text.encodeURIComponent]. rewrite length_append.
    destruct (Text.is_alphanumeric c || Text.one_of "-_.!~*'()" c);
      cbn [String.length Text.percent]; lia.
Qed.

(** The [listCodes] test of the repository, and a key that needs
    encoding. *)
Example listCodes_of_the_test :
  map url
    (sentBy (smartContractsOperation
               (Examples.bare_context "smartContracts" "listCodes" false)
               Examples.token_credentials "listCodes" 0)
            (Examples.world_with []))
  = ["https://lcd.secret.express/compute/v1beta1/codes?pagination.limit=100"]
  /\ Text.encodeURIComponent "a+b/c=&limit=1"
     = "a%2Bb%2Fc%3D%26limit%3D1".
Proof. split; vm_compute; reflexivity. Qed.

(** Reads the next parameter of an equation on the goal's left and
    discards the case in which it is not set. *)
Ltac read_or_fail := read_parameter ltac:(intros [=]).

(** X15. The requests of the smart-contract handler carry no body. An
    operation that posts puts its payload in the member [json] of the
    options, where the others have [true]: the query of
    [queryContract], or a transaction without signer and without
    signature whose fee depends on the operation alone, 25000 uscrt for
    a gas limit of 200000, and 50000 for 500000 to store code. Building
    the options reads parameters and touches nothing else. *)
Theorem contract_requests_carry_no_body (ctx : context) (cred : credentials)
    (operation : string) (i : nat) (w : world) :
  sends (fun r => body r = VUndefined /\ qs r = [] /\ headers r = json_headers)
        1 (smartContractsOperation ctx cred operation i)
  /\ (forall options w',
         smartContractsOptions ctx cred operation i w = (Ok options, w') ->
         w' = w
         /\ smartContractsOperation ctx cred operation i w
            = httpRequest (request_of options) w
         /\ ((method (request_of options) = "GET"
              /\ json_option options = VBool true)
             \/ (method (request_of options) = "POST"
                 /\ operation = "queryContract"
                 /\ exists query, json_option options = VObj [("query", query)])
             \/ (method (request_of options) = "POST"
                 /\ url (request_of options)
                    = baseUrl cred +++ "/cosmos/tx/v1beta1/txs"
                 /\ exists message amount gas_limit,
                      json_option options = payload message amount gas_limit
                      /\ In (amount, gas_limit)
                            [("25000", "200000"); ("50000", "500000")]))).
Proof.
  split.
  - unfold smartContractsOperation, smartContractsOptions.
    split_operation operation; unfold str, num, any, unknownOperation;
      traffic; repeat split; reflexivity.
  - intros options w'. unfold smartContractsOperation.
    intros Hoptions. rewrite (bind_ok _ _ _ _ _ Hoptions).
    revert Hoptions. unfold smartContractsOptions.
    split_operation operation; unfold str, num, any, unknownOperation;
      repeat read_or_fail; try (intros [=]; fail);
      rewrite ?bind_ret; intros [= <- <-];
      (split; [reflexivity|]); (split; [reflexivity|]);
      first
        [ left; split; reflexivity
        | right; left; split; [reflexivity|];
          split; [apply String.eqb_eq; assumption | eexists; reflexivity]
        | right; right; split; [reflexivity|]; split; [reflexivity|];
          do 3 eexists; split; [reflexivity | cbn; tauto] ].
Qed.

(** The [executeContract] test of the repository: the request has no
    body, and the payload is in the options. *)
Example executeContract_of_the_test :
  sentBy (smartContractsOperation Examples.contract_context
            Examples.token_credentials "executeContract" 0)
         (Examples.world_with [])
  = [ {| method := "POST";
         url := "https://lcd.secret.express/cosmos/tx/v1beta1/txs";
         headers := json_headers;
         qs := [];
         body := VUndefined |} ]
  /\ fst (smartContractsOptions Examples.contract_context
            Examples.token_credentials "executeContract" 0
            (Examples.world_with []))
     = Ok (postJson "https://lcd.secret.express/cosmos/tx/v1beta1/txs"
             (payload
                (VObj [ ("@type", VStr "/secret.compute.v1beta1.MsgExecuteContract");
                        ("sender", VStr "secret1sender");
                        ("contract", VStr "secret1contract");
                        ("msg", VStr (Wire.object [Wire.member "test" (quote "message")]));
                        ("sent_funds", VArr []) ])
                "25000" "200000")).
Proof. split; vm_compute; reflexivity. Qed.

(** X16. What [executeContract] builds from its four parameters: the
    options of a post to the transaction endpoint, without [body], whose
    member [json] is an unsigned transaction with one message. The
    message has the sender and the contract as given; its [msg] is the
    message as text, the text itself when the message is given as text
    and its JSON text when it is given as an object; its [sent_funds]
    are the funds when they are an array and the empty array otherwise.
    So a message given as an object and the same message given as its
    JSON text build the same options. The request that is sent is the
    request of these options: the member [json] is not part of it. *)
Theorem executeContract_options (ctx : context) (cred : credentials) (i : nat)
    (w : world) (contractAddress sender : string) (msg funds : value) :
  strings ctx "contractAddress" i = Some contractAddress ->
  objects ctx "msg" i = Some msg ->
  strings ctx "sender" i = Some sender ->
  objects ctx "funds" i = Some funds ->
  let text :=
    match msg with
    | VStr s => VStr s
    | VUndefined => VUndefined
    | _ => VStr (serialize msg)
    end in
  let sent_funds :=
    match funds with
    | VArr entries => VArr entries
    | _ => VArr []
    end in
  let post :=
    {| method := "POST";
       url := baseUrl cred +++ "/cosmos/tx/v1beta1/txs";
       headers := [("Content-Type", "application/json")];
       qs := [];
       body := VUndefined |} in
  smartContractsOptions ctx cred "executeContract" i w
  = (Ok {| request_of := post;
           json_option :=
             VObj
               [ ("tx",
                  VObj
                    [ ("body",
                       VObj
                         [ ("messages",
                            VArr
                              [ VObj
                                  [ ("@type", VStr "/secret.compute.v1beta1.MsgExecuteContract");
                                    ("sender", VStr sender);
                                    ("contract", VStr contractAddress);
                                    ("msg", text);
                                    ("sent_funds", sent_funds) ] ]);
                           ("memo", VStr EmptyString);
                           ("timeout_height", VStr "0");
                           ("extension_options", VArr []);
                           ("non_critical_extension_options", VArr []) ]);
                      ("auth_info",
                       VObj
                         [ ("signer_infos", VArr []);
                           ("fee",
                            VObj
                              [ ("amount",
                                 VArr [ VObj [ ("denom", VStr "uscrt");
                                               ("amount", VStr "25000") ] ]);
                                ("gas_limit", VStr "200000");
                                ("payer", VStr EmptyString);
                                ("granter", VStr EmptyString) ]) ]);
                      ("signatures", VArr []) ]);
                 ("mode", VStr "BROADCAST_MODE_BLOCK") ] |},
     w)
  /\ smartContractsOperation ctx cred "executeContract" i w = httpRequest post w
  /\ (forall ctx',
         msg <> VUndefined -> (forall s, msg <> VStr s) ->
         objects ctx' "msg" i = Some (VStr (serialize msg)) ->
         (forall name, strings ctx' name i = strings ctx name i) ->
         objects ctx' "funds" i = objects ctx "funds" i ->
         smartContractsOptions ctx' cred "executeContract" i w
         = smartContractsOptions ctx cred "executeContract" i w).
Proof.
  intros Hc Hm Hs Hf text sent_funds post.
  assert (Htext : textOf msg = text) by (destruct msg; reflexivity).
  assert (Hfunds : arrayOr funds = sent_funds) by (destruct funds; reflexivity).
  assert (Hoptions : forall ctx0 msg0,
             strings ctx0 "contractAddress" i = Some contractAddress ->
             objects ctx0 "msg" i = Some msg0 ->
             strings ctx0 "sender" i = Some sender ->
             objects ctx0 "funds" i = Some funds ->
             smartContractsOptions ctx0 cred "executeContract" i w
             = (Ok (postJson (baseUrl cred +++ "/cosmos/tx/v1beta1/txs")
                      (payload
                         (VObj [ ("@type", VStr "/secret.compute.v1beta1.MsgExecuteContract");
                                 ("sender", VStr sender);
                                 ("contract", VStr contractAddress);
                                 ("msg", textOf msg0);
                                 ("sent_funds", arrayOr funds) ])
                         "25000" "200000")),
                w)).
  { intros ctx0 msg0 Hc0 Hm0 Hs0 Hf0.
    unfold smartContractsOptions. cbn [String.eqb Ascii.eqb Bool.eqb].
    unfold str, any, getNodeParameter.
    rewrite Hc0, Hm0, Hs0, Hf0, !bind_ret. reflexivity. }
  split; [|split].
  - rewrite (Hoptions ctx msg Hc Hm Hs Hf), Htext, Hfunds. reflexivity.
  - unfold smartContractsOperation.
    rewrite (bind_ok _ _ _ _ _ (Hoptions ctx msg Hc Hm Hs Hf)). reflexivity.
  - intros ctx' Hdef Hobj Hm' Hstrings Hf'.
    rewrite (Hoptions ctx msg Hc Hm Hs Hf).
    rewrite (Hoptions ctx' (VStr (serialize msg)));
      [| now rewrite Hstrings | exact Hm' | now rewrite Hstrings
       | now rewrite Hf' ].
    replace (textOf (VStr (serialize msg))) with (textOf msg); [reflexivity|].
    destruct msg; try reflexivity; [now elim Hdef | now elim (Hobj s)].
Qed.

(** The options of the [executeContract] test of the repository: its
    message, an object, is carried as its JSON text. *)
Lemma executeContract_options_witness :
  smartContractsOptions Examples.contract_context Examples.token_credentials
    "executeContract" 0 (Examples.world_with [])
  = (Ok {| request_of :=
             {| method := "POST";
                url := baseUrl Examples.token_credentials
                         +++ "/cosmos/tx/v1beta1/txs";
                headers := [("Content-Type", "application/json")];
                qs := [];
                body := VUndefined |};
           json_option :=
             VObj
               [ ("tx",
                  VObj
                    [ ("body",
                       VObj
                         [ ("messages",
                            VArr
                              [ VObj
                                  [ ("@type", VStr "/secret.compute.v1beta1.MsgExecuteContract");
                                    ("sender", VStr "secret1sender");
                                    ("contract", VStr "secret1contract");
                                    ("msg",
                                     VStr (serialize (VObj [("test", VStr "message")])));
                                    ("sent_funds", VArr []) ] ]);
                           ("memo", VStr EmptyString);
                           ("timeout_height", VStr "0");
                           ("extension_options", VArr []);
                           ("non_critical_extension_options", VArr []) ]);
                      ("auth_info",
                       VObj
                         [ ("signer_infos", VArr []);
                           ("fee",
                            VObj
                              [ ("amount",
                                 VArr [ VObj [ ("denom", VStr "uscrt");
                                               ("amount", VStr "25000") ] ]);
                                ("gas_limit", VStr "200000");
                                ("payer", VStr EmptyString);
                                ("granter", VStr EmptyString) ]) ]);
                      ("signatures", VArr []) ]);
                 ("mode", VStr "BROADCAST_MODE_BLOCK") ] |},
     Examples.world_with []).
Proof.
  exact (proj1
           (executeContract_options Examples.contract_context
              Examples.token_credentials 0%nat (Examples.world_with [])
              "secret1contract" "secret1sender"
              (VObj [("test", VStr "message")]) (VArr [])
              eq_refl eq_refl eq_refl eq_refl)).
Defined.

(** ** The transaction operations *)

Section Headers.
Context {secp256k1 : Secp256k1}.
Variables (apiKey : value) (syntaxError : string -> error).
Variables (ctx : context) (cred : credentials) (operation : string) (i : nat).

(** X17. The API key of the credentials reaches the network through
    the transaction handler alone, and only when it is truthy: each of
    its requests has the header [Authorization: Bearer <key>] then, after
    the content type when the request is a post, and no such header
    otherwise. The requests of the five other handlers have the content
    type as their only header, or no header at all. *)
Theorem authorization_header :
  sends (fun r =>
           headers r
           = (if String.eqb (method r) "POST" then json_headers else [])
             ++ (if truthy apiKey
                 then [("Authorization", "Bearer " +++ Text.ToString apiKey)]
                 else []))
        1 (transactionsOperation apiKey syntaxError ctx cred operation i)
  /\ Forall (fun operate : M value =>
               sends (fun r => headers r = json_headers \/ headers r = [])
                     2 operate)
            [ smartContractsOperation ctx cred operation i;
              snip20Operation ctx cred operation i;
              snip721Operation ctx cred operation i;
              ibcOperation ctx cred operation i;
              accountsOperation ctx cred operation i ].
Proof.
  split; [|repeat constructor].
  - unfold transactionsOperation.
    split_operation operation;
      unfold str, num, any, unknownOperation, parseJson;
      traffic; reflexivity.
  - unfold smartContractsOperation, smartContractsOptions.
    split_operation operation; unfold str, num, any, unknownOperation;
      traffic; left; reflexivity.
  - unfold snip20Operation.
    split_operation operation;
      unfold str, num, any, unknownOperation, createTransactionMessage,
        createQueryMessage, postUnsigned, postQuery;
      traffic; left; reflexivity.
  - unfold snip721Operation, str.
    apply sends_after_quiet; [quiet|]. intros contractAddress.
    split_operation operation;
      unfold signingParameters, str, num, any, unknownOperation, queryContract;
      traffic; left; reflexivity.
  - unfold ibcOperation.
    split_operation operation;
      unfold str, num, any, unknownOperation, pagedGet, plainGet,
        timeout_timestamp_field;
      traffic; first [left; reflexivity | right; reflexivity].
  - unfold accountsOperation.
    split_operation operation;
      unfold str, num, any, unknownOperation, jsonGet;
      traffic; left; reflexivity.
Qed.

End Headers.

(** The [broadcastTransaction] test of the repository. *)
Example broadcastTransaction_headers :
  map headers
    (sentBy (transactionsOperation Examples.test_api_key Examples.syntax_error
               (Examples.transactions_context "getLatestBlock")
               Examples.sample_credentials "getLatestBlock" 0)
            (Examples.world_with []))
  = [[("Authorization", "Bearer test-api-key")]].
Proof. vm_compute. reflexivity. Qed.

(** X18. [simulateTransaction] chooses the body of its post from two
    parameters. Transaction bytes that are not empty are sent as
    [tx_bytes], and the transaction data is then not even parsed. With
    empty bytes, data that is truthy is parsed as JSON and sent as [tx],
    or the SyntaxError of the parser is thrown and nothing is sent; with
    neither, the body is the empty object. Data that arrives as an
    object, not as text, never parses. *)
Theorem simulateTransaction_body
    (apiKey : value) (syntaxError : string -> error)
    (ctx : context) (cred : credentials) (i : nat) (w : world)
    (txData : value) (txBytes : string) :
  objects ctx "txData" i = Some txData ->
  strings ctx "txBytes" i = Some txBytes ->
  let run :=
    transactionsOperation apiKey syntaxError ctx cred "simulateTransaction" i w in
  let post := fun content =>
    httpRequest
      {| method := "POST";
         url := baseUrl cred +++ "/cosmos/tx/v1beta1/simulate";
         headers := json_headers ++ authorization apiKey;
         qs := [];
         body := content |} w in
  (txBytes <> EmptyString -> run = post (VObj [("tx_bytes", VStr txBytes)]))
  /\ (txBytes = EmptyString -> truthy txData = false -> run = post (VObj []))
  /\ (forall tx,
         txBytes = EmptyString -> truthy txData = true ->
         JSON.parse (Text.ToString txData) = Some tx ->
         run = post (VObj [("tx", tx)]))
  /\ (txBytes = EmptyString -> truthy txData = true ->
      JSON.parse (Text.ToString txData) = None ->
      run = (Throw (syntaxError (Text.ToString txData)), w))
  /\ (forall props, JSON.parse (Text.ToString (VObj props)) = None).
Proof.
  intros Hdata Hbytes run post.
  assert (Hrun : run
                 = bind (if truthy (VStr txBytes)
                         then ret (VObj [("tx_bytes", VStr txBytes)])
                         else if truthy txData
                              then bind (parseJson syntaxError txData)
                                        (fun tx => ret (VObj [("tx", tx)]))
                              else ret (VObj []))
                        (fun content =>
                           httpRequest
                             {| method := "POST";
                                url := baseUrl cred +++ "/cosmos/tx/v1beta1/simulate";
                                headers := json_headers ++ authorization apiKey;
                                qs := [];
                                body := content |}) w).
  { unfold run, transactionsOperation. cbn [String.eqb Ascii.eqb Bool.eqb].
    unfold str, any, getNodeParameter. rewrite Hdata, Hbytes, !bind_ret.
    reflexivity. }
  rewrite Hrun. cbn [truthy]. repeat split.
  - intros Hset. apply String.eqb_neq in Hset. rewrite Hset. reflexivity.
  - intros -> Hfalsy. cbn [String.eqb negb]. rewrite Hfalsy. reflexivity.
  - intros tx -> Htruthy Hparse. cbn [String.eqb negb]. rewrite Htruthy.
    unfold parseJson. rewrite Hparse. reflexivity.
  - intros -> Htruthy Hparse. cbn [String.eqb negb]. rewrite Htruthy.
    unfold parseJson. rewrite Hparse. reflexivity.
Qed.

Lemma simulateTransaction_body_witness :
  transactionsOperation Examples.test_api_key Examples.syntax_error
    (Examples.transactions_context "simulateTransaction")
    Examples.sample_credentials "simulateTransaction" 0
    (Examples.world_with [])
  = httpRequest
      {| method := "POST";
         url := baseUrl Examples.sample_credentials +++ "/cosmos/tx/v1beta1/simulate";
         headers := json_headers ++ authorization Examples.test_api_key;
         qs := [];
         body := VObj [("tx", VObj [("body", VObj [("messages", VArr [])])])] |}
      (Examples.world_with []).
Proof.
  refine (proj1 (proj2 (proj2
            (simulateTransaction_body Examples.test_api_key Examples.syntax_error
               (Examples.transactions_context "simulateTransaction")
               Examples.sample_credentials 0%nat (Examples.world_with [])
               _ EmptyString eq_refl eq_refl)))
            (VObj [("body", VObj [("messages", VArr [])])]) eq_refl eq_refl _).
  vm_compute. reflexivity.
Defined.

(** X19. [getTransactions] writes its query from the four parameters in
    a fixed order, [events], [order_by], [pagination.limit],
    [pagination.key], and leaves out each one that is falsy: an empty
    text, a page size of 0. The values are form-encoded, the names are
    written as they are, and the [?] is there only when some parameter
    is. *)
Theorem getTransactions_query
    (apiKey : value) (syntaxError : string -> error)
    (ctx : context) (cred : credentials) (i : nat) (w : world)
    (events orderBy pageKey : string) (pageSize : number) :
  strings ctx "events" i = Some events ->
  strings ctx "orderBy" i = Some orderBy ->
  numbers ctx "pageSize" i = Some pageSize ->
  strings ctx "pageKey" i = Some pageKey ->
  let given := fun (present : bool) (name text : string) =>
    if present then [name +++ "=" +++ Text.form_encode text] else [] in
  let parts :=
    given (negb (String.eqb events EmptyString)) "events" events
    ++ given (negb (String.eqb orderBy EmptyString)) "order_by" orderBy
    ++ given (truthy (VNum pageSize)) "pagination.limit"
             (NumberToString.toString pageSize)
    ++ given (negb (String.eqb pageKey EmptyString)) "pagination.key" pageKey in
  transactionsOperation apiKey syntaxError ctx cred "getTransactions" i w
  = httpRequest
      {| method := "GET";
         url := baseUrl cred +++ "/cosmos/tx/v1beta1/txs"
                  +++ match parts with
                      | [] => EmptyString
                      | _ => "?" +++ join "&" parts
                      end;
         headers := authorization apiKey;
         qs := [];
         body := VUndefined |}
      w.
Proof.
  intros Hevents Horder Hsize Hkey given parts.
  unfold transactionsOperation. cbn [String.eqb Ascii.eqb Bool.eqb].
  unfold str, num, getNodeParameter.
  rewrite Hevents, Horder, Hsize, Hkey, !bind_ret.
  assert (K1 : Text.form_encode "events" = "events") by reflexivity.
  assert (K2 : Text.form_encode "order_by" = "order_by") by reflexivity.
  assert (K3 : Text.form_encode "pagination.limit" = "pagination.limit")
    by reflexivity.
  assert (K4 : Text.form_encode "pagination.key" = "pagination.key")
    by reflexivity.
  unfold parts, given, setIf. cbn [truthy].
  set (sized := match pageSize with
                | S754_zero _ | S754_nan => false
                | _ => true
                end).
  destruct (String.eqb events EmptyString), (String.eqb orderBy EmptyString),
    sized, (String.eqb pageKey EmptyString);
    cbn [negb assign String.eqb Ascii.eqb Bool.eqb app
         Text.URLSearchParams_toString map fst snd Text.ToString];
    rewrite ?K1, ?K2, ?K3, ?K4;
    cbn [join String.append truthy String.eqb negb];
    reflexivity.
Qed.

Lemma getTransactions_query_witness :
  let given := fun (present : bool) (name text : string) =>
    if present then [name +++ "=" +++ Text.form_encode text] else [] in
  let parts :=
    given (negb (String.eqb "message.action='/cosmos.bank.v1beta1.MsgSend'"
                            EmptyString))
          "events" "message.action='/cosmos.bank.v1beta1.MsgSend'"
    ++ given (negb (String.eqb "ORDER_BY_DESC" EmptyString))
             "order_by" "ORDER_BY_DESC"
    ++ given (truthy (VNum (of_Z 10))) "pagination.limit"
             (NumberToString.toString (of_Z 10))
    ++ given (negb (String.eqb EmptyString EmptyString))
             "pagination.key" EmptyString in
  transactionsOperation Examples.test_api_key Examples.syntax_error
    (Examples.transactions_context "getTransactions")
    Examples.sample_credentials "getTransactions" 0 (Examples.world_with [])
  = httpRequest
      {| method := "GET";
         url := baseUrl Examples.sample_credentials +++ "/cosmos/tx/v1beta1/txs"
                  +++ match parts with
                      | [] => EmptyString
                      | _ => "?" +++ join "&" parts
                      end;
         headers := authorization Examples.test_api_key;
         qs := [];
         body := VUndefined |}
      (Examples.world_with []).
Proof.
  exact (getTransactions_query Examples.test_api_key Examples.syntax_error
           (Examples.transactions_context "getTransactions")
           Examples.sample_credentials 0%nat (Examples.world_with [])
           "message.action='/cosmos.bank.v1beta1.MsgSend'" "ORDER_BY_DESC"
           EmptyString (of_Z 10) eq_refl eq_refl eq_refl eq_refl).
Defined.

(** The [getTransactions] test of the repository. *)
Example getTransactions_of_the_test :
  map url
    (sentBy (transactionsOperation Examples.test_api_key Examples.syntax_error
               (Examples.transactions_context "getTransactions")
               Examples.sample_credentials "getTransactions" 0)
            (Examples.world_with []))
  = ["https://lcd.secret.express/cosmos/tx/v1beta1/txs?events=message.action%3D%27%2Fcosmos.bank.v1beta1.MsgSend%27&order_by=ORDER_BY_DESC&pagination.limit=10"].
Proof. vm_compute. reflexivity. Qed.

(** ** [execute] *)

(** X20. [execute] reads the resource first. A resource that is not one
    of the six makes it throw the [NodeOperationError]
    [The resource "<name>" is not supported] before the credentials are
    read or anything is sent; a resource that is not set throws the
    error of the parameter. For one of the six it runs the handler of
    that resource on the input items, and what it returns is the list of
    the handler wrapped in a list of one output; an error of the handler
    comes through as it is. *)
Theorem execute_dispatches {secp256k1 : Secp256k1}
    (apiKey : value) (syntaxError : string -> error)
    (responseError : error -> option error)
    (ctx : context) (items : list item) (w : world) :
  let run := execute apiKey syntaxError responseError ctx items w in
  (strings ctx "resource" 0%nat = None ->
   run = (Throw (Error "Could not get parameter"), w))
  /\ (forall resource,
         strings ctx "resource" 0%nat = Some resource ->
         ~ In resource [ "smartContracts"; "snip20Tokens"; "snip721Tokens";
                         "ibcOperations"; "transactions"; "accounts" ] ->
         run = (Throw (NodeOperationError
                         ("The resource " +++ String (ascii_of_N 34) resource
                            +++ String (ascii_of_N 34) " is not supported")),
                w))
  /\ (forall resource handler,
         strings ctx "resource" 0%nat = Some resource ->
         In (resource, handler)
            [ ("smartContracts", executeSmartContractsOperations ctx items);
              ("snip20Tokens", executeSnip20TokensOperations ctx items);
              ("snip721Tokens", executeSnip721TokensOperations ctx items);
              ("ibcOperations", executeIbcOperationsOperations ctx items);
              ("transactions",
               executeTransactionsOperations apiKey syntaxError responseError
                 ctx items);
              ("accounts", executeAccountsOperations ctx items) ] ->
         run = match handler w with
               | (Ok out, w') => (Ok [out], w')
               | (Throw e, w') => (Throw e, w')
               end).
Proof.
  intros run. unfold run, execute, str, getNodeParameter. split; [|split].
  - intros Hnone. rewrite Hnone. reflexivity.
  - intros resource Hsome Hout. rewrite Hsome, bind_ret.
    split_operation resource; try excluded Hout. reflexivity.
  - intros resource handler Hsome Hin. rewrite Hsome, bind_ret.
    repeat (destruct Hin as [[= <- <-] | Hin];
            [cbn [String.eqb Ascii.eqb Bool.eqb]; unfold bind;
             match goal with
             | |- context [match ?h w with _ => _ end] =>
                 destruct (h w) as [[out|e] w']
             end; reflexivity|]).
    destruct Hin.
Qed.

(** The [executeContract] test of the repository through [execute], and
    a resource the node does not have. *)
Example execute_of_the_test :
  fst (execute (secp256k1 := secp256k1_package) Examples.test_api_key
         Examples.syntax_error Examples.no_response Examples.contract_context
         [ {| json := VObj []; pairedItem := 0 |} ]
         (Examples.world_with [Examples.answer Examples.accepted]))
  = Ok [[ {| json := Examples.accepted; pairedItem := 0 |} ]]
  /\ option_map message
       (match fst (execute (secp256k1 := secp256k1_package) Examples.test_api_key
                     Examples.syntax_error Examples.no_response
                     (Examples.bare_context "staking" "delegate" true)
                     [ {| json := VObj []; pairedItem := 0 |} ]
                     (Examples.world_with []))
        with
        | Throw e => Some e
        | Ok _ => None
        end)
     = Some ("The resource " +++ quote "staking" +++ " is not supported").
Proof. split; vm_compute; reflexivity. Qed.

(** ** JSON text of a string, read back *)

Lemma string_body_escape_char (c : ascii) (tail : string) :
  JSON.string_body None (escape (String c EmptyString) +++ tail)
  = JSON.prepend (String c EmptyString) (JSON.string_body None tail).
Proof. destruct c as [[] [] [] [] [] [] [] []]; reflexivity. Qed.

Lemma escape_cons (c : ascii) (s : string) :
  escape (String c s) = escape (String c EmptyString) +++ escape s.
Proof.
  cbn [escape]. rewrite append_empty. reflexivity.
Qed.

Lemma string_body_escape (s tail : string) :
  JSON.string_body None (escape s +++ String (ascii_of_N 34) tail)
  = Some (s, tail).
Proof.
  induction s as [|c s IH]; [reflexivity|].
  rewrite escape_cons, append_assoc, string_body_escape_char, IH. reflexivity.
Qed.

Lemma value_at_quote (fuel : nat) (s tail : string) :
  JSON.value_at (S fuel) (quote s +++ tail) = Some (VStr s, tail).
Proof.
  unfold quote.
  change (String (ascii_of_N 34) (escape s +++ String (ascii_of_N 34) EmptyString)
          +++ tail)
    with (String (ascii_of_N 34)
            ((escape s +++ String (ascii_of_N 34) EmptyString) +++ tail)).
  rewrite append_assoc.
  change (String (ascii_of_N 34) EmptyString +++ tail)
    with (String (ascii_of_N 34) tail).
  assert (Hopen : forall text,
             JSON.value_at (S fuel) (String (ascii_of_N 34) text)
             = match JSON.string_body None text with
               | Some (read, rest) => Some (VStr read, rest)
               | None => None
               end) by reflexivity.
  rewrite Hopen, string_body_escape. reflexivity.
Qed.

(** [JSON.parse] reads back what [JSON.stringify] writes for a
    string: the text of a string is never a SyntaxError, and parsing it
    gives the string, byte for byte, whatever quotes, backslashes or
    control characters it holds. *)
Theorem parse_stringify_string (s : string) :
  stringify (VStr s) = Some (quote s)
  /\ JSON.parse (quote s) = Some (VStr s).
Proof.
  split; [reflexivity|].
  unfold JSON.parse.
  replace (2 * String.length (quote s) + 2)%nat
    with (S (2 * String.length (quote s) + 1))%nat by lia.
  rewrite <- (append_empty (quote s)) at 2.
  rewrite value_at_quote. reflexivity.
Qed.

(** A text with every kind of escape. *)
Example parse_stringify_escapes :
  let s := String (ascii_of_N 34)
             (String (ascii_of_N 92)
                (String (ascii_of_N 10) (String (ascii_of_N 1) "/é"))) in
  option_map (fun v => Buffer.toHex (Buffer.from (Text.ToString v)))
             (JSON.parse (quote s))
  = Some "225c0a012fc3a9".
Proof. vm_compute. reflexivity. Qed.

(** ** The signing operations of the SNIP-721 handler *)

(** X21. The four signing operations of the SNIP-721 handler read the
    private key, which must be set, and the gas limit and the gas
    price, which default to 200000 and [0.25uscrt]; with the defaults
    the fee is 50000 uscrt. [transferNft] signs and posts the message
    [{"transfer_nft":{"recipient":...,"token_id":...}}] with them. *)
Theorem snip721_signing_defaults {secp256k1 : Secp256k1}
    (ctx : context) (cred : credentials) (i : nat) (w : world)
    (contractAddress tokenId recipient privateKey : string) :
  strings ctx "contractAddress" i = Some contractAddress ->
  strings ctx "tokenId" i = Some tokenId ->
  strings ctx "recipient" i = Some recipient ->
  strings ctx "privateKey" i = Some privateKey ->
  let gasLimit :=
    match numbers ctx "gasLimit" i with
    | Some n => n
    | None => of_Z 200000
    end in
  let gasPrice :=
    match strings ctx "gasPrice" i with
    | Some p => p
    | None => "0.25uscrt"
    end in
  signingParameters ctx i w = (Ok (privateKey, gasLimit, gasPrice), w)
  /\ snip721Operation ctx cred "transferNft" i w
     = signAndBroadcastTx cred contractAddress
         (VObj [ ("transfer_nft",
                  VObj [ ("recipient", VStr recipient);
                         ("token_id", VStr tokenId) ]) ])
         privateKey gasLimit gasPrice w
  /\ fee (of_Z 200000) "0.25uscrt"
     = VObj [ ("amount",
               VArr [ VObj [ ("denom", VStr "uscrt");
                             ("amount", VStr "50000") ] ]);
              ("gas_limit", VStr "200000");
              ("payer", VStr EmptyString);
              ("granter", VStr EmptyString) ].
Proof.
  intros Hc Ht Hr Hk gasLimit gasPrice.
  assert (Hparams : signingParameters ctx i w
                    = (Ok (privateKey, gasLimit, gasPrice), w)).
  { unfold signingParameters, str, getNodeParameter, gasLimit, gasPrice.
    rewrite Hk.
    destruct (numbers ctx "gasLimit" i), (strings ctx "gasPrice" i); reflexivity. }
  split; [exact Hparams|]. split.
  - unfold snip721Operation. cbn [String.eqb Ascii.eqb Bool.eqb].
    unfold str at 1 2 3. unfold getNodeParameter.
    rewrite Hc, Ht, Hr, !bind_ret.
    rewrite (bind_ok _ _ _ _ _ Hparams). reflexivity.
  - vm_compute. reflexivity.
Qed.

Lemma snip721_signing_defaults_witness :
  signingParameters
    {| strings :=
         Examples.table [ ("contractAddress", "secret1contract"); ("tokenId", "1");
                          ("recipient", "secret1recipient");
                          ("privateKey", Examples.sample_private_key) ];
       numbers := Examples.no_parameters;
       booleans := Examples.no_parameters;
       objects := Examples.no_parameters;
       stored_credentials := Ok Examples.sample_credentials;
       continueOnFail := false;
       apiErrorMessage := Examples.unknown_issue |}
    0 (Examples.world_with [])
  = (Ok (Examples.sample_private_key, of_Z 200000, "0.25uscrt"),
     Examples.world_with []).
Proof.
  exact (proj1
           (snip721_signing_defaults (secp256k1 := secp256k1_package)
              {| strings :=
                   Examples.table [ ("contractAddress", "secret1contract");
                                    ("tokenId", "1");
                                    ("recipient", "secret1recipient");
                                    ("privateKey", Examples.sample_private_key) ];
                 numbers := Examples.no_parameters;
                 booleans := Examples.no_parameters;
                 objects := Examples.no_parameters;
                 stored_credentials := Ok Examples.sample_credentials;
                 continueOnFail := false;
                 apiErrorMessage := Examples.unknown_issue |}
              Examples.sample_credentials 0%nat (Examples.world_with [])
              "secret1contract" "1" "secret1recipient"
              Examples.sample_private_key eq_refl eq_refl eq_refl eq_refl)).
Defined.

(** ** The characters of an address *)

Lemma toHex_digits (bs : list byte) :
  Forall (fun c => Text.one_of "0123456789abcdef" c = true)
         (list_ascii_of_string (Buffer.toHex bs)).
Proof.
  induction bs as [|b bs IH]; [constructor|].
  cbn [Buffer.toHex list_ascii_of_string].
  constructor; [destruct b; reflexivity|].
  constructor; [destruct b; reflexivity | exact IH].
Qed.

(** X22. An address is the prefix [secret] followed by 40 hexadecimal
    digits in lower case, the text of the 20-byte identifier: it has no
    separator and no checksum, and decoding the digits gives the
    identifier back. *)
Theorem address_is_hexadecimal (pubKey : list byte) :
  let identifier := RIPEMD160.digest (SHA256.digest pubKey) in
  getAddressFromPubKey pubKey = "secret" +++ Buffer.toHex identifier
  /\ Forall (fun c => Text.one_of "0123456789abcdef" c = true)
            (list_ascii_of_string (Buffer.toHex identifier))
  /\ String.length (Buffer.toHex identifier) = 40%nat
  /\ Buffer.fromHex (substring 6 40 (getAddressFromPubKey pubKey)) = identifier.
Proof.
  intros identifier.
  assert (Hlen : String.length (Buffer.toHex identifier) = 40%nat)
    by (rewrite toHex_length; unfold identifier;
        rewrite RIPEMD160_digest_length; reflexivity).
  assert (Haddress : getAddressFromPubKey pubKey
                     = "secret" +++ Buffer.toHex identifier).
  { unfold getAddressFromPubKey. fold identifier.
    rewrite substring_whole by (rewrite Hlen; lia). reflexivity. }
  split; [exact Haddress|]. split; [apply toHex_digits|]. split; [exact Hlen|].
  rewrite Haddress.
  change (substring 6 40 ("secret" +++ Buffer.toHex identifier))
    with (substring 0 40 (Buffer.toHex identifier)).
  rewrite substring_whole by (rewrite Hlen; lia).
  rewrite <- (append_empty (Buffer.toHex identifier)), toHex_fromHex_app.
  cbn [Buffer.fromHex]. apply app_nil_r.
Qed.

(** ** Gas prices that are not numbers *)

Lemma mul_NaN (x : number) : mul x NaN = NaN.
Proof. destruct x as [s|s| |s m e]; reflexivity. Qed.

Lemma NaN_mul (x : number) : mul NaN x = NaN.
Proof. destruct x as [s|s| |s m e]; reflexivity. Qed.

(** A text that starts with a letter other than [I] is not a number. *)
Lemma parseFloat_letter (c : ascii) (rest : string) :
  Text.one_of "ABCDEFGHJKLMNOPQRSTUVWXYZabcdefghijklmnopqrstuvwxyz" c = true ->
  parseFloat (String c rest) = NaN.
Proof.
  destruct c as [[] [] [] [] [] [] [] []]; intros H;
    try discriminate H; reflexivity.
Qed.

(** X23. A gas price that holds no number gives no error but the fee
    amount [NaN]. [signAndBroadcastTx] writes [NaN] when what is left of
    the price without its first [uscrt] does not start with a number:
    the empty price, the bare denomination, a price that starts with a
    letter. The IBC operations write [NaN] for every price that starts
    with a letter other than [I]. *)
Theorem fee_of_a_price_without_number (gasLimit : number) (gasPrice : string) :
  (parseFloat (remove_first "uscrt" gasPrice) = NaN ->
   feeAmount gasLimit gasPrice = "NaN")
  /\ feeAmount gasLimit EmptyString = "NaN"
  /\ feeAmount gasLimit "uscrt" = "NaN"
  /\ (forall c rest,
         Text.one_of "ABCDEFGHJKLMNOPQRSTUVWXYZabcdefghijklmnopqrstuvwxyz" c = true ->
         parseFloat (String c rest) = NaN
         /\ get "fee" (ibcAuthInfo gasLimit (String c rest))
            = Some (VObj [ ("amount",
                            VArr [ VObj [ ("denom",
                                           VStr (remove_digits_and_dots
                                                   (String c rest)));
                                          ("amount", VStr "NaN") ] ]);
                           ("gas_limit", VStr (NumberToString.toString gasLimit));
                           ("payer", VStr EmptyString);
                           ("granter", VStr EmptyString) ])).
Proof.
  assert (Hfee : forall price,
             parseFloat (remove_first "uscrt" price) = NaN ->
             feeAmount gasLimit price = "NaN").
  { intros price Hnan. unfold feeAmount. rewrite Hnan, mul_NaN. reflexivity. }
  split; [apply Hfee|]. split; [now apply Hfee|]. split; [now apply Hfee|].
  intros c rest Hc. split; [now apply parseFloat_letter|].
  unfold ibcAuthInfo. cbn [get lookup String.eqb Ascii.eqb Bool.eqb].
  rewrite (parseFloat_letter c rest Hc), NaN_mul. reflexivity.
Qed.

(** ** Answers come through as they are *)

Lemma consuming_quiet {A} (c : M A) : quiet c -> consuming c.
Proof. intros Hc w. exists []. now rewrite (proj2 (Hc w)). Qed.

Lemma consuming_httpRequest options : consuming (httpRequest options).
Proof.
  intros w. unfold httpRequest. destruct (replies w) as [|r rest].
  - now exists [].
  - now exists [r].
Qed.

Lemma consuming_bind {A B} (c : M A) (k : A -> M B) :
  consuming c -> (forall a, consuming (k a)) -> consuming (bind c k).
Proof.
  intros Hc Hk w. unfold bind. destruct (Hc w) as [used1 H1].
  destruct (c w) as [[a|e] w1]; cbn [snd] in H1 |- *.
  - destruct (Hk a w1) as [used2 H2]. exists (used1 ++ used2).
    rewrite H1, H2 at 1. now rewrite app_assoc.
  - now exists used1.
Qed.

Lemma relays_httpRequest options : relays (httpRequest options).
Proof.
  intros w v w'. unfold httpRequest. destruct (replies w) as [|r rest].
  - discriminate.
  - intros [= Hr <-]. exists [], r. now split.
Qed.

Lemma relays_throw (e : error) : relays (throw e).
Proof. intros w v w'. discriminate. Qed.

Lemma relays_bind {A} (c : M A) (k : A -> M value) :
  consuming c -> (forall a, relays (k a)) -> relays (bind c k).
Proof.
  intros Hc Hk w v w'. unfold bind. destruct (Hc w) as [used1 H1].
  destruct (c w) as [[a|e] w1]; cbn [snd] in H1; [|discriminate].
  intros Hrun. destruct (Hk a w1 v w' Hrun) as (used2 & r & H2 & Hr).
  exists (used1 ++ used2), r. split; [|exact Hr].
  rewrite H1, H2. now rewrite app_assoc.
Qed.

Lemma relays_assoc {A B} (c : M A) (f : A -> M B) (g : B -> M value) :
  relays (bind c (fun a => bind (f a) g)) -> relays (bind (bind c f) g).
Proof. intros H w v w'. rewrite bind_assoc. apply H. Qed.

Lemma relays_ret_bind {A} (a : A) (k : A -> M value) :
  relays (k a) -> relays (bind (ret a) k).
Proof. intros H w v w'. rewrite bind_ret. apply H. Qed.

Lemma relays_throw_bind {A} (e : error) (k : A -> M value) :
  relays (bind (throw e) k).
Proof. intros w v w'. discriminate. Qed.

(** Discharges a goal [consuming c]. *)
Ltac consuming :=
  repeat first
    [ apply consuming_quiet; solve [quiet]
    | apply consuming_httpRequest
    | apply consuming_bind; [|intros ?] ].

(** Follows a computation down to its last request. *)
Ltac relay :=
  repeat first
    [ match goal with
      | |- relays (bind (throw _) _) => apply relays_throw_bind
      | |- relays (bind (ret _) _) => apply relays_ret_bind
      | |- relays (bind (bind _ _) _) => apply relays_assoc
      | |- relays (throw _) => apply relays_throw
      | |- relays (httpRequest _) => apply relays_httpRequest
      | |- relays (if ?b then _ else _) => destruct b
      | |- relays (let _ := _ in _) => cbv zeta
      | |- relays (match ?x with (_, _) => _ end) =>
          first [progress cbv beta iota | destruct x]
      end
    | apply relays_bind; [solve [consuming] | intros ?] ].

(** X24. An operation that returns a result returns an answer of the
    network as it came, the one given to its last request: no operation
    of the six handlers alters an answer or makes one up, whether the
    answer reports a success or, inside its JSON, a failure. The one
    exception is [getBalance] of the account handler, which filters the
    balances of the answer. *)
Theorem answers_come_through {secp256k1 : Secp256k1}
    (apiKey : value) (syntaxError : string -> error)
    (ctx : context) (cred : credentials) (operation : string) (i : nat) :
  relays (smartContractsOperation ctx cred operation i)
  /\ relays (snip20Operation ctx cred operation i)
  /\ relays (snip721Operation ctx cred operation i)
  /\ relays (ibcOperation ctx cred operation i)
  /\ relays (transactionsOperation apiKey syntaxError ctx cred operation i)
  /\ (operation <> "getBalance" ->
      relays (accountsOperation ctx cred operation i)).
Proof.
  repeat split.
  - unfold smartContractsOperation, smartContractsOptions.
    split_operation operation; unfold str, num, any, unknownOperation; relay.
  - unfold snip20Operation.
    split_operation operation;
      unfold str, num, any, unknownOperation, createTransactionMessage,
        createQueryMessage, postUnsigned, postQuery;
      relay.
  - unfold snip721Operation, str.
    apply relays_bind; [consuming|]. intros contractAddress.
    split_operation operation;
      unfold signingParameters, signAndBroadcastTx, str, num, any,
        unknownOperation, queryContract;
      relay.
  - unfold ibcOperation.
    split_operation operation;
      unfold str, num, any, unknownOperation, pagedGet, plainGet,
        timeout_timestamp_field;
      relay.
  - unfold transactionsOperation.
    split_operation operation;
      unfold str, num, any, unknownOperation, parseJson;
      relay.
  - intros Hother. unfold accountsOperation.
    split_operation operation;
      unfold str, num, any, unknownOperation, jsonGet;
      relay.
    apply String.eqb_eq in E0. now elim Hother.
Qed.
